(** * Factory Flow: order costing, entity store and session state

    A shallow embedding of the manufacturing-management application:
    the client storage library ([src/lib/storage.ts], in its localStorage
    and its REST variants), the Express/MySQL server ([server/index.js])
    and the page handlers that call them (LoginPage, Layout, Index,
    Dashboard, MaterialsPage, ProductsPage, OrdersPage, UsersPage).

    Conventions of the embedding.
    - A JavaScript [number] is an IEEE-754 binary64 value.  The code is
      written once over a [Number] structure; the instance [binary64]
      (Stdlib's executable [spec_float], precision 53, emax 1024) is the
      program as it runs, the instance on [Qc] is the same code over
      exact rationals.
    - A string is kept as the bytes of its UTF-8 encoding; [===] on
      strings is [String.eqb], [s.length] counts UTF-16 code units
      ([JsString.length]) and a VARCHAR column counts characters
      ([JsString.characters]).
    - [Array.prototype.find] is [List.find], [forEach] with a mutable
      accumulator and [reduce] are [fold_left], [filter]/[map] are the
      list functions.
    - localStorage is a record of its five keys, each holding what its
      JSON text denotes: [JSON.stringify] writes a number that is not
      finite as [null] and [-0] as [0], so a stored number is an
      [option], [None] being [null].
    - [crypto.randomUUID()] and [new Date().toISOString()] are passed
      to the handlers as arguments. *)

From Stdlib Require Import ZArith List String Ascii Bool Lia.
From Stdlib Require Import QArith Qcanon.
From Stdlib Require Import Floats.SpecFloat.
Import ListNotations.

Local Open Scope string_scope.
Local Open Scope list_scope.

(* ================================================================= *)
(** ** JavaScript strings *)

Module JsString.

(** A byte [10xxxxxx], which continues a character. *)
Definition continuation (c : ascii) : bool :=
  (128 <=? nat_of_ascii c)%nat && (nat_of_ascii c <? 192)%nat.

(** [s.length], the number of UTF-16 code units: one for each character,
    two for a character outside the basic plane (the characters that take
    four bytes, led by a byte [11110xxx]). *)
Fixpoint length (s : string) : nat :=
  match s with
  | EmptyString => 0%nat
  | String c s' =>
      ((if continuation c then 0
        else if (240 <=? nat_of_ascii c)%nat then 2
        else 1) + length s')%nat
  end.

(** The number of characters, which is what [VARCHAR(n)] bounds. *)
Fixpoint characters (s : string) : nat :=
  match s with
  | EmptyString => 0%nat
  | String c s' => ((if continuation c then 0 else 1) + characters s')%nat
  end.

End JsString.

(* ================================================================= *)
(** ** JavaScript numbers *)

Module JsNumber.

(** The arithmetic the costing code uses: the literal [0], [+] and [*];
    and [json x], the value of [JSON.parse(JSON.stringify(x))], [None]
    being [null]. *)
Class Number (num : Type) : Type := {
  zero : num;
  add : num -> num -> num;
  mul : num -> num -> num;
  json : num -> option num
}.

(** Laws of exact arithmetic.  IEEE doubles do not satisfy them
    (rounding breaks associativity and distributivity). *)
Class ExactNumber (num : Type) {N : Number num} : Prop := {
  add_zero_r : forall x : num, add x zero = x;
  add_comm : forall x y : num, add x y = add y x;
  add_assoc : forall x y z : num, add x (add y z) = add (add x y) z;
  mul_zero_l : forall x : num, mul zero x = zero;
  mul_add_distr_l : forall x y z : num, mul x (add y z) = add (mul x y) (mul x z);
  mul_add_distr_r : forall x y z : num, mul (add x y) z = add (mul x z) (mul y z)
}.

(** binary64: 53 bits of precision, exponents below 1024. *)
Definition prec : Z := 53.
Definition emax : Z := 1024.

Definition binary64 : Type := spec_float.

(** [JSON.stringify] writes [NaN] and the infinities as [null] and both
    zeros as [0]; the text of any other double reads back as that
    double. *)
Definition json_binary64 (x : binary64) : option binary64 :=
  match x with
  | S754_zero _ => Some (S754_zero false)
  | S754_finite _ _ _ => Some x
  | S754_infinity _ | S754_nan => None
  end.

#[export] Instance binary64_Number : Number binary64 := {
  zero := S754_zero false;
  add := SFadd prec emax;
  mul := SFmul prec emax;
  json := json_binary64
}.

(** The double nearest to an integer literal. *)
Definition of_int (z : Z) : binary64 := binary_normalize prec emax z 0 false.

(** The double denoted by the decimal literal [d / 10^k], for instance
    [decimal 250 2] for [2.50], when [d] and [10^k] are below [2^53]:
    both operands are then exact and the division rounds to nearest, as
    the parser of the literal does. *)
Definition decimal (d k : Z) : binary64 :=
  SFdiv prec emax (of_int d) (of_int (10 ^ k)).

(** The same code over exact rationals. *)
#[export] Instance Qc_Number : Number Qc := {
  zero := Q2Qc 0;
  add := Qcplus;
  mul := Qcmult;
  json := Some
}.

End JsNumber.

Import JsNumber.

(* ================================================================= *)
(** ** Entities ([src/lib/storage.ts]) *)

Inductive Role : Type := admin | manager | employee.

Inductive Status : Type := pending | in_progress | completed.

Definition Status_eqb (a b : Status) : bool :=
  match a, b with
  | pending, pending | in_progress, in_progress | completed, completed => true
  | _, _ => false
  end.

Module User.
Record t : Type := {
  id : string;
  email : string;
  name : string;
  surname : string;
  phone : string;
  role : Role;
  password : string
}.
End User.

Module Material.
Record t (num : Type) : Type := {
  id : string;
  name : string;
  cost : num;
  unit : string;
  stock : num;
  createdAt : string
}.
Arguments id {num}. Arguments name {num}. Arguments cost {num}.
Arguments unit {num}. Arguments stock {num}. Arguments createdAt {num}.

(** The same material with [f] applied to its numbers. *)
Definition map {A B : Type} (f : A -> B) (m : t A) : t B :=
  {| id := id m; name := name m; cost := f (cost m); unit := unit m;
     stock := f (stock m); createdAt := createdAt m |}.
End Material.

(** An entry [{ materialId, quantity }] of a product's bill of materials
    (and of an order's leftovers). *)
Module MaterialQty.
Record t (num : Type) : Type := {
  materialId : string;
  quantity : num
}.
Arguments materialId {num}. Arguments quantity {num}.

Definition map {A B : Type} (f : A -> B) (pm : t A) : t B :=
  {| materialId := materialId pm; quantity := f (quantity pm) |}.
End MaterialQty.

Module Product.
Record t (num : Type) : Type := {
  id : string;
  name : string;
  materials : list (MaterialQty.t num);
  createdAt : string
}.
Arguments id {num}. Arguments name {num}. Arguments materials {num}.
Arguments createdAt {num}.

Definition map {A B : Type} (f : A -> B) (p : t A) : t B :=
  {| id := id p; name := name p;
     materials := List.map (MaterialQty.map f) (materials p);
     createdAt := createdAt p |}.
End Product.

(** A line [{ productId, quantity }] of an order. *)
Module ProductQty.
Record t (num : Type) : Type := {
  productId : string;
  quantity : num
}.
Arguments productId {num}. Arguments quantity {num}.

Definition map {A B : Type} (f : A -> B) (line : t A) : t B :=
  {| productId := productId line; quantity := f (quantity line) |}.
End ProductQty.

Module Order.
Record t (num : Type) : Type := {
  id : string;
  orderNumber : string;
  products : list (ProductQty.t num);
  status : Status;
  totalCost : num;
  leftovers : list (MaterialQty.t num);
  createdAt : string;
  completedAt : option string
}.
Arguments id {num}. Arguments orderNumber {num}. Arguments products {num}.
Arguments status {num}. Arguments totalCost {num}. Arguments leftovers {num}.
Arguments createdAt {num}. Arguments completedAt {num}.

Definition map {A B : Type} (f : A -> B) (o : t A) : t B :=
  {| id := id o; orderNumber := orderNumber o;
     products := List.map (ProductQty.map f) (products o);
     status := status o; totalCost := f (totalCost o);
     leftovers := List.map (MaterialQty.map f) (leftovers o);
     createdAt := createdAt o; completedAt := completedAt o |}.
End Order.

(* ================================================================= *)
(** ** The pricing resolver *)

Section Pricing.
Context {num : Type} {N : Number num}.

(** The inner [forEach] of [calculateOrderCost]: every material entry of
    the product whose material is found adds
    [material.cost * matQty * quantity] to the running [totalCost]. *)
Definition addProductMaterials (materials : list (Material.t num))
    (quantity : num) (totalCost : num)
    (productMaterials : list (MaterialQty.t num)) : num :=
  fold_left
    (fun totalCost pm =>
       match find (fun m => Material.id m =? MaterialQty.materialId pm) materials with
       | Some material =>
           add totalCost
             (mul (mul (Material.cost material) (MaterialQty.quantity pm)) quantity)
       | None => totalCost
       end)
    productMaterials totalCost.

(** The body of the outer [forEach]: one order line. *)
Definition addOrderLine (products : list (Product.t num))
    (materials : list (Material.t num)) (totalCost : num)
    (line : ProductQty.t num) : num :=
  match find (fun p => Product.id p =? ProductQty.productId line) products with
  | Some product =>
      addProductMaterials materials (ProductQty.quantity line) totalCost
        (Product.materials product)
  | None => totalCost
  end.

(** [calculateOrderCost(order, products, materials)]; [order] is a
    [Pick<Order, 'products'>], that is, the list of its lines. *)
Definition calculateOrderCost (order : list (ProductQty.t num))
    (products : list (Product.t num)) (materials : list (Material.t num)) : num :=
  fold_left (addOrderLine products materials) order zero.

(** The callback of the [reduce] in [calculateProductCost] of
    ProductsPage: [sum + (material ? material.cost * pm.quantity : 0)];
    [materials] is the page's material list. *)
Definition addMaterialCost (materials : list (Material.t num)) (sum : num)
    (pm : MaterialQty.t num) : num :=
  add sum
    match find (fun m => Material.id m =? MaterialQty.materialId pm) materials with
    | Some material => mul (Material.cost material) (MaterialQty.quantity pm)
    | None => zero
    end.

(** [calculateProductCost]: the [reduce] from [0] over the bill of
    materials. *)
Definition calculateProductCost (materials : list (Material.t num))
    (productMaterials : list (MaterialQty.t num)) : num :=
  fold_left (addMaterialCost materials) productMaterials zero.

(** The order cost as the specification words it: the sum over the lines
    of the referenced product's cost times the line quantity, [0] for a
    line whose product is not found. *)
Definition orderCost_spec (order : list (ProductQty.t num))
    (products : list (Product.t num)) (materials : list (Material.t num)) : num :=
  fold_left
    (fun sum line =>
       add sum
         match find (fun p => Product.id p =? ProductQty.productId line) products with
         | Some product =>
             mul (calculateProductCost materials (Product.materials product))
               (ProductQty.quantity line)
         | None => zero
         end)
    order zero.

(** The term a bill-of-materials entry adds for a line of quantity
    [quantity]; none when the material is not found. *)
Definition entryTerms (materials : list (Material.t num)) (quantity : num)
    (pm : MaterialQty.t num) : list num :=
  match find (fun m => Material.id m =? MaterialQty.materialId pm) materials with
  | Some material =>
      [mul (mul (Material.cost material) (MaterialQty.quantity pm)) quantity]
  | None => []
  end.

(** The terms one order line adds, in the order the code adds them. *)
Definition lineTerms (products : list (Product.t num))
    (materials : list (Material.t num)) (line : ProductQty.t num) : list num :=
  match find (fun p => Product.id p =? ProductQty.productId line) products with
  | Some product =>
      flat_map (entryTerms materials (ProductQty.quantity line))
        (Product.materials product)
  | None => []
  end.

(** What a single line contributes: the cost of the order made of that
    line alone. *)
Definition lineCost (products : list (Product.t num))
    (materials : list (Material.t num)) (line : ProductQty.t num) : num :=
  calculateOrderCost [line] products materials.

(** The line with its quantity doubled. *)
Definition doubleQuantity (line : ProductQty.t num) : ProductQty.t num :=
  {| ProductQty.productId := ProductQty.productId line;
     ProductQty.quantity := add (ProductQty.quantity line) (ProductQty.quantity line) |}.

End Pricing.

(** The scenario of the specification, in doubles. *)
Module Scenario.
Definition m1 : Material.t binary64 :=
  {| Material.id := "m1"; Material.name := "m1"; Material.cost := decimal 250 2;
     Material.unit := "m"; Material.stock := of_int 0;
     Material.createdAt := "2024-01-01T00:00:00.000Z" |}.
Definition p1 : Product.t binary64 :=
  {| Product.id := "p1"; Product.name := "p1";
     Product.materials :=
       [ {| MaterialQty.materialId := "m1"; MaterialQty.quantity := of_int 3 |} ];
     Product.createdAt := "2024-01-01T00:00:00.000Z" |}.
Definition order : list (ProductQty.t binary64) :=
  [ {| ProductQty.productId := "p1"; ProductQty.quantity := of_int 2 |} ].
End Scenario.

(* ================================================================= *)
(** ** Doubling in doubles *)

(** The doubles the code computes with, as values of [binary64], and the
    whole quantities of an order line. *)
Section Doubling.
Local Open Scope Z_scope.

(** Twice a double: the exponent raised by one, [Infinity] when that
    leaves the format. *)
Definition twice (x : binary64) : binary64 :=
  match x with
  | S754_finite s m e =>
      if e + 1 <=? emax - prec then S754_finite s m (e + 1) else S754_infinity s
  | _ => x
  end.

(** A finite double with a full 53-bit mantissa. *)
Definition normal (m : positive) (e : Z) : Prop :=
  digits2_pos m = 53%positive /\ -1074 <= e.

(** The values a JavaScript number takes: the zeros, the infinities,
    [NaN], and the finite doubles, whose mantissa and exponent are the
    ones the format gives them (at most 53 bits, 53 unless the exponent
    is the least one).  Every number of the program is one; the other
    inhabitants of [binary64] denote no number. *)
Definition is_double (x : binary64) : bool := valid_binary prec emax x.

(** [Number.isFinite(x)]. *)
Definition is_finite (x : binary64) : bool :=
  match x with
  | S754_zero _ | S754_finite _ _ _ => true
  | S754_infinity _ | S754_nan => false
  end.

Definition finite_double (x : binary64) : bool := is_double x && is_finite x.

(** [Number.isInteger(q)]: the value [m * 2^e] of a finite double is a
    whole number, as the quantity [parseInt] gives an order line is. *)
Definition whole (q : binary64) : bool :=
  match q with
  | S754_zero _ => true
  | S754_finite _ m e => (0 <=? e) || (Zpos m mod 2 ^ (- e) =? 0)
  | S754_infinity _ | S754_nan => false
  end.

(** Every material cost and every bill-of-materials quantity is a
    double. *)
Definition all_doubles (products : list (Product.t binary64))
    (materials : list (Material.t binary64)) : bool :=
  forallb (fun m => is_double (Material.cost m)) materials
  && forallb
       (fun p => forallb (fun pm => is_double (MaterialQty.quantity pm)) (Product.materials p))
       products.

End Doubling.

(* ================================================================= *)
(** ** Arrays *)

(** [xs.filter((_, i) => i !== index)], for an index that is a natural
    number. *)
Definition remove_index {A : Type} (index : nat) (xs : list A) : list A :=
  map snd
    (filter (fun p => negb (Nat.eqb (fst p) index))
       (combine (seq 0 (List.length xs)) xs)).

(* ================================================================= *)
(** ** Notifications *)

Inductive Variant : Type := default | destructive.

(** A [toast({ title, variant })] call; the free-text description is not
    kept. *)
Record Toast : Type := {
  title : string;
  variant : Variant
}.

(* ================================================================= *)
(** ** The localStorage storage library *)

Module LocalStorage.
Section LocalStorage.
Context {num : Type} {N : Number num}.

(** The five keys of [STORAGE_KEYS]; [None] is a key that is not set.  A
    key that is set holds what its JSON text denotes: users are made of
    strings and are stored as they are, a number of a material, a product
    or an order is stored as [json] gives it ([None]: [null]). *)
Record t : Type := {
  USERS : option (list User.t);
  MATERIALS : option (list (Material.t (option num)));
  PRODUCTS : option (list (Product.t (option num)));
  ORDERS : option (list (Order.t (option num)));
  CURRENT_USER : option User.t
}.

(** A browser profile that never ran the application. *)
Definition empty : t :=
  {| USERS := None; MATERIALS := None; PRODUCTS := None; ORDERS := None;
     CURRENT_USER := None |}.

Definition getUsers (ls : t) : list User.t :=
  match USERS ls with Some data => data | None => [] end.

Definition saveUsers (users : list User.t) (ls : t) : t :=
  {| USERS := Some users; MATERIALS := MATERIALS ls; PRODUCTS := PRODUCTS ls;
     ORDERS := ORDERS ls; CURRENT_USER := CURRENT_USER ls |}.

Definition getCurrentUser (ls : t) : option User.t := CURRENT_USER ls.

(** [setItem] for a user, [removeItem] for [null]. *)
Definition setCurrentUser (user : option User.t) (ls : t) : t :=
  {| USERS := USERS ls; MATERIALS := MATERIALS ls; PRODUCTS := PRODUCTS ls;
     ORDERS := ORDERS ls; CURRENT_USER := user |}.

(** [getMaterials]: what [JSON.parse] reads, a [cost] or a [stock] that
    was not finite when it was saved being [null]. *)
Definition getMaterials (ls : t) : list (Material.t (option num)) :=
  match MATERIALS ls with Some data => data | None => [] end.

(** [saveMaterials]: [JSON.stringify] of the list. *)
Definition saveMaterials (materials : list (Material.t num)) (ls : t) : t :=
  {| USERS := USERS ls; MATERIALS := Some (map (Material.map json) materials);
     PRODUCTS := PRODUCTS ls; ORDERS := ORDERS ls;
     CURRENT_USER := CURRENT_USER ls |}.

Definition getProducts (ls : t) : list (Product.t (option num)) :=
  match PRODUCTS ls with Some data => data | None => [] end.

Definition saveProducts (products : list (Product.t num)) (ls : t) : t :=
  {| USERS := USERS ls; MATERIALS := MATERIALS ls;
     PRODUCTS := Some (map (Product.map json) products);
     ORDERS := ORDERS ls; CURRENT_USER := CURRENT_USER ls |}.

Definition getOrders (ls : t) : list (Order.t (option num)) :=
  match ORDERS ls with Some data => data | None => [] end.

Definition saveOrders (orders : list (Order.t num)) (ls : t) : t :=
  {| USERS := USERS ls; MATERIALS := MATERIALS ls; PRODUCTS := PRODUCTS ls;
     ORDERS := Some (map (Order.map json) orders);
     CURRENT_USER := CURRENT_USER ls |}.

(** [initializeStorage]: seeds the default admin when no user is stored;
    [uuid] is the value of [crypto.randomUUID()]. *)
Definition defaultAdmin (uuid : string) : User.t :=
  {| User.id := uuid; User.email := "admin@company.com"; User.name := "Admin";
     User.surname := "User"; User.phone := "+370 600 00000"; User.role := admin;
     User.password := "admin123" |}.

Definition initializeStorage (uuid : string) (ls : t) : t :=
  match getUsers ls with
  | [] => saveUsers [defaultAdmin uuid] ls
  | _ :: _ => ls
  end.

End LocalStorage.
Arguments t : clear implicits.
End LocalStorage.

(* ================================================================= *)
(** ** LoginPage, Layout and Index (localStorage variant) *)

Module LoginPage.
Section LoginPage.
Context {num : Type}.

(** What [handleLogin] leaves behind: the storage, the toast shown and
    whether [onLogin] was called. *)
Record Outcome : Type := {
  storage : LocalStorage.t num;
  toast : Toast;
  onLogin : bool
}.

(** The test [u => u.email === email && u.password === password]. *)
Definition credentials (email password : string) (u : User.t) : bool :=
  (User.email u =? email) && (User.password u =? password).

Definition handleLogin (uuid : string) (email password : string)
    (ls : LocalStorage.t num) : Outcome :=
  let ls := LocalStorage.initializeStorage uuid ls in
  let users := LocalStorage.getUsers ls in
  match find (credentials email password) users with
  | Some user =>
      {| storage := LocalStorage.setCurrentUser (Some user) ls;
         toast := {| title := "Login successful"; variant := default |};
         onLogin := true |}
  | None =>
      {| storage := ls;
         toast := {| title := "Login failed"; variant := destructive |};
         onLogin := false |}
  end.

End LoginPage.
Arguments Outcome : clear implicits.
End LoginPage.

Module Layout.
(** [handleLogout]: clears the session, then calls [onLogout]. *)
Definition handleLogout {num : Type} (ls : LocalStorage.t num) : LocalStorage.t num :=
  LocalStorage.setCurrentUser None ls.

(** An entry of [navigation] (the icon is not kept). *)
Record NavItem : Type := {
  id : string;
  label : string
}.

(** [navigation]: four entries for everyone, "Users" after them when
    [user?.role === 'admin']. *)
Definition navigation (user : option User.t) : list NavItem :=
  [ {| id := "dashboard"; label := "Dashboard" |};
    {| id := "orders"; label := "Orders" |};
    {| id := "products"; label := "Products" |};
    {| id := "materials"; label := "Materials" |} ]
  ++ match user with
     | Some u =>
         match User.role u with
         | admin => [ {| id := "users"; label := "Users" |} ]
         | _ => []
         end
     | None => []
     end.
End Layout.

Module Index.
(** The initial value of the [isLoggedIn] state: [!!getCurrentUser()]. *)
Definition isLoggedIn_init {num : Type} (ls : LocalStorage.t num) : bool :=
  match LocalStorage.getCurrentUser ls with Some _ => true | None => false end.

(** The components [renderPage] chooses between. *)
Inductive Component : Type :=
| DashboardComponent
| OrdersComponent
| ProductsComponent
| MaterialsComponent
| UsersComponent.

(** [renderPage]: the [switch] on [currentPage], the dashboard by
    default. *)
Definition renderPage (currentPage : string) : Component :=
  if currentPage =? "dashboard" then DashboardComponent
  else if currentPage =? "orders" then OrdersComponent
  else if currentPage =? "products" then ProductsComponent
  else if currentPage =? "materials" then MaterialsComponent
  else if currentPage =? "users" then UsersComponent
  else DashboardComponent.
End Index.

(* ================================================================= *)
(** ** MaterialsPage and ProductsPage (localStorage variant) *)

Module MaterialsPage.
Section MaterialsPage.
Context {num : Type} {N : Number num}.

(** [handleDelete(id)]: filters the page's list, writes it to storage and
    reports success.  Returns the new list, the storage and the toast. *)
Definition handleDelete (id : string) (materials : list (Material.t num))
    (ls : LocalStorage.t num) : list (Material.t num) * LocalStorage.t num * Toast :=
  let updatedMaterials := filter (fun m => negb (Material.id m =? id)) materials in
  (updatedMaterials, LocalStorage.saveMaterials updatedMaterials ls,
   {| title := "Material deleted"; variant := default |}).

End MaterialsPage.

Module Form.
(** The form keeps [cost] and [stock] as the text typed. *)
Record t : Type := {
  name : string;
  cost : string;
  unit : string;
  stock : string
}.
Definition empty : t :=
  {| name := EmptyString; cost := EmptyString; unit := EmptyString;
     stock := EmptyString |}.
End Form.

Section MaterialsPageForm.
Context {num : Type} {N : Number num}.

(** [parseFloat] is the engine's: it is a parameter here. *)
Variable parseFloat : string -> num.

(** The [useState] cells of the component that the handlers use. *)
Record State : Type := {
  materials : list (Material.t num);
  isDialogOpen : bool;
  editingMaterial : option (Material.t num);
  formData : Form.t
}.

(** The [materialData] that [handleSubmit] builds; [uuid] is
    [crypto.randomUUID()], [now] is [new Date().toISOString()]. *)
Definition materialData (uuid now : string) (st : State) : Material.t num :=
  let form := formData st in
  match editingMaterial st with
  | Some editing =>
      {| Material.id := Material.id editing;
         Material.name := Form.name form;
         Material.cost := parseFloat (Form.cost form);
         Material.unit := Form.unit form;
         Material.stock := parseFloat (Form.stock form);
         Material.createdAt := Material.createdAt editing |}
  | None =>
      {| Material.id := uuid;
         Material.name := Form.name form;
         Material.cost := parseFloat (Form.cost form);
         Material.unit := Form.unit form;
         Material.stock := parseFloat (Form.stock form);
         Material.createdAt := now |}
  end.

Definition handleSubmit (uuid now : string) (st : State) (ls : LocalStorage.t num)
  : State * LocalStorage.t num * Toast :=
  let materialData := materialData uuid now st in
  let updatedMaterials :=
    match editingMaterial st with
    | Some editing =>
        map (fun m => if Material.id m =? Material.id editing then materialData else m)
          (materials st)
    | None => materials st ++ [materialData]
    end in
  ({| materials := updatedMaterials; isDialogOpen := false; editingMaterial := None;
      formData := Form.empty |},
   LocalStorage.saveMaterials updatedMaterials ls,
   {| title := match editingMaterial st with
               | Some _ => "Material updated"
               | None => "Material created"
               end;
      variant := default |}).

End MaterialsPageForm.
End MaterialsPage.

Module ProductsPage.
Section ProductsPage.
Context {num : Type} {N : Number num}.

Definition handleDelete (id : string) (products : list (Product.t num))
    (ls : LocalStorage.t num) : list (Product.t num) * LocalStorage.t num * Toast :=
  let updatedProducts := filter (fun p => negb (Product.id p =? id)) products in
  (updatedProducts, LocalStorage.saveProducts updatedProducts ls,
   {| title := "Product deleted"; variant := default |}).

End ProductsPage.

Module Form.
Record t (num : Type) : Type := {
  name : string;
  materials : list (MaterialQty.t num)
}.
Arguments name {num}. Arguments materials {num}.
Definition empty {num : Type} : t num := {| name := EmptyString; materials := [] |}.
End Form.

Section ProductsPageForm.
Context {num : Type} {N : Number num}.

(** The [useState] cells of the component that the handlers use. *)
Record State : Type := {
  products : list (Product.t num);
  isDialogOpen : bool;
  editingProduct : option (Product.t num);
  formData : Form.t num
}.

(** The [productData] that [handleSubmit] builds:
    [{ ...editingProduct, ...formData }] for an edit. *)
Definition productData (uuid now : string) (st : State) : Product.t num :=
  let form := formData st in
  match editingProduct st with
  | Some editing =>
      {| Product.id := Product.id editing;
         Product.name := Form.name form;
         Product.materials := Form.materials form;
         Product.createdAt := Product.createdAt editing |}
  | None =>
      {| Product.id := uuid;
         Product.name := Form.name form;
         Product.materials := Form.materials form;
         Product.createdAt := now |}
  end.

Definition handleSubmit (uuid now : string) (st : State) (ls : LocalStorage.t num)
  : State * LocalStorage.t num * Toast :=
  match Form.materials (formData st) with
  | [] => (st, ls, {| title := "Error"; variant := destructive |})
  | _ :: _ =>
      let productData := productData uuid now st in
      let updatedProducts :=
        match editingProduct st with
        | Some editing =>
            map (fun p => if Product.id p =? Product.id editing then productData else p)
              (products st)
        | None => products st ++ [productData]
        end in
      ({| products := updatedProducts; isDialogOpen := false; editingProduct := None;
          formData := Form.empty |},
       LocalStorage.saveProducts updatedProducts ls,
       {| title := match editingProduct st with
                   | Some _ => "Product updated"
                   | None => "Product created"
                   end;
          variant := default |})
  end.

Definition handleEdit (product : Product.t num) (st : State) : State :=
  {| products := products st; isDialogOpen := true; editingProduct := Some product;
     formData := {| Form.name := Product.name product;
                    Form.materials := Product.materials product |} |}.

Definition with_materials (materials : list (MaterialQty.t num)) (st : State) : State :=
  {| products := products st; isDialogOpen := isDialogOpen st;
     editingProduct := editingProduct st;
     formData := {| Form.name := Form.name (formData st); Form.materials := materials |} |}.

(** [addMaterial]: a blank entry at the end of the form's list. *)
Definition addMaterial (st : State) : State :=
  with_materials
    (Form.materials (formData st)
     ++ [ {| MaterialQty.materialId := EmptyString; MaterialQty.quantity := zero |} ]) st.

Definition removeMaterial (index : nat) (st : State) : State :=
  with_materials (remove_index index (Form.materials (formData st))) st.

End ProductsPageForm.
End ProductsPage.

(* ================================================================= *)
(** ** The server ([server/index.js]) *)

Module Server.

(** An error raised by [pool.query]. *)
Inductive SqlError : Type :=
| DuplicateEntry (key : string)   (* a PRIMARY KEY or UNIQUE index is violated *)
| BadValue (column : string).     (* the column cannot hold the value          *)

(** What a route answers. [Status500] is the error middleware, reached
    through [asyncHandler] when the query rejects. *)
Inductive Response (T : Type) : Type :=
| Status200 (body : T)
| Status201 (body : T)
| Status204
| Status404 (error : string)
| Status500 (error : SqlError).
Arguments Status200 {T}. Arguments Status201 {T}. Arguments Status204 {T}.
Arguments Status404 {T}. Arguments Status500 {T}.

Section Server.
Context {num : Type}.

(** The database engine is not part of the repository.  Two things it
    decides are kept as parameters: how it compares VARCHAR keys (the
    collation of [id] and [email]), and what a DECIMAL(10,2) or
    DECIMAL(12,2) column holds, and reads back as, for a number sent in
    the JSON body ([None]: the engine refuses the value).  The statements
    below do not look at the VARCHAR lengths: they describe the engine on
    rows that fit their columns ([fits_users] for a user), which is what
    the theorems that say a row is written assume; NOT NULL holds of
    every typed body. *)
Variable sql_eq : string -> string -> bool.
Variable decimal_10_2 decimal_12_2 : num -> option num.

(** The four tables of [ensureSchema], rows in the shape the [map*]
    functions return them.  A table is kept as the list of its rows in the
    order they were inserted; [SELECT *] promises no order, so what is
    said of a table is to be read up to the order of its rows. *)
Record Db : Type := {
  users : list User.t;
  materials : list (Material.t num);
  products : list (Product.t num);
  orders : list (Order.t num)
}.

Definition set_users (rows : list User.t) (db : Db) : Db :=
  {| users := rows; materials := materials db; products := products db;
     orders := orders db |}.
Definition set_materials (rows : list (Material.t num)) (db : Db) : Db :=
  {| users := users db; materials := rows; products := products db;
     orders := orders db |}.
Definition set_products (rows : list (Product.t num)) (db : Db) : Db :=
  {| users := users db; materials := materials db; products := rows;
     orders := orders db |}.
Definition set_orders (rows : list (Order.t num)) (db : Db) : Db :=
  {| users := users db; materials := materials db; products := products db;
     orders := rows |}.

(** *** Statements on a table with PRIMARY KEY [id] *)
Section Table.
Context {Row : Type}.
Variable key : Row -> string.

(** [WHERE id = :id] *)
Definition matches (id : string) (row : Row) : bool := sql_eq (key row) id.

(** No row of the table has the given id. *)
Definition absent (id : string) (rows : list Row) : Prop :=
  forall row, In row rows -> matches id row = false.

(** [INSERT INTO t ... VALUES ...] *)
Definition sql_insert (row : Row) (rows : list Row) : SqlError + list Row :=
  if existsb (matches (key row)) rows then inl (DuplicateEntry "PRIMARY")
  else inr (rows ++ [row]).

(** [UPDATE t SET ... WHERE id = :id]: the table afterwards and
    [affectedRows]. *)
Definition sql_update (id : string) (set : Row -> Row) (rows : list Row)
  : list Row * nat :=
  (map (fun row => if matches id row then set row else row) rows,
   List.length (filter (matches id) rows)).

(** [DELETE FROM t WHERE id = :id]: the table afterwards and
    [affectedRows]. *)
Definition sql_delete (id : string) (rows : list Row) : list Row * nat :=
  (filter (fun row => negb (matches id row)) rows,
   List.length (filter (matches id) rows)).
End Table.

(** *** /api/users *)

Definition get_users (db : Db) : Response (list User.t) := Status200 (users db).

(** The user fits the columns of [users]: [id VARCHAR(36)],
    [email], [name], [surname] and [password VARCHAR(255)],
    [phone VARCHAR(50)]; the three roles fit [role VARCHAR(20)]. *)
Definition fits_users (user : User.t) : bool :=
  (JsString.characters (User.id user) <=? 36)%nat
  && (JsString.characters (User.email user) <=? 255)%nat
  && (JsString.characters (User.name user) <=? 255)%nat
  && (JsString.characters (User.surname user) <=? 255)%nat
  && (JsString.characters (User.phone user) <=? 50)%nat
  && (JsString.characters (User.password user) <=? 255)%nat.

(** [INSERT INTO users]: [id] is the primary key and [email] is UNIQUE. *)
Definition insert_user (user : User.t) (rows : list User.t) : SqlError + list User.t :=
  match sql_insert User.id user rows with
  | inl err => inl err
  | inr rows' =>
      if existsb (fun row => sql_eq (User.email row) (User.email user)) rows
      then inl (DuplicateEntry "email")
      else inr rows'
  end.

Definition post_users (user : User.t) (db : Db) : Response User.t * Db :=
  match insert_user user (users db) with
  | inl err => (Status500 err, db)
  | inr rows => (Status201 user, set_users rows db)
  end.

(** The columns [UPDATE users SET ...] writes; [id] is not one of them. *)
Definition set_user_columns (user row : User.t) : User.t :=
  {| User.id := User.id row; User.email := User.email user;
     User.name := User.name user; User.surname := User.surname user;
     User.phone := User.phone user; User.role := User.role user;
     User.password := User.password user |}.

(** [{ ...req.body, id: req.params.id }] *)
Definition with_user_id (id : string) (body : User.t) : User.t :=
  {| User.id := id; User.email := User.email body; User.name := User.name body;
     User.surname := User.surname body; User.phone := User.phone body;
     User.role := User.role body; User.password := User.password body |}.

(** [UPDATE users]: refused when a matched row would take the email of
    another row. *)
Definition update_user (id : string) (user : User.t) (rows : list User.t)
  : SqlError + list User.t * nat :=
  if existsb (matches User.id id) rows
     && existsb (fun row => negb (matches User.id id row)
                            && sql_eq (User.email row) (User.email user)) rows
  then inl (DuplicateEntry "email")
  else inr (sql_update User.id id (set_user_columns user) rows).

Definition put_users (id : string) (body : User.t) (db : Db) : Response User.t * Db :=
  let user := with_user_id id body in
  match update_user id user (users db) with
  | inl err => (Status500 err, db)
  | inr (rows, affectedRows) =>
      if Nat.eqb affectedRows 0 then (Status404 "User not found", db)
      else (Status200 user, set_users rows db)
  end.

Definition delete_users (id : string) (db : Db) : Response unit * Db :=
  let (rows, affectedRows) := sql_delete User.id id (users db) in
  if Nat.eqb affectedRows 0 then (Status404 "User not found", db)
  else (Status204, set_users rows db).

(** *** /api/materials *)

Definition get_materials (db : Db) : Response (list (Material.t num)) :=
  Status200 (materials db).

(** The row a material is stored as: [cost] is DECIMAL(10,2), [stock] is
    DECIMAL(12,2). *)
Definition material_row (material : Material.t num) : SqlError + Material.t num :=
  match decimal_10_2 (Material.cost material), decimal_12_2 (Material.stock material) with
  | Some cost, Some stock =>
      inr {| Material.id := Material.id material; Material.name := Material.name material;
             Material.cost := cost; Material.unit := Material.unit material;
             Material.stock := stock; Material.createdAt := Material.createdAt material |}
  | None, _ => inl (BadValue "cost")
  | _, None => inl (BadValue "stock")
  end.

Definition with_material_id (id : string) (body : Material.t num) : Material.t num :=
  {| Material.id := id; Material.name := Material.name body;
     Material.cost := Material.cost body; Material.unit := Material.unit body;
     Material.stock := Material.stock body; Material.createdAt := Material.createdAt body |}.

Definition set_material_columns (new row : Material.t num) : Material.t num :=
  with_material_id (Material.id row) new.

Definition post_materials (material : Material.t num) (db : Db)
  : Response (Material.t num) * Db :=
  match material_row material with
  | inl err => (Status500 err, db)
  | inr row =>
      match sql_insert Material.id row (materials db) with
      | inl err => (Status500 err, db)
      | inr rows => (Status201 material, set_materials rows db)
      end
  end.

Definition put_materials (id : string) (body : Material.t num) (db : Db)
  : Response (Material.t num) * Db :=
  let material := with_material_id id body in
  match material_row material with
  | inl err => (Status500 err, db)
  | inr row =>
      let (rows, affectedRows) :=
        sql_update Material.id id (set_material_columns row) (materials db) in
      if Nat.eqb affectedRows 0 then (Status404 "Material not found", db)
      else (Status200 material, set_materials rows db)
  end.

Definition delete_materials (id : string) (db : Db) : Response unit * Db :=
  let (rows, affectedRows) := sql_delete Material.id id (materials db) in
  if Nat.eqb affectedRows 0 then (Status404 "Material not found", db)
  else (Status204, set_materials rows db).

(** *** /api/products *)

Definition get_products (db : Db) : Response (list (Product.t num)) :=
  Status200 (products db).

Definition with_product_id (id : string) (body : Product.t num) : Product.t num :=
  {| Product.id := id; Product.name := Product.name body;
     Product.materials := Product.materials body;
     Product.createdAt := Product.createdAt body |}.

Definition set_product_columns (new row : Product.t num) : Product.t num :=
  with_product_id (Product.id row) new.

Definition post_products (product : Product.t num) (db : Db)
  : Response (Product.t num) * Db :=
  match sql_insert Product.id product (products db) with
  | inl err => (Status500 err, db)
  | inr rows => (Status201 product, set_products rows db)
  end.

Definition put_products (id : string) (body : Product.t num) (db : Db)
  : Response (Product.t num) * Db :=
  let product := with_product_id id body in
  let (rows, affectedRows) :=
    sql_update Product.id id (set_product_columns product) (products db) in
  if Nat.eqb affectedRows 0 then (Status404 "Product not found", db)
  else (Status200 product, set_products rows db).

Definition delete_products (id : string) (db : Db) : Response unit * Db :=
  let (rows, affectedRows) := sql_delete Product.id id (products db) in
  if Nat.eqb affectedRows 0 then (Status404 "Product not found", db)
  else (Status204, set_products rows db).

(** *** /api/orders *)

Definition get_orders (db : Db) : Response (list (Order.t num)) :=
  Status200 (orders db).

(** [order.completedAt || null] on the way in, [row.completed_at ||
    undefined] on the way out: an empty string is stored as absent. *)
Definition completed_at (completedAt : option string) : option string :=
  match completedAt with
  | Some EmptyString => None
  | other => other
  end.

(** The row an order is stored as: [total_cost] is DECIMAL(12,2). *)
Definition order_row (order : Order.t num) : SqlError + Order.t num :=
  match decimal_12_2 (Order.totalCost order) with
  | Some total_cost =>
      inr {| Order.id := Order.id order; Order.orderNumber := Order.orderNumber order;
             Order.products := Order.products order; Order.status := Order.status order;
             Order.totalCost := total_cost; Order.leftovers := Order.leftovers order;
             Order.createdAt := Order.createdAt order;
             Order.completedAt := completed_at (Order.completedAt order) |}
  | None => inl (BadValue "total_cost")
  end.

Definition with_order_id (id : string) (body : Order.t num) : Order.t num :=
  {| Order.id := id; Order.orderNumber := Order.orderNumber body;
     Order.products := Order.products body; Order.status := Order.status body;
     Order.totalCost := Order.totalCost body; Order.leftovers := Order.leftovers body;
     Order.createdAt := Order.createdAt body; Order.completedAt := Order.completedAt body |}.

Definition set_order_columns (new row : Order.t num) : Order.t num :=
  with_order_id (Order.id row) new.

Definition post_orders (order : Order.t num) (db : Db) : Response (Order.t num) * Db :=
  match order_row order with
  | inl err => (Status500 err, db)
  | inr row =>
      match sql_insert Order.id row (orders db) with
      | inl err => (Status500 err, db)
      | inr rows => (Status201 order, set_orders rows db)
      end
  end.

Definition put_orders (id : string) (body : Order.t num) (db : Db)
  : Response (Order.t num) * Db :=
  let order := with_order_id id body in
  match order_row order with
  | inl err => (Status500 err, db)
  | inr row =>
      let (rows, affectedRows) :=
        sql_update Order.id id (set_order_columns row) (orders db) in
      if Nat.eqb affectedRows 0 then (Status404 "Order not found", db)
      else (Status200 order, set_orders rows db)
  end.

Definition delete_orders (id : string) (db : Db) : Response unit * Db :=
  let (rows, affectedRows) := sql_delete Order.id id (orders db) in
  if Nat.eqb affectedRows 0 then (Status404 "Order not found", db)
  else (Status204, set_orders rows db).

(** A request that changes the material price list or the product
    catalogue. *)
Inductive CatalogueRequest : Type :=
| PostMaterial (material : Material.t num)
| PutMaterial (id : string) (body : Material.t num)
| DeleteMaterial (id : string)
| PostProduct (product : Product.t num)
| PutProduct (id : string) (body : Product.t num)
| DeleteProduct (id : string).

Definition serve_catalogue (request : CatalogueRequest) (db : Db) : Db :=
  match request with
  | PostMaterial material => snd (post_materials material db)
  | PutMaterial id body => snd (put_materials id body db)
  | DeleteMaterial id => snd (delete_materials id db)
  | PostProduct product => snd (post_products product db)
  | PutProduct id body => snd (put_products id body db)
  | DeleteProduct id => snd (delete_products id db)
  end.

(** *** Start-up *)

(** The account [ensureSchema] seeds. *)
Definition seedAdmin : User.t :=
  {| User.id := "00000000-0000-0000-0000-000000000001";
     User.email := "admin@company.com"; User.name := "Admin"; User.surname := "User";
     User.phone := "+370 600 00000"; User.role := admin; User.password := "admin123" |}.

(** [ensureSchema] on a database that has its tables ([CREATE TABLE IF
    NOT EXISTS] then does nothing): the admin is inserted when the users
    table is empty (the count is read as a number).  An error ends the
    process. *)
Definition ensureSchema (db : Db) : SqlError + Db :=
  if Nat.eqb (List.length (users db)) 0 then
    match insert_user seedAdmin (users db) with
    | inl err => inl err
    | inr rows => inr (set_users rows db)
    end
  else inr db.

End Server.
Arguments Db : clear implicits.
Arguments CatalogueRequest : clear implicits.
End Server.

(* ================================================================= *)
(** ** The REST storage library *)

Module Api.

(** The settlement of the promise [request] returns. *)
Inductive Result (T : Type) : Type :=
| Resolved (value : T)
| Rejected.   (* [throw new Error(...)] when [!response.ok] *)
Arguments Resolved {T}. Arguments Rejected {T}.

(** [request]: [null] for a 204, the parsed body otherwise. *)
Definition request {T : Type} (response : Server.Response T) : Result (option T) :=
  match response with
  | Server.Status200 body | Server.Status201 body => Resolved (Some body)
  | Server.Status204 => Resolved None
  | Server.Status404 _ | Server.Status500 _ => Rejected
  end.

End Api.

(* ================================================================= *)
(** ** Dashboard *)

Module Dashboard.
(** [totalRevenue]: the stored [totalCost] of the completed orders. *)
Definition totalRevenue {num : Type} {N : Number num} (orders : list (Order.t num)) : num :=
  fold_left (fun sum o => add sum (Order.totalCost o))
    (filter (fun o => Status_eqb (Order.status o) completed) orders) zero.

(** [orders.filter(o => o.status === 'pending').length] *)
Definition pendingOrders {num : Type} (orders : list (Order.t num)) : nat :=
  List.length (filter (fun o => Status_eqb (Order.status o) pending) orders).

(** [orders.filter(o => o.status === 'in-progress').length] *)
Definition inProgressOrders {num : Type} (orders : list (Order.t num)) : nat :=
  List.length (filter (fun o => Status_eqb (Order.status o) in_progress) orders).

(** The "Recent Orders" card: [orders.slice(-5).reverse()]. *)
Definition recentOrders {num : Type} (orders : list (Order.t num)) : list (Order.t num) :=
  rev (skipn (List.length orders - 5) orders).

(** [m.stock < 100], on doubles. *)
Definition isLowStock (m : Material.t binary64) : bool :=
  SFltb (Material.stock m) (of_int 100).

(** The "Low Stock Materials" card:
    [materials.filter(m => m.stock < 100).slice(0, 5)]. *)
Definition lowStockMaterials (materials : list (Material.t binary64))
  : list (Material.t binary64) :=
  firstn 5 (filter isLowStock materials).

(** Whether the card says "All materials well stocked":
    [materials.filter(m => m.stock < 100).length === 0]. *)
Definition allWellStocked (materials : list (Material.t binary64)) : bool :=
  Nat.eqb (List.length (filter isLowStock materials)) 0.
End Dashboard.

(* ================================================================= *)
(** ** OrdersPage *)

Module OrdersPage.

Module Form.
Record t (num : Type) : Type := {
  orderNumber : string;
  products : list (ProductQty.t num);
  status : Status;
  leftovers : list (MaterialQty.t num)
}.
Arguments orderNumber {num}. Arguments products {num}.
Arguments status {num}. Arguments leftovers {num}.
Definition empty {num : Type} : t num :=
  {| orderNumber := EmptyString; products := []; status := pending; leftovers := [] |}.
End Form.

Section OrdersPage.
Context {num : Type} {N : Number num}.
Variable sql_eq : string -> string -> bool.
Variable decimal_12_2 : num -> option num.

Let Db : Type := Server.Db num.

(** The [useState] cells of the component. *)
Record State : Type := {
  orders : list (Order.t num);
  products : list (Product.t num);
  materials : list (Material.t num);
  isDialogOpen : bool;
  editingOrder : option (Order.t num);
  formData : Form.t num
}.

Definition createOrder (order : Order.t num) (db : Db) :=
  let (response, db) := Server.post_orders sql_eq decimal_12_2 order db in
  (Api.request response, db).

Definition updateOrder (order : Order.t num) (db : Db) :=
  let (response, db) := Server.put_orders sql_eq decimal_12_2 (Order.id order) order db in
  (Api.request response, db).

Definition deleteOrder (id : string) (db : Db) :=
  let (response, db) := Server.delete_orders sql_eq id db in
  (Api.request response, db).

(** The [orderData] that [handleSubmit] builds; [uuid] is
    [crypto.randomUUID()], [now] and [now'] are the two readings of the
    clock. *)
Definition orderData (uuid now now' : string) (st : State) : Order.t num :=
  let form := formData st in
  let totalCost := calculateOrderCost (Form.products form) (products st) (materials st) in
  match editingOrder st with
  | Some editing =>
      {| Order.id := Order.id editing;
         Order.orderNumber := Form.orderNumber form;
         Order.products := Form.products form;
         Order.status := Form.status form;
         Order.totalCost := totalCost;
         Order.leftovers := Form.leftovers form;
         Order.createdAt := Order.createdAt editing;
         Order.completedAt :=
           if Status_eqb (Form.status form) completed then Some now
           else Order.completedAt editing |}
  | None =>
      {| Order.id := uuid;
         Order.orderNumber := Form.orderNumber form;
         Order.products := Form.products form;
         Order.status := Form.status form;
         Order.totalCost := totalCost;
         Order.leftovers := Form.leftovers form;
         Order.createdAt := now;
         Order.completedAt :=
           if Status_eqb (Form.status form) completed then Some now' else None |}
  end.

(** The state after a successful save. *)
Definition saved_state (orders' : list (Order.t num)) (st : State) : State :=
  {| orders := orders'; products := products st; materials := materials st;
     isDialogOpen := false; editingOrder := None; formData := Form.empty |}.

Definition handleSubmit (uuid now now' : string) (st : State) (db : Db)
  : State * Db * Toast :=
  match Form.products (formData st) with
  | [] => (st, db, {| title := "Error"; variant := destructive |})
  | _ :: _ =>
      let orderData := orderData uuid now now' st in
      match editingOrder st with
      | Some _ =>
          match updateOrder orderData db with
          | (Api.Resolved (Some saved), db') =>
              (saved_state
                 (map (fun o => if Order.id o =? Order.id saved then saved else o)
                    (orders st)) st,
               db', {| title := "Order updated"; variant := default |})
          | (_, db') =>
              (st, db', {| title := "Unable to save order"; variant := destructive |})
          end
      | None =>
          match createOrder orderData db with
          | (Api.Resolved (Some saved), db') =>
              (saved_state (orders st ++ [saved]) st,
               db', {| title := "Order created"; variant := default |})
          | (_, db') =>
              (st, db', {| title := "Unable to save order"; variant := destructive |})
          end
      end
  end.

Definition handleDelete (id : string) (st : State) (db : Db) : State * Db * Toast :=
  match deleteOrder id db with
  | (Api.Resolved _, db') =>
      ({| orders := filter (fun o => negb (Order.id o =? id)) (orders st);
          products := products st; materials := materials st;
          isDialogOpen := isDialogOpen st; editingOrder := editingOrder st;
          formData := formData st |},
       db', {| title := "Order deleted"; variant := default |})
  | (Api.Rejected, db') =>
      (st, db', {| title := "Unable to delete order"; variant := destructive |})
  end.

(** [handleEdit]: opens the dialog on an order, the form filled from it. *)
Definition handleEdit (order : Order.t num) (st : State) : State :=
  {| orders := orders st; products := products st; materials := materials st;
     isDialogOpen := true; editingOrder := Some order;
     formData := {| Form.orderNumber := Order.orderNumber order;
                    Form.products := Order.products order;
                    Form.status := Order.status order;
                    Form.leftovers := Order.leftovers order |} |}.

Definition with_formData (form : Form.t num) (st : State) : State :=
  {| orders := orders st; products := products st; materials := materials st;
     isDialogOpen := isDialogOpen st; editingOrder := editingOrder st;
     formData := form |}.

Definition with_products (lines : list (ProductQty.t num)) (form : Form.t num)
  : Form.t num :=
  {| Form.orderNumber := Form.orderNumber form; Form.products := lines;
     Form.status := Form.status form; Form.leftovers := Form.leftovers form |}.

Definition with_leftovers (leftovers : list (MaterialQty.t num)) (form : Form.t num)
  : Form.t num :=
  {| Form.orderNumber := Form.orderNumber form; Form.products := Form.products form;
     Form.status := Form.status form; Form.leftovers := leftovers |}.

(** [addProduct]: a blank line at the end of the form's products. *)
Definition addProduct (st : State) : State :=
  with_formData
    (with_products
       (Form.products (formData st)
        ++ [ {| ProductQty.productId := EmptyString; ProductQty.quantity := zero |} ])
       (formData st)) st.

Definition removeProduct (index : nat) (st : State) : State :=
  with_formData
    (with_products (remove_index index (Form.products (formData st))) (formData st)) st.

Definition addLeftover (st : State) : State :=
  with_formData
    (with_leftovers
       (Form.leftovers (formData st)
        ++ [ {| MaterialQty.materialId := EmptyString; MaterialQty.quantity := zero |} ])
       (formData st)) st.

Definition removeLeftover (index : nat) (st : State) : State :=
  with_formData
    (with_leftovers (remove_index index (Form.leftovers (formData st))) (formData st)) st.

End OrdersPage.
End OrdersPage.

(* ================================================================= *)
(** ** UsersPage *)

Module UsersPage.

Module Form.
Record t : Type := {
  email : string;
  name : string;
  surname : string;
  phone : string;
  role : Role;
  password : string
}.
Definition empty : t :=
  {| email := EmptyString; name := EmptyString; surname := EmptyString;
     phone := EmptyString; role := employee; password := EmptyString |}.
End Form.

(** [s.includes(sub)] *)
Definition includes (sub s : string) : bool :=
  match String.index 0 sub s with Some _ => true | None => false end.

Section UsersPage.
Context {num : Type}.
Variable sql_eq : string -> string -> bool.

Let Db : Type := Server.Db num.

Record State : Type := {
  users : list User.t;
  isDialogOpen : bool;
  editingUser : option User.t;
  formData : Form.t
}.

Definition createUser (user : User.t) (db : Db) :=
  let (response, db) := Server.post_users sql_eq user db in
  (Api.request response, db).

Definition updateUser (user : User.t) (db : Db) :=
  let (response, db) := Server.put_users sql_eq (User.id user) user db in
  (Api.request response, db).

Definition deleteUser (id : string) (db : Db) :=
  let (response, db) := Server.delete_users sql_eq id db in
  (Api.request response, db).

(** The [userData] that [handleSubmit] builds:
    [{ ...editingUser, ...formData, password: formData.password ||
    editingUser.password }] for an edit, [{ id, ...formData }] otherwise. *)
Definition userData (uuid : string) (st : State) : User.t :=
  let form := formData st in
  match editingUser st with
  | Some editing =>
      {| User.id := User.id editing;
         User.email := Form.email form; User.name := Form.name form;
         User.surname := Form.surname form; User.phone := Form.phone form;
         User.role := Form.role form;
         User.password :=
           if Form.password form =? EmptyString then User.password editing
           else Form.password form |}
  | None =>
      {| User.id := uuid;
         User.email := Form.email form; User.name := Form.name form;
         User.surname := Form.surname form; User.phone := Form.phone form;
         User.role := Form.role form; User.password := Form.password form |}
  end.

Definition saved_state (users' : list User.t) : State :=
  {| users := users'; isDialogOpen := false; editingUser := None;
     formData := Form.empty |}.

Definition is_editing (st : State) : bool :=
  match editingUser st with Some _ => true | None => false end.

Definition handleSubmit (uuid : string) (st : State) (db : Db) : State * Db * Toast :=
  if negb (includes "@" (Form.email (formData st))) then
    (st, db, {| title := "Validation Error"; variant := destructive |})
  else if (JsString.length (Form.password (formData st)) <? 6)%nat
          && negb (is_editing st) then
    (st, db, {| title := "Validation Error"; variant := destructive |})
  else
    let userData := userData uuid st in
    match editingUser st with
    | Some _ =>
        match updateUser userData db with
        | (Api.Resolved (Some saved), db') =>
            (saved_state
               (map (fun u => if User.id u =? User.id saved then saved else u)
                  (users st)),
             db', {| title := "User updated"; variant := default |})
        | (_, db') =>
            (st, db', {| title := "Unable to save user"; variant := destructive |})
        end
    | None =>
        match createUser userData db with
        | (Api.Resolved (Some saved), db') =>
            (saved_state (users st ++ [saved]),
             db', {| title := "User created"; variant := default |})
        | (_, db') =>
            (st, db', {| title := "Unable to save user"; variant := destructive |})
        end
    end.

(** [id === currentUser?.id] *)
Definition is_current_user (currentUser : option User.t) (id : string) : bool :=
  match currentUser with
  | Some user => id =? User.id user
  | None => false
  end.

(** [handleDelete]; [currentUser] is what [getCurrentUser()] gave when
    the page rendered. *)
Definition handleDelete (currentUser : option User.t) (id : string)
    (st : State) (db : Db) : State * Db * Toast :=
  if is_current_user currentUser id then
    (st, db, {| title := "Cannot delete"; variant := destructive |})
  else
    match deleteUser id db with
    | (Api.Resolved _, db') =>
        ({| users := filter (fun u => negb (User.id u =? id)) (users st);
            isDialogOpen := isDialogOpen st; editingUser := editingUser st;
            formData := formData st |},
         db', {| title := "User deleted"; variant := default |})
    | (Api.Rejected, db') =>
        (st, db', {| title := "Unable to delete user"; variant := destructive |})
    end.

(** The delete button of a user's card is rendered when
    [user.id !== currentUser?.id]. *)
Definition delete_button (currentUser : option User.t) (user : User.t) : bool :=
  negb (is_current_user currentUser (User.id user)).

(** [handleEdit]: opens the dialog on a user, the password field blank. *)
Definition handleEdit (user : User.t) (st : State) : State :=
  {| users := users st; isDialogOpen := true; editingUser := Some user;
     formData :=
       {| Form.email := User.email user; Form.name := User.name user;
          Form.surname := User.surname user; Form.phone := User.phone user;
          Form.role := User.role user; Form.password := EmptyString |} |}.

(** The page shows "Access Denied" when [currentUser?.role !== 'admin']. *)
Definition accessDenied (currentUser : option User.t) : bool :=
  match currentUser with
  | Some user => match User.role user with admin => false | _ => true end
  | None => true
  end.

End UsersPage.
End UsersPage.

(* ================================================================= *)
(** ** CSV export *)

Module Csv.

(** A property value of an exported row: a string, any other value (kept
    as the text [String(value)] gives), or [undefined]/[null], which
    [join] writes as nothing. *)
Inductive Value : Type :=
| Str (s : string)
| Other (text : string)
| Missing.

(** An exported row: an object, as its keys in order with their values. *)
Definition Row : Type := list (string * Value).

Definition comma : string := String (ascii_of_nat 44) EmptyString.
Definition quote : string := String (ascii_of_nat 34) EmptyString.
Definition newline : string := String (ascii_of_nat 10) EmptyString.

(** [row[header]] *)
Definition lookup (header : string) (row : Row) : Value :=
  match find (fun kv => fst kv =? header) row with
  | Some kv => snd kv
  | None => Missing
  end.

(** What a cell contributes to its line: a string that contains a comma
    is put between quotes, every other value is written as it is. *)
Definition cell (value : Value) : string :=
  match value with
  | Str s => if UsersPage.includes comma s then (quote ++ s ++ quote)%string else s
  | Other text => text
  | Missing => EmptyString
  end.

(** [csvContent]: the header line from the keys of the first row, then
    one line per row; [None] is the early return on empty data. *)
Definition csvContent (data : list Row) : option string :=
  match data with
  | [] => None
  | first :: _ =>
      let headers := map fst first in
      Some (String.concat newline
              (String.concat comma headers
               :: map (fun row => String.concat comma
                                    (map (fun header => cell (lookup header row)) headers))
                    data))
  end.

(** [exportToCSV]: the name and the content of the file downloaded, if
    any; [today] is [new Date().toISOString().split('T')[0]]. *)
Definition exportToCSV (today : string) (data : list Row) (filename : string)
  : option (string * string) :=
  match csvContent data with
  | Some content => Some ((filename ++ "_" ++ today ++ ".csv")%string, content)
  | None => None
  end.

(** The text of a value, without quoting. *)
Definition text (value : Value) : string :=
  match value with
  | Str s => s
  | Other text => text
  | Missing => EmptyString
  end.

(** Reading a line back: the fields between occurrences of [sep]. *)
Fixpoint split (sep : ascii) (s : string) : list string :=
  match s with
  | EmptyString => [EmptyString]
  | String c s' =>
      if Ascii.eqb c sep then EmptyString :: split sep s'
      else match split sep s' with
           | field :: fields => String c field :: fields
           | [] => [String c EmptyString]
           end
  end.

(** The character [c] occurs in [s]. *)
Fixpoint occurs (c : ascii) (s : string) : bool :=
  match s with
  | EmptyString => false
  | String c' s' => Ascii.eqb c' c || occurs c s'
  end.

(** A text with neither a comma nor a line feed. *)
Definition plain (s : string) : Prop :=
  occurs (ascii_of_nat 44) s = false /\ occurs (ascii_of_nat 10) s = false.

End Csv.

(* ================================================================= *)
(** ** Catalogue edits seen from the resolver *)

(** The product without its entries for one material. *)
Definition without_material {num : Type} (materialId : string) (product : Product.t num)
  : Product.t num :=
  {| Product.id := Product.id product; Product.name := Product.name product;
     Product.materials :=
       filter (fun pm => negb (MaterialQty.materialId pm =? materialId))
         (Product.materials product);
     Product.createdAt := Product.createdAt product |}.

(* ================================================================= *)
(** ** Sample data *)

Module Sample.

Definition material {num : Type} (id : string) (cost : num) : Material.t num :=
  {| Material.id := id; Material.name := id; Material.cost := cost;
     Material.unit := "m"; Material.stock := cost;
     Material.createdAt := "2024-01-01T00:00:00.000Z" |}.

Definition product {num : Type} (id : string) (materials : list (string * num))
  : Product.t num :=
  {| Product.id := id; Product.name := id;
     Product.materials :=
       map (fun e => {| MaterialQty.materialId := fst e; MaterialQty.quantity := snd e |})
         materials;
     Product.createdAt := "2024-01-01T00:00:00.000Z" |}.

Definition line {num : Type} (productId : string) (quantity : num) : ProductQty.t num :=
  {| ProductQty.productId := productId; ProductQty.quantity := quantity |}.

(** Two materials at 0.01 and 0.08 a unit, one unit of each in a product,
    five of the product ordered. *)
Module Cents.
Definition materials : list (Material.t binary64) :=
  [material "ma" (decimal 1 2); material "mb" (decimal 8 2)].
Definition products : list (Product.t binary64) :=
  [product "p" [("ma", of_int 1); ("mb", of_int 1)]].
Definition order : list (ProductQty.t binary64) := [line "p" (of_int 5)].
End Cents.

(** A material at [Number.MIN_VALUE] (5e-324) a unit, three units in a
    product, half a product ordered. *)
Module Tiny.
Definition MIN_VALUE : binary64 := S754_finite false 1 (-1074).
Definition materials : list (Material.t binary64) := [material "m" MIN_VALUE].
Definition products : list (Product.t binary64) := [product "p" [("m", of_int 3)]].
Definition half : ProductQty.t binary64 := line "p" (decimal 5 1).
End Tiny.

(** A material that costs nothing, three units in a product, and 2^1023
    products ordered: the doubled quantity overflows to [Infinity]. *)
Module Huge.
Definition materials : list (Material.t binary64) := [material "m" (of_int 0)].
Definition products : list (Product.t binary64) := [product "p" [("m", of_int 3)]].
Definition many : ProductQty.t binary64 := line "p" (of_int (2 ^ 1023)).
End Huge.

(** Materials at 0.01 and 0.03 a unit, a product made of one unit of
    each, and an order line for one of each product. *)
Module Mixed.
Definition materials : list (Material.t binary64) :=
  [material "ma" (decimal 1 2); material "mb" (decimal 3 2)].
Definition products : list (Product.t binary64) :=
  [product "pa" [("ma", of_int 1)]; product "pb" [("mb", of_int 1)]].
Definition first : ProductQty.t binary64 := line "pa" (of_int 1).
Definition second : ProductQty.t binary64 := line "pb" (of_int 1).
End Mixed.

(** The scenario over exact rationals. *)
Module Exact.
Definition materials : list (Material.t Qc) := [material "m1" (Q2Qc (5 # 2))].
Definition products : list (Product.t Qc) := [product "p1" [("m1", Q2Qc 3)]].
Definition order : list (ProductQty.t Qc) := [line "p1" (Q2Qc 2)].
End Exact.

Definition user (id email password : string) (role : Role) : User.t :=
  {| User.id := id; User.email := email; User.name := "Ada"; User.surname := "Lovelace";
     User.phone := "+370 600 00001"; User.role := role; User.password := password |}.

Definition ada : User.t := user "u1" "ada@company.com" "analytical" manager.

Definition storage : LocalStorage.t binary64 :=
  LocalStorage.saveUsers [ada] LocalStorage.empty.

Definition db : Server.Db binary64 :=
  {| Server.users := [ada]; Server.materials := [Scenario.m1];
     Server.products := [Scenario.p1]; Server.orders := [] |}.

(** The Users page showing that table, and the same page with the form
    filled for a new user. *)
Definition users_page : UsersPage.State :=
  {| UsersPage.users := [ada]; UsersPage.isDialogOpen := false;
     UsersPage.editingUser := None; UsersPage.formData := UsersPage.Form.empty |}.

Definition grace : User.t :=
  {| User.id := "u2"; User.email := "grace@company.com"; User.name := "Grace";
     User.surname := "Hopper"; User.phone := "+370 600 00002";
     User.role := employee; User.password := "compiler" |}.

(** The Products page showing the products of that database. *)
Definition products_page : ProductsPage.State (num := binary64) :=
  {| ProductsPage.products := [Scenario.p1]; ProductsPage.isDialogOpen := false;
     ProductsPage.editingProduct := None;
     ProductsPage.formData := ProductsPage.Form.empty |}.


(** A Materials page that read [m1] and [m3] from a storage which another
    tab has rewritten since with [m1] and [m4]. *)
Definition stale_materials : list (Material.t binary64) :=
  [Scenario.m1; material "m3" (of_int 3)].

Definition other_tab_storage : LocalStorage.t binary64 :=
  LocalStorage.saveMaterials [Scenario.m1; material "m4" (of_int 4)] storage.

(** Two rows to export; the second has no [Cost]. *)
Definition csv_steel : Csv.Row := [("Name", Csv.Str "Steel"); ("Cost", Csv.Other "2.5")].
Definition csv_wood : Csv.Row := [("Name", Csv.Str "Wood")].

(** The Users page with the editor open on [ada] and a new password
    typed. *)
Definition change_password_page : UsersPage.State :=
  {| UsersPage.users := [ada]; UsersPage.isDialogOpen := true;
     UsersPage.editingUser := Some ada;
     UsersPage.formData :=
       {| UsersPage.Form.email := "ada@company.com";
          UsersPage.Form.name := "Ada";
          UsersPage.Form.surname := "Lovelace";
          UsersPage.Form.phone := "+370 600 00001";
          UsersPage.Form.role := manager;
          UsersPage.Form.password := "difference" |} |}.

(** The sign of the euro, three bytes in UTF-8 and one UTF-16 code
    unit. *)
Definition euro : string :=
  String (ascii_of_nat 226) (String (ascii_of_nat 130)
    (String (ascii_of_nat 172) EmptyString)).

(** The form for a new user whose password is [ab] and two euro signs:
    eight bytes, four code units. *)
Definition short_password_page : UsersPage.State :=
  {| UsersPage.users := [ada]; UsersPage.isDialogOpen := true;
     UsersPage.editingUser := None;
     UsersPage.formData :=
       {| UsersPage.Form.email := "grace@company.com";
          UsersPage.Form.name := "Grace";
          UsersPage.Form.surname := "Hopper";
          UsersPage.Form.phone := "+370 600 00002";
          UsersPage.Form.role := employee;
          UsersPage.Form.password := ("ab" ++ euro ++ euro)%string |} |}.

Definition new_user_page : UsersPage.State :=
  {| UsersPage.users := [ada]; UsersPage.isDialogOpen := true;
     UsersPage.editingUser := None;
     UsersPage.formData :=
       {| UsersPage.Form.email := "grace@company.com";
          UsersPage.Form.name := "Grace";
          UsersPage.Form.surname := "Hopper";
          UsersPage.Form.phone := "+370 600 00002";
          UsersPage.Form.role := employee;
          UsersPage.Form.password := "compiler" |} |}.

End Sample.

(* ================================================================= *)
(** * Properties *)

(** ** The pricing resolver *)

(** Exact rationals satisfy the laws of exact arithmetic. *)
#[export] Instance Qc_ExactNumber : ExactNumber Qc.
Proof.
  constructor; simpl; intros.
  - apply Qcplus_0_r.
  - apply Qcplus_comm.
  - apply Qcplus_assoc.
  - apply Qcmult_0_l.
  - apply Qcmult_plus_distr_r.
  - apply Qcmult_plus_distr_l.
Qed.

Section PricingFacts.
Context {num : Type} {N : Number num}.
Variable products : list (Product.t num).
Variable materials : list (Material.t num).

Lemma addProductMaterials_terms (quantity : num) (pms : list (MaterialQty.t num)) :
  forall totalCost,
    addProductMaterials materials quantity totalCost pms
    = fold_left add (flat_map (entryTerms materials quantity) pms) totalCost.
Proof.
  induction pms as [|pm pms IH]; intro totalCost; [reflexivity|].
  cbn [flat_map]. rewrite fold_left_app, <- IH.
  unfold addProductMaterials, entryTerms. cbn [fold_left].
  destruct (find _ materials); reflexivity.
Qed.

Lemma addOrderLine_terms (totalCost : num) (line : ProductQty.t num) :
  addOrderLine products materials totalCost line
  = fold_left add (lineTerms products materials line) totalCost.
Proof.
  unfold addOrderLine, lineTerms.
  destruct (find _ products) as [product|]; [|reflexivity].
  apply addProductMaterials_terms.
Qed.

Lemma fold_addOrderLine_terms (order : list (ProductQty.t num)) :
  forall totalCost,
    fold_left (addOrderLine products materials) order totalCost
    = fold_left add (flat_map (lineTerms products materials) order) totalCost.
Proof.
  induction order as [|line order IH]; intro totalCost; [reflexivity|].
  cbn [fold_left flat_map]. rewrite fold_left_app, IH, addOrderLine_terms.
  reflexivity.
Qed.

(** A line whose product is not in the list leaves the running total as
    it is. *)
Lemma addOrderLine_dangling (totalCost : num) (line : ProductQty.t num) :
  (forall p, In p products -> Product.id p <> ProductQty.productId line) ->
  addOrderLine products materials totalCost line = totalCost.
Proof.
  intro Habsent. unfold addOrderLine.
  destruct (find _ products) as [product|] eqn:Hfind; [|reflexivity].
  apply find_some in Hfind. destruct Hfind as [Hin Heq].
  apply String.eqb_eq in Heq. elim (Habsent _ Hin Heq).
Qed.

(** An entry whose material is not in the list leaves the running total
    as it is. *)
Lemma addProductMaterials_dangling (quantity totalCost : num)
    (pre post : list (MaterialQty.t num)) (pm : MaterialQty.t num) :
  (forall m, In m materials -> Material.id m <> MaterialQty.materialId pm) ->
  addProductMaterials materials quantity totalCost (pre ++ pm :: post)
  = addProductMaterials materials quantity totalCost (pre ++ post).
Proof.
  intro Habsent. unfold addProductMaterials.
  rewrite !fold_left_app. cbn [fold_left].
  destruct (find _ materials) as [material|] eqn:Hfind; [|reflexivity].
  apply find_some in Hfind. destruct Hfind as [Hin Heq].
  apply String.eqb_eq in Heq. elim (Habsent _ Hin Heq).
Qed.

Section Exact.
Context {E : ExactNumber num}.

Lemma add_zero_l (x : num) : add zero x = x.
Proof. rewrite add_comm. apply add_zero_r. Qed.

(** The inner loop against the reducer of [calculateProductCost], from
    any partial sum. *)
Lemma addProductMaterials_fold_addMaterialCost (quantity : num)
    (pms : list (MaterialQty.t num)) :
  forall totalCost sum,
    addProductMaterials materials quantity (add totalCost (mul sum quantity)) pms
    = add totalCost (mul (fold_left (addMaterialCost materials) pms sum) quantity).
Proof.
  induction pms as [|pm pms IH]; intros totalCost sum; [reflexivity|].
  unfold addProductMaterials in *. cbn [fold_left]. unfold addMaterialCost at 2.
  destruct (find _ materials) as [material|].
  - rewrite <- IH. f_equal.
    rewrite mul_add_distr_r, add_assoc. reflexivity.
  - rewrite add_zero_r. apply IH.
Qed.

(** With exact arithmetic a line adds the product's cost times the
    line quantity. *)
Lemma addProductMaterials_exact (quantity totalCost : num)
    (pms : list (MaterialQty.t num)) :
  addProductMaterials materials quantity totalCost pms
  = add totalCost (mul (calculateProductCost materials pms) quantity).
Proof.
  rewrite <- (add_zero_r totalCost) at 1.
  rewrite <- (mul_zero_l quantity).
  apply addProductMaterials_fold_addMaterialCost.
Qed.

Lemma addOrderLine_exact (totalCost : num) (line : ProductQty.t num) :
  addOrderLine products materials totalCost line
  = add totalCost (lineCost products materials line).
Proof.
  unfold lineCost, calculateOrderCost. cbn [fold_left]. unfold addOrderLine.
  destruct (find _ products) as [product|].
  - rewrite (addProductMaterials_exact _ zero), add_zero_l.
    apply addProductMaterials_exact.
  - symmetry. apply add_zero_r.
Qed.

Lemma fold_addOrderLine_exact (order : list (ProductQty.t num)) :
  forall totalCost,
    fold_left (addOrderLine products materials) order totalCost
    = add totalCost (calculateOrderCost order products materials).
Proof.
  unfold calculateOrderCost.
  induction order as [|line order IH] using rev_ind; intro totalCost.
  - symmetry. apply add_zero_r.
  - rewrite !fold_left_app. cbn [fold_left].
    rewrite !addOrderLine_exact, IH, add_assoc. reflexivity.
Qed.

Lemma calculateOrderCost_app (order order' : list (ProductQty.t num)) :
  calculateOrderCost (order ++ order') products materials
  = add (calculateOrderCost order products materials)
        (calculateOrderCost order' products materials).
Proof.
  unfold calculateOrderCost at 1. rewrite fold_left_app.
  apply fold_addOrderLine_exact.
Qed.

Lemma calculateOrderCost_cons (line : ProductQty.t num)
    (order : list (ProductQty.t num)) :
  calculateOrderCost (line :: order) products materials
  = add (lineCost products materials line)
        (calculateOrderCost order products materials).
Proof. apply (calculateOrderCost_app [line] order). Qed.

Lemma lineCost_spec (line : ProductQty.t num) :
  lineCost products materials line
  = match find (fun p => Product.id p =? ProductQty.productId line) products with
    | Some product =>
        mul (calculateProductCost materials (Product.materials product))
          (ProductQty.quantity line)
    | None => zero
    end.
Proof.
  unfold lineCost, calculateOrderCost. cbn [fold_left]. unfold addOrderLine.
  destruct (find _ products) as [product|]; [|reflexivity].
  rewrite addProductMaterials_exact. apply add_zero_l.
Qed.

Lemma calculateOrderCost_orderCost_spec (order : list (ProductQty.t num)) :
  calculateOrderCost order products materials
  = orderCost_spec order products materials.
Proof.
  unfold calculateOrderCost, orderCost_spec.
  set (totalCost := zero) at 1 3. clearbody totalCost. revert totalCost.
  induction order as [|line order IH]; intro totalCost; [reflexivity|].
  cbn [fold_left]. rewrite addOrderLine_exact, lineCost_spec. apply IH.
Qed.

Lemma lineCost_doubleQuantity (line : ProductQty.t num) :
  lineCost products materials (doubleQuantity line)
  = add (lineCost products materials line) (lineCost products materials line).
Proof.
  rewrite !lineCost_spec. unfold doubleQuantity. cbn.
  destruct (find _ products) as [product|].
  - apply mul_add_distr_l.
  - symmetry. apply add_zero_r.
Qed.

End Exact.
End PricingFacts.

(* ================================================================= *)
(** ** Doubling in doubles *)

Section DoublingFacts.
Local Open Scope Z_scope.

(** Far from the subnormal range [fexp] is the plain [k - 53]. *)
Lemma fexp_large (k : Z) : -1073 <= k - 53 -> fexp prec emax k = k - 53.
Proof. unfold fexp, SpecFloat.emin, prec, emax. lia. Qed.

(** Shifting right does not look at the exponent. *)
Lemma shr_succ (mrs : shr_record) (e n : Z) :
  shr mrs (e + 1) n = (fst (shr mrs e n), snd (shr mrs e n) + 1).
Proof. destruct n; cbn; try reflexivity. f_equal. lia. Qed.

Lemma shr_snd (mrs : shr_record) (e n : Z) :
  snd (shr mrs e n) = if 0 <? n then e + n else e.
Proof. destruct n; reflexivity. Qed.

(** Adding a normal double to itself raises its exponent by one. *)
Lemma SFadd_diag_normal (s : bool) (m : positive) (e : Z) :
  normal m e ->
  SFadd prec emax (S754_finite s m e) (S754_finite s m e) = twice (S754_finite s m e).
Proof.
  intros [Hdigits He]. unfold SFadd. rewrite Z.min_id.
  unfold shl_align at 1 2. rewrite Z.sub_diag. cbn [fst].
  assert (Hsum : cond_Zopp s (Zpos m) + cond_Zopp s (Zpos m)
                 = cond_Zopp s (Zpos m~0)).
  { destruct s; cbn; rewrite Pos.add_diag; reflexivity. }
  rewrite Hsum.
  assert (Hround : binary_round prec emax s m~0 e = twice (S754_finite s m e)).
  { assert (H54 : digits2_pos m~0 = 54%positive)
      by (cbn [digits2_pos]; rewrite Hdigits; reflexivity).
    unfold binary_round. rewrite H54.
    rewrite fexp_large by lia.
    unfold shl_align. replace (54 + e - 53 - e) with 1 by lia.
    unfold binary_round_aux, shr_fexp. cbn [Zdigits2]. rewrite H54.
    rewrite fexp_large by lia.
    replace (54 + e - 53 - e) with 1 by lia.
    cbn [shr shr_record_of_loc iter_pos shr_1 orb shr_m loc_of_shr_record
         round_nearest_even Zdigits2].
    rewrite Hdigits. rewrite fexp_large by lia.
    replace (53 + (e + 1) - 53 - (e + 1)) with 0 by lia.
    cbn [shr shr_m shr_record_of_loc twice]. reflexivity. }
  destruct s; cbn [cond_Zopp Z.opp binary_normalize]; exact Hround.
Qed.

Lemma digits2_pos_iter_xO (m k : positive) :
  Zpos (digits2_pos (Pos.iter xO m k)) = Zpos (digits2_pos m) + Zpos k.
Proof.
  induction k as [|k IH] using Pos.peano_ind.
  - cbn. lia.
  - rewrite Pos.iter_succ. cbn [digits2_pos]. lia.
Qed.

(** *** Digits *)

Lemma digits2_pos_size (p : positive) : digits2_pos p = Pos.size p.
Proof. induction p; cbn; congruence. Qed.

Lemma Zdigits2_log2 (p : positive) : Zpos (digits2_pos p) = Z.log2 (Zpos p) + 1.
Proof.
  rewrite digits2_pos_size. destruct p; cbn; try reflexivity; lia.
Qed.

(** [2 ^ (d - 1) <= p < 2 ^ d] for the number [d] of digits of [p]. *)
Lemma digits2_pos_bounds (p : positive) :
  2 ^ (Zpos (digits2_pos p) - 1) <= Zpos p < 2 ^ Zpos (digits2_pos p).
Proof.
  rewrite Zdigits2_log2. replace (Z.log2 (Zpos p) + 1 - 1) with (Z.log2 (Zpos p)) by lia.
  replace (Z.log2 (Zpos p) + 1) with (Z.succ (Z.log2 (Zpos p))) by lia.
  apply Z.log2_spec. lia.
Qed.

Lemma Zdigits2_unique (z d : Z) :
  0 < d -> 2 ^ (d - 1) <= z < 2 ^ d -> Zdigits2 z = d.
Proof.
  intros Hd Hz. assert (0 < z) by (pose proof (Z.pow_pos_nonneg 2 (d - 1)); lia).
  destruct z as [|p|p]; try lia. cbn [Zdigits2]. rewrite Zdigits2_log2.
  rewrite (Z.log2_unique (Zpos p) (d - 1)); lia || (replace (Z.succ (d - 1)) with d by lia; lia).
Qed.

Lemma Zdigits2_bounds (z : Z) :
  0 < z -> 2 ^ (Zdigits2 z - 1) <= z < 2 ^ Zdigits2 z.
Proof.
  intro Hz. destruct z as [|p|p]; try lia. apply digits2_pos_bounds.
Qed.

Lemma Zdigits2_pos (z : Z) : 0 < z -> 0 < Zdigits2 z.
Proof. destruct z; cbn; lia. Qed.

Lemma Zdigits2_mono (a b : Z) : 0 < a <= b -> Zdigits2 a <= Zdigits2 b.
Proof.
  intros [Ha Hab].
  destruct (Z.le_gt_cases (Zdigits2 a) (Zdigits2 b)) as [|Hgt]; [assumption|].
  pose proof (Zdigits2_bounds a Ha) as [Hla _].
  pose proof (Zdigits2_bounds b ltac:(lia)) as [_ Hub].
  assert (2 ^ Zdigits2 b <= 2 ^ (Zdigits2 a - 1))
    by (apply Z.pow_le_mono_r; lia).
  lia.
Qed.

Lemma Zdigits2_succ (z : Z) : 0 <= z -> Zdigits2 (z + 1) <= Zdigits2 z + 1.
Proof.
  intro Hz. destruct (Z.eq_dec z 0) as [->|Hne]; [cbn; lia|].
  assert (Hpos : 0 < z) by lia.
  pose proof (Zdigits2_bounds z Hpos) as [_ Hub].
  pose proof (Zdigits2_pos z Hpos) as Hd.
  destruct (Z.le_gt_cases (Zdigits2 (z + 1)) (Zdigits2 z + 1)) as [|Hgt]; [assumption|].
  pose proof (Zdigits2_bounds (z + 1) ltac:(lia)) as [Hl _].
  assert (2 ^ (Zdigits2 z + 1) <= 2 ^ (Zdigits2 (z + 1) - 1))
    by (apply Z.pow_le_mono_r; lia).
  rewrite Z.pow_add_r in H by lia. lia.
Qed.

Lemma Zdigits2_shiftr (z k : Z) :
  0 < z -> 0 <= k -> Zdigits2 (Z.shiftr z k) = Z.max 0 (Zdigits2 z - k).
Proof.
  intros Hz Hk.
  pose proof (Zdigits2_bounds z Hz) as [Hl Hu].
  pose proof (Zdigits2_pos z Hz) as Hd.
  rewrite Z.shiftr_div_pow2 by exact Hk.
  destruct (Z.le_gt_cases (Zdigits2 z) k) as [Hle|Hgt].
  - rewrite Z.max_l by lia.
    assert (z < 2 ^ k).
    { assert (2 ^ Zdigits2 z <= 2 ^ k) by (apply Z.pow_le_mono_r; lia). lia. }
    rewrite Z.div_small by lia. reflexivity.
  - rewrite Z.max_r by lia. apply Zdigits2_unique; [lia|].
    assert (Hpk : 0 < 2 ^ k) by (apply Z.pow_pos_nonneg; lia).
    split.
    + apply Z.div_le_lower_bound; [exact Hpk|].
      rewrite <- Z.pow_add_r by lia. replace (k + (Zdigits2 z - k - 1)) with (Zdigits2 z - 1) by lia.
      exact Hl.
    + apply Z.div_lt_upper_bound; [exact Hpk|].
      rewrite <- Z.pow_add_r by lia. replace (k + (Zdigits2 z - k)) with (Zdigits2 z) by lia.
      exact Hu.
Qed.

Lemma digits2_pos_mul (a b : positive) :
  Zpos (digits2_pos a) + Zpos (digits2_pos b) - 1 <= Zpos (digits2_pos (a * b)).
Proof.
  rewrite !Zdigits2_log2.
  pose proof (Z.log2_mul_below (Zpos a) (Zpos b) ltac:(lia) ltac:(lia)) as H.
  rewrite <- Pos2Z.inj_mul in H. lia.
Qed.

(** *** Shifting right *)

Lemma shr_1_m (mrs : shr_record) :
  0 <= shr_m mrs -> shr_m (shr_1 mrs) = Z.shiftr (shr_m mrs) 1.
Proof.
  destruct mrs as [m r s]. cbn [shr_m]. intro Hm.
  rewrite <- Z.div2_spec.
  destruct m as [|[p|p|]|p]; try lia; reflexivity.
Qed.

Lemma shr_1_nonneg (mrs : shr_record) : 0 <= shr_m mrs -> 0 <= shr_m (shr_1 mrs).
Proof.
  intro Hm. rewrite shr_1_m by exact Hm. apply Z.shiftr_nonneg. exact Hm.
Qed.

Lemma iter_shr_1_m (n : positive) :
  forall mrs, 0 <= shr_m mrs ->
    shr_m (iter_pos shr_1 n mrs) = Z.shiftr (shr_m mrs) (Zpos n)
    /\ 0 <= shr_m (iter_pos shr_1 n mrs).
Proof.
  induction n as [n IH|n IH|]; intros mrs Hm; cbn [iter_pos].
  - pose proof (shr_1_nonneg mrs Hm) as H1.
    destruct (IH (shr_1 mrs) H1) as [E1 N1].
    destruct (IH (iter_pos shr_1 n (shr_1 mrs)) N1) as [E2 N2].
    split; [|exact N2].
    rewrite E2, E1, shr_1_m by exact Hm.
    rewrite !Z.shiftr_shiftr by lia. f_equal. lia.
  - destruct (IH mrs Hm) as [E1 N1].
    destruct (IH (iter_pos shr_1 n mrs) N1) as [E2 N2].
    split; [|exact N2].
    rewrite E2, E1. rewrite Z.shiftr_shiftr by lia. f_equal. lia.
  - split; [apply shr_1_m; exact Hm|apply shr_1_nonneg; exact Hm].
Qed.

(** The mantissa after [shr]. *)
Lemma shr_m_shiftr (mrs : shr_record) (e n : Z) :
  0 <= shr_m mrs ->
  shr_m (fst (shr mrs e n)) = Z.shiftr (shr_m mrs) (Z.max 0 n)
  /\ snd (shr mrs e n) = e + Z.max 0 n.
Proof.
  intro Hm. destruct n as [|p|p]; cbn [shr fst snd].
  - rewrite Z.shiftr_0_r. split; [reflexivity|lia].
  - rewrite Z.max_r by lia. split; [apply iter_shr_1_m; exact Hm|reflexivity].
  - rewrite Z.max_l by lia. rewrite Z.shiftr_0_r. split; [reflexivity|lia].
Qed.

(** Shifting out zero bits loses nothing. *)
Lemma shr_1_exact (k : Z) :
  0 <= k ->
  shr_1 {| shr_m := 2 * k; shr_r := false; shr_s := false |}
  = {| shr_m := k; shr_r := false; shr_s := false |}.
Proof. intro Hk. destruct k as [|p|p]; try lia; reflexivity. Qed.

Lemma iter_shr_1_exact (n : positive) :
  forall k, 0 <= k ->
    iter_pos shr_1 n {| shr_m := k * 2 ^ Zpos n; shr_r := false; shr_s := false |}
    = {| shr_m := k; shr_r := false; shr_s := false |}.
Proof.
  induction n as [n IH|n IH|]; intros k Hk; cbn [iter_pos].
  - replace (k * 2 ^ Zpos n~1) with (2 * ((k * 2 ^ Zpos n) * 2 ^ Zpos n)).
    + rewrite shr_1_exact by (apply Z.mul_nonneg_nonneg; [apply Z.mul_nonneg_nonneg|]; lia).
      rewrite IH by (apply Z.mul_nonneg_nonneg; lia). apply IH. exact Hk.
    + replace (Zpos n~1) with (Zpos n + Zpos n + 1) by lia.
      rewrite !Z.pow_add_r, Z.pow_1_r by lia. ring.
  - replace (k * 2 ^ Zpos n~0) with ((k * 2 ^ Zpos n) * 2 ^ Zpos n).
    + rewrite IH by (apply Z.mul_nonneg_nonneg; lia). apply IH. exact Hk.
    + replace (Zpos n~0) with (Zpos n + Zpos n) by lia.
      rewrite Z.pow_add_r by lia. ring.
  - rewrite Z.pow_1_r, Z.mul_comm. apply shr_1_exact. exact Hk.
Qed.

Lemma round_nearest_even_bounds (m : Z) (l : location) :
  m <= round_nearest_even m l <= m + 1.
Proof.
  destruct l as [|[| |]]; cbn [round_nearest_even]; try lia.
  destruct (Z.even m); lia.
Qed.

(** *** Rounding *)

Lemma fexp_spec (k : Z) : fexp prec emax k = Z.max (k - 53) (-1074).
Proof. reflexivity. Qed.

Lemma shr_nonpos (mrs : shr_record) (e n : Z) : n <= 0 -> shr mrs e n = (mrs, e).
Proof. destruct n; try reflexivity. lia. Qed.

Lemma shr_m_of_loc (m : Z) (l : location) : shr_m (shr_record_of_loc m l) = m.
Proof. destruct l as [|[| |]]; reflexivity. Qed.

(** A mantissa that needs no shift is kept as it is. *)
Lemma binary_round_aux_no_shift (s : bool) (m : positive) (e : Z) :
  fexp prec emax (Zpos (digits2_pos m) + e) <= e ->
  binary_round_aux prec emax s (Zpos m) e loc_Exact
  = if e <=? 971 then S754_finite s m e else S754_infinity s.
Proof.
  intro Hshift. unfold binary_round_aux, shr_fexp. cbn [Zdigits2].
  rewrite shr_nonpos by lia.
  cbn [shr_record_of_loc shr_m loc_of_shr_record round_nearest_even Zdigits2].
  rewrite shr_nonpos by lia. reflexivity.
Qed.

(** Rounding commutes with raising the exponent by one when the result is
    not subnormal; overflow turns both sides into the same infinity. *)
Lemma binary_round_aux_twice (s : bool) (m e : Z) (l : location) :
  -1074 <= Zdigits2 m + e - 53 ->
  binary_round_aux prec emax s m (e + 1) l = twice (binary_round_aux prec emax s m e l).
Proof.
  intro Hnormal. unfold binary_round_aux.
  assert (Hfirst :
    shr_fexp prec emax m (e + 1) l
    = (fst (shr_fexp prec emax m e l), snd (shr_fexp prec emax m e l) + 1)
    /\ -1074 <= snd (shr_fexp prec emax m e l)).
  { unfold shr_fexp. rewrite !fexp_spec.
    replace (Z.max (Zdigits2 m + (e + 1) - 53) (-1074) - (e + 1))
      with (Z.max (Zdigits2 m + e - 53) (-1074) - e) by lia.
    split; [apply shr_succ|]. rewrite shr_snd.
    destruct (0 <? Z.max (Zdigits2 m + e - 53) (-1074) - e) eqn:Hs; lia. }
  destruct Hfirst as [-> Hge].
  destruct (shr_fexp prec emax m e l) as [mrs' e']. cbn [fst snd] in *.
  set (m' := round_nearest_even (shr_m mrs') (loc_of_shr_record mrs')).
  assert (Hsecond :
    shr_fexp prec emax m' (e' + 1) loc_Exact
    = (fst (shr_fexp prec emax m' e' loc_Exact),
       snd (shr_fexp prec emax m' e' loc_Exact) + 1)).
  { unfold shr_fexp. rewrite !fexp_spec.
    destruct (Z.le_gt_cases (Zdigits2 m') 53) as [Hfew|Hmany].
    - rewrite !shr_nonpos by lia. reflexivity.
    - replace (Z.max (Zdigits2 m' + (e' + 1) - 53) (-1074) - (e' + 1))
        with (Z.max (Zdigits2 m' + e' - 53) (-1074) - e') by lia.
      apply shr_succ. }
  rewrite Hsecond.
  destruct (shr_fexp prec emax m' e' loc_Exact) as [mrs'' e'']. cbn [fst snd].
  destruct (shr_m mrs'') as [|p|p]; cbn [twice]; try reflexivity.
  unfold prec, emax.
  destruct (e'' <=? 1024 - 53) eqn:H1; destruct (e'' + 1 <=? 1024 - 53) eqn:H2;
    cbn [twice]; unfold prec, emax; try rewrite H2; try reflexivity; lia.
Qed.

(** What [binary_round_aux] returns is a double: never [NaN], and a finite
    result is in canonical form, with 53 digits when it is not subnormal. *)
Lemma binary_round_aux_valid (s : bool) (m : positive) (e : Z) (l : location) :
  e <= fexp prec emax (Zpos (digits2_pos m) + e) ->
  match binary_round_aux prec emax s (Zpos m) e l with
  | S754_finite _ m' e' =>
      bounded prec emax m' e' = true
      /\ (-1074 <= Zpos (digits2_pos m) + e - 53 -> Zpos (digits2_pos m') = 53)
  | S754_nan => False
  | _ => True
  end.
Proof.
  intro Hshift. rewrite fexp_spec in Hshift. unfold binary_round_aux, shr_fexp.
  cbn [Zdigits2]. rewrite fexp_spec.
  set (d := Zpos (digits2_pos m)) in *.
  assert (Hd : 0 < d) by (unfold d; lia).
  set (f0 := Z.max (d + e - 53) (-1074)) in *.
  pose proof (shr_m_shiftr (shr_record_of_loc (Zpos m) l) e (f0 - e)) as Hshr.
  rewrite shr_m_of_loc in Hshr. specialize (Hshr ltac:(lia)).
  destruct (shr (shr_record_of_loc (Zpos m) l) e (f0 - e)) as [mrs1 e1].
  cbn [fst snd] in Hshr. destruct Hshr as [Hm1 He1].
  rewrite Z.max_r in Hm1, He1 by lia.
  replace (e + (f0 - e)) with f0 in He1 by lia. subst e1.
  set (m1 := shr_m mrs1) in *.
  pose proof (Zdigits2_shiftr (Zpos m) (f0 - e) ltac:(lia) ltac:(lia)) as Hx1.
  rewrite <- Hm1 in Hx1. cbn [Zdigits2] in Hx1. fold d in Hx1.
  assert (Hm1nn : 0 <= m1) by (rewrite Hm1; apply Z.shiftr_nonneg; lia).
  set (m' := round_nearest_even m1 (loc_of_shr_record mrs1)).
  pose proof (round_nearest_even_bounds m1 (loc_of_shr_record mrs1)) as Hm'. fold m' in Hm'.
  assert (HD' : Zdigits2 m1 <= Zdigits2 m' <= Zdigits2 m1 + 1).
  { destruct (Z.eq_dec m1 0) as [H0|Hne].
    - rewrite H0 in *. cbn [Zdigits2].
      assert (Hcases : m' = 0 \/ m' = 1) by lia.
      destruct Hcases as [-> | ->]; cbn; lia.
    - split.
      + apply Zdigits2_mono. lia.
      + etransitivity; [apply (Zdigits2_mono m' (m1 + 1)); lia|].
        apply Zdigits2_succ. lia. }
  rewrite fexp_spec.
  pose proof (shr_m_shiftr (shr_record_of_loc m' loc_Exact) f0
                (Z.max (Zdigits2 m' + f0 - 53) (-1074) - f0)) as Hshr2.
  rewrite shr_m_of_loc in Hshr2. specialize (Hshr2 ltac:(lia)).
  destruct (shr (shr_record_of_loc m' loc_Exact) f0
              (Z.max (Zdigits2 m' + f0 - 53) (-1074) - f0)) as [mrs2 e2].
  cbn [fst snd] in Hshr2. destruct Hshr2 as [Hm2 He2].
  assert (Hk2 : 0 <= Z.max (Zdigits2 m' + f0 - 53) (-1074) - f0 <= 1) by lia.
  rewrite Z.max_r in Hm2, He2 by lia.
  destruct (shr_m mrs2) as [|m2|m2] eqn:Hout.
  - exact I.
  - assert (Hm'pos : 0 < m').
    { destruct (Z.eq_dec m' 0) as [H0|]; [|lia].
      rewrite H0, Z.shiftr_0_l in Hm2. discriminate Hm2. }
    pose proof (Zdigits2_shiftr m' (Z.max (Zdigits2 m' + f0 - 53) (-1074) - f0)
                  Hm'pos ltac:(lia)) as Hx2.
    rewrite <- Hm2 in Hx2. cbn [Zdigits2] in Hx2.
    pose proof (Zdigits2_pos m' Hm'pos) as HD'pos.
    unfold prec, emax.
    destruct (e2 <=? 1024 - 53) eqn:Hle; [|exact I].
    split.
    + unfold bounded, canonical_mantissa. rewrite fexp_spec. unfold prec, emax.
      rewrite Hle, andb_true_r. apply Z.eqb_eq. lia.
    + intro Hnormal. lia.
  - assert (0 <= Z.neg m2); [|lia].
    rewrite Hm2. apply Z.shiftr_nonneg. lia.
Qed.

(** A mantissa whose low bits are zero is shifted without loss into the
    subnormal range. *)
Lemma binary_round_aux_exact (s : bool) (j : positive) (k e : Z) :
  0 <= k -> e + k = -1074 -> Zpos (digits2_pos j) <= 53 ->
  binary_round_aux prec emax s (Zpos j * 2 ^ k) e loc_Exact = S754_finite s j (-1074).
Proof.
  intros Hk He Hj.
  destruct k as [|k|k]; try lia.
  - rewrite Z.pow_0_r, Z.mul_1_r. rewrite binary_round_aux_no_shift.
    + replace e with (-1074) by lia. reflexivity.
    + rewrite fexp_spec. lia.
  - assert (HM : Zdigits2 (Zpos j * 2 ^ Zpos k) = Zpos (digits2_pos j) + Zpos k).
    { pose proof (digits2_pos_bounds j) as [Hl Hu].
      assert (Hp : 0 < 2 ^ Zpos k) by (apply Z.pow_pos_nonneg; lia).
      apply Zdigits2_unique; [lia|].
      replace (Zpos (digits2_pos j) + Zpos k - 1)
        with ((Zpos (digits2_pos j) - 1) + Zpos k) by lia.
      rewrite !Z.pow_add_r by lia. nia. }
    unfold binary_round_aux, shr_fexp. rewrite HM, fexp_spec.
    replace (Z.max (Zpos (digits2_pos j) + Zpos k + e - 53) (-1074) - e)
      with (Zpos k) by lia.
    cbn [shr shr_record_of_loc]. rewrite iter_shr_1_exact by lia.
    cbn [shr_m loc_of_shr_record round_nearest_even Zdigits2].
    rewrite fexp_spec. rewrite shr_nonpos by lia.
    cbn [shr_record_of_loc shr_m]. replace (e + Zpos k) with (-1074) by lia.
    reflexivity.
Qed.

(** *** Doubling a rounded value *)

Lemma iter_pos_swap {A : Type} (f : A -> A) (n : positive) :
  forall x, iter_pos f n (f x) = f (iter_pos f n x).
Proof.
  induction n as [n IH|n IH|]; intro x; cbn [iter_pos].
  - rewrite !IH. reflexivity.
  - rewrite !IH. reflexivity.
  - reflexivity.
Qed.

Lemma iter_pos_succ {A : Type} (f : A -> A) (n : positive) (x : A) :
  iter_pos f (Pos.succ n) x = iter_pos f n (f x).
Proof.
  revert x. induction n as [n IH|n IH|]; intro x; cbn [iter_pos Pos.succ].
  - rewrite !IH. rewrite (iter_pos_swap f n (f x)), <- (iter_pos_swap f n (f x)).
    rewrite !iter_pos_swap. reflexivity.
  - reflexivity.
  - reflexivity.
Qed.

(** The mantissa [2 * m] at exponent [e] rounds as [m] at [e + 1] when
    some bit is shifted out. *)
Lemma binary_round_aux_double (s : bool) (m : positive) (e : Z) :
  e + 1 <= fexp prec emax (Zpos (digits2_pos m) + (e + 1)) ->
  binary_round_aux prec emax s (Zpos m~0) e loc_Exact
  = binary_round_aux prec emax s (Zpos m) (e + 1) loc_Exact.
Proof.
  intro Hshift. unfold binary_round_aux.
  assert (Hfirst : shr_fexp prec emax (Zpos m~0) e loc_Exact
                   = shr_fexp prec emax (Zpos m) (e + 1) loc_Exact).
  { unfold shr_fexp. cbn [Zdigits2 digits2_pos shr_record_of_loc].
    replace (Zpos (Pos.succ (digits2_pos m)) + e)
      with (Zpos (digits2_pos m) + (e + 1)) by lia.
    set (f := fexp prec emax (Zpos (digits2_pos m) + (e + 1))) in *.
    destruct (f - e) as [|k|k] eqn:Hk; try lia.
    destruct (Pos.eq_dec k 1) as [->|Hne].
    - replace (f - (e + 1)) with 0 by lia. cbn [shr iter_pos shr_1].
      f_equal. 
    - destruct (Pos.succ_pred_or k) as [H1|Hsucc]; [contradiction|].
      replace (f - (e + 1)) with (Zpos (Pos.pred k)) by lia.
      cbn [shr]. rewrite <- Hsucc at 1. rewrite iter_pos_succ.
      cbn [shr_1]. f_equal. lia. }
  rewrite Hfirst. reflexivity.
Qed.

Lemma binary_round_double (s : bool) (m : positive) (e : Z) :
  binary_round prec emax s m~0 e = binary_round prec emax s m (e + 1).
Proof.
  unfold binary_round. cbn [digits2_pos].
  replace (Zpos (Pos.succ (digits2_pos m)) + e)
    with (Zpos (digits2_pos m) + (e + 1)) by lia.
  set (f := fexp prec emax (Zpos (digits2_pos m) + (e + 1))).
  unfold shl_align.
  destruct (f - e) as [|k|k] eqn:Hk.
  - replace (f - (e + 1)) with (Zneg 1) by lia. cbn [Pos.iter].
    replace f with e by lia. reflexivity.
  - destruct (f - (e + 1)) as [|k'|k'] eqn:Hk'; try lia.
    + apply binary_round_aux_double. fold f. lia.
    + apply binary_round_aux_double. fold f. lia.
  - replace (f - (e + 1)) with (Zneg (Pos.succ k)) by lia.
    rewrite Pos.iter_succ_r. reflexivity.
Qed.

(** What [shl_align] hands over to the rounding. *)
Lemma shl_align_fexp_spec (m : positive) (e : Z) :
  let mz := fst (shl_align m e (fexp prec emax (Zpos (digits2_pos m) + e))) in
  let ez := snd (shl_align m e (fexp prec emax (Zpos (digits2_pos m) + e))) in
  Zpos (digits2_pos mz) + ez = Zpos (digits2_pos m) + e
  /\ ez <= fexp prec emax (Zpos (digits2_pos m) + e)
  /\ (fexp prec emax (Zpos (digits2_pos m) + e) <= e ->
      ez = fexp prec emax (Zpos (digits2_pos m) + e)).
Proof.
  unfold shl_align.
  destruct (fexp prec emax (Zpos (digits2_pos m) + e) - e) as [|k|k] eqn:Hk;
    cbn [fst snd].
  - split; [reflexivity|]. split; lia.
  - split; [reflexivity|]. split; lia.
  - rewrite digits2_pos_iter_xO. split; [lia|]. split; lia.
Qed.

(** [binary_round] returns a double. *)
Lemma binary_round_valid (s : bool) (m : positive) (e : Z) :
  match binary_round prec emax s m e with
  | S754_finite _ m' e' =>
      bounded prec emax m' e' = true
      /\ (-1074 <= Zpos (digits2_pos m) + e - 53 -> Zpos (digits2_pos m') = 53)
  | S754_nan => False
  | _ => True
  end.
Proof.
  unfold binary_round.
  pose proof (shl_align_fexp_spec m e) as Hspec.
  destruct (shl_align m e (fexp prec emax (Zpos (digits2_pos m) + e))) as [mz ez].
  cbn [fst snd] in Hspec. destruct Hspec as (Hsum & Hle & _).
  pose proof (binary_round_aux_valid s mz ez loc_Exact) as Hvalid.
  rewrite Hsum in Hvalid. specialize (Hvalid Hle).
  exact Hvalid.
Qed.

Lemma binary_round_twice (s : bool) (m : positive) (e : Z) :
  -1074 <= Zpos (digits2_pos m) + e - 53 ->
  binary_round prec emax s m (e + 1) = twice (binary_round prec emax s m e).
Proof.
  intro Hnormal. unfold binary_round.
  rewrite !fexp_spec. unfold shl_align.
  replace (Z.max (Zpos (digits2_pos m) + (e + 1) - 53) (-1074) - (e + 1))
    with (Z.max (Zpos (digits2_pos m) + e - 53) (-1074) - e) by lia.
  destruct (Z.max (Zpos (digits2_pos m) + e - 53) (-1074) - e) as [|k|k] eqn:Hshift.
  - apply binary_round_aux_twice. cbn [Zdigits2]. lia.
  - apply binary_round_aux_twice. cbn [Zdigits2]. lia.
  - replace (Z.max (Zpos (digits2_pos m) + (e + 1) - 53) (-1074))
      with (Z.max (Zpos (digits2_pos m) + e - 53) (-1074) + 1) by lia.
    apply binary_round_aux_twice. cbn [Zdigits2].
    rewrite digits2_pos_iter_xO. lia.
Qed.

(** *** Doubles in canonical form *)

Lemma bounded_spec (m : positive) (e : Z) :
  bounded prec emax m e = true ->
  -1074 <= e <= 971 /\ Zpos (digits2_pos m) <= 53
  /\ (Zpos (digits2_pos m) = 53 \/ e = -1074).
Proof.
  unfold bounded, canonical_mantissa. rewrite fexp_spec. unfold prec, emax.
  rewrite andb_true_iff, Z.eqb_eq, Z.leb_le. lia.
Qed.

Lemma add_diag_subnormal (s : bool) (m : positive) :
  Zpos (digits2_pos m) <= 52 ->
  SFadd prec emax (S754_finite s m (-1074)) (S754_finite s m (-1074))
  = S754_finite s m~0 (-1074).
Proof.
  intro Hd. unfold SFadd. rewrite Z.min_id. unfold shl_align at 1 2.
  rewrite Z.sub_diag. cbn [fst].
  assert (Hsum : cond_Zopp s (Zpos m) + cond_Zopp s (Zpos m) = cond_Zopp s (Zpos m~0)).
  { destruct s; cbn; rewrite Pos.add_diag; reflexivity. }
  rewrite Hsum.
  assert (Hround : binary_round prec emax s m~0 (-1074) = S754_finite s m~0 (-1074)).
  { unfold binary_round. cbn [digits2_pos]. rewrite fexp_spec. unfold shl_align.
    replace (Z.max (Zpos (Pos.succ (digits2_pos m)) + -1074 - 53) (-1074) - -1074)
      with 0 by lia.
    rewrite binary_round_aux_no_shift; [reflexivity|].
    cbn [digits2_pos]. rewrite fexp_spec. lia. }
  destruct s; cbn [cond_Zopp Z.opp binary_normalize]; exact Hround.
Qed.

(** [x + x] for a finite double: the exponent raised by one, or, for a
    subnormal one, the mantissa doubled. *)
Lemma add_diag (s : bool) (m : positive) (e : Z) :
  bounded prec emax m e = true ->
  SFadd prec emax (S754_finite s m e) (S754_finite s m e)
  = if Zpos (digits2_pos m) =? 53 then twice (S754_finite s m e)
    else S754_finite s m~0 e.
Proof.
  intro Hb. destruct (bounded_spec m e Hb) as (He & Hd & Hcases).
  destruct (Z.eqb_spec (Zpos (digits2_pos m)) 53) as [H53|Hne].
  - apply SFadd_diag_normal. split; [|lia]. injection H53 as H53. exact H53.
  - destruct Hcases as [H53|He']; [contradiction|]. subst e.
    apply add_diag_subnormal. lia.
Qed.

Lemma add_diag_zero (s : bool) : SFadd prec emax (S754_zero s) (S754_zero s) = S754_zero s.
Proof. destruct s; reflexivity. Qed.

Lemma add_diag_infinity (s : bool) :
  SFadd prec emax (S754_infinity s) (S754_infinity s) = S754_infinity s.
Proof. destruct s; reflexivity. Qed.

(** Raising the exponent by one before rounding doubles the rounded
    value, whatever the range. *)
Lemma binary_round_succ_add (s : bool) (m : positive) (e : Z) :
  -1074 <= e ->
  binary_round prec emax s m (e + 1)
  = SFadd prec emax (binary_round prec emax s m e) (binary_round prec emax s m e).
Proof.
  intro He.
  destruct (Z.le_gt_cases (-1074) (Zpos (digits2_pos m) + e - 53)) as [Hnormal|Hsub].
  - rewrite binary_round_twice by exact Hnormal.
    pose proof (binary_round_valid s m e) as Hvalid.
    destruct (binary_round prec emax s m e) as [s'|s'| |s' m' e'].
    + rewrite add_diag_zero. reflexivity.
    + rewrite add_diag_infinity. reflexivity.
    + destruct Hvalid.
    + destruct Hvalid as [Hb H53]. specialize (H53 Hnormal).
      rewrite add_diag by exact Hb. rewrite H53. reflexivity.
  - unfold binary_round. rewrite !fexp_spec. unfold shl_align.
    rewrite !Z.max_r by lia.
    destruct (-1074 - e) as [|k|k] eqn:Hk; try lia.
    + assert (He' : e = -1074) by lia. subst e.
      change (-1074 - (-1074 + 1)) with (Zneg 1). cbn [Pos.iter].
      rewrite !binary_round_aux_no_shift
        by (cbn [digits2_pos]; rewrite fexp_spec; lia).
      change (-1074 <=? 971) with true. cbv iota.
      rewrite add_diag_subnormal by lia. reflexivity.
    + replace (-1074 - (e + 1)) with (Zneg (Pos.succ k)) by lia.
      rewrite Pos.iter_succ.
      assert (Hd : Zpos (digits2_pos (Pos.iter xO m k)) <= 52)
        by (rewrite digits2_pos_iter_xO; lia).
      rewrite !binary_round_aux_no_shift
        by (cbn [digits2_pos]; rewrite fexp_spec; lia).
      change (-1074 <=? 971) with true. cbv iota.
      rewrite add_diag_subnormal by exact Hd. reflexivity.
Qed.

Lemma binary_normalize_succ_add (z e : Z) :
  -1074 <= e ->
  binary_normalize prec emax z (e + 1) false
  = SFadd prec emax (binary_normalize prec emax z e false)
      (binary_normalize prec emax z e false).
Proof.
  intro He. destruct z as [|p|p]; cbn [binary_normalize].
  - reflexivity.
  - apply binary_round_succ_add. exact He.
  - apply binary_round_succ_add. exact He.
Qed.

Lemma binary_normalize_double (z e : Z) :
  binary_normalize prec emax (2 * z) e false = binary_normalize prec emax z (e + 1) false.
Proof.
  destruct z as [|p|p]; cbn [binary_normalize Z.mul Pos.mul].
  - reflexivity.
  - apply binary_round_double.
  - apply binary_round_double.
Qed.

(** *** Sums and products of doubled values *)

Lemma finite_double_spec (x : binary64) :
  finite_double x = true ->
  match x with
  | S754_zero _ => True
  | S754_finite _ m e => bounded prec emax m e = true
  | _ => False
  end.
Proof.
  unfold finite_double, is_double. destruct x; cbn; try discriminate; try tauto.
  rewrite andb_true_r. tauto.
Qed.

Lemma iter_xO_val (m d : positive) : Zpos (Pos.iter xO m d) = Zpos m * 2 ^ Zpos d.
Proof.
  induction d as [|d IH] using Pos.peano_ind.
  - cbn [Pos.iter]. rewrite Z.pow_1_r. lia.
  - rewrite Pos.iter_succ, Pos2Z.inj_xO, IH, Pos2Z.inj_succ, Z.pow_succ_r by lia. ring.
Qed.

Lemma shl_align_fst (m : positive) (e ez : Z) :
  ez <= e -> Zpos (fst (shl_align m e ez)) = Zpos m * 2 ^ (e - ez).
Proof.
  intro Hle. unfold shl_align.
  destruct (ez - e) as [|d|d] eqn:Hd; try lia; cbn [fst].
  - replace (e - ez) with 0 by lia. rewrite Z.pow_0_r. lia.
  - rewrite iter_xO_val. f_equal. f_equal. lia.
Qed.

Lemma cond_Zopp_double (s : bool) (z : Z) : cond_Zopp s (2 * z) = 2 * cond_Zopp s z.
Proof. destruct s; cbn [cond_Zopp]; lia. Qed.

(** The shape of [x + x] when it is finite. *)
Lemma add_diag_finite (s : bool) (m : positive) (e : Z) :
  bounded prec emax m e = true ->
  is_finite (SFadd prec emax (S754_finite s m e) (S754_finite s m e)) = true ->
  exists m' e',
    SFadd prec emax (S754_finite s m e) (S754_finite s m e) = S754_finite s m' e'
    /\ -1074 <= e
    /\ ((m' = m /\ e' = e + 1) \/ (m' = xO m /\ e' = e /\ e = -1074)).
Proof.
  intros Hb. destruct (bounded_spec m e Hb) as (He & Hd & Hcases).
  rewrite add_diag by exact Hb.
  destruct (Z.eqb_spec (Zpos (digits2_pos m)) 53) as [H53|Hne].
  - cbn [twice]. unfold prec, emax.
    destruct (e + 1 <=? 1024 - 53); [|discriminate].
    intros _. exists m, (e + 1). split; [reflexivity|]. split; [lia|left; lia].
  - intros _. exists (xO m), e. split; [reflexivity|]. split; [lia|right; lia].
Qed.

(** Adding the doubles of two doubles gives the double of their sum. *)
Lemma add_double (a b : binary64) :
  finite_double a = true -> finite_double b = true ->
  is_finite (add a a) = true -> is_finite (add b b) = true ->
  add (add a a) (add b b) = add (add a b) (add a b).
Proof.
  intros Ha Hb. apply finite_double_spec in Ha, Hb.
  unfold add, binary64_Number.
  destruct a as [sa|sa| |sa ma ea]; try contradiction;
    destruct b as [sb|sb| |sb mb eb]; try contradiction.
  - intros _ _. destruct sa, sb; reflexivity.
  - intros _ Hfb. rewrite add_diag_zero.
    change (SFadd prec emax (S754_zero sa) (S754_finite sb mb eb))
      with (S754_finite sb mb eb).
    destruct (add_diag_finite sb mb eb Hb Hfb) as (m' & e' & -> & _). reflexivity.
  - intros Hfa _. rewrite add_diag_zero.
    change (SFadd prec emax (S754_finite sa ma ea) (S754_zero sb))
      with (S754_finite sa ma ea).
    destruct (add_diag_finite sa ma ea Ha Hfa) as (m' & e' & -> & _). reflexivity.
  - intros Hfa Hfb.
    destruct (add_diag_finite sa ma ea Ha Hfa) as (ma' & ea' & -> & Hea & Hra).
    destruct (add_diag_finite sb mb eb Hb Hfb) as (mb' & eb' & -> & Heb & Hrb).
    set (ez := Z.min ea eb).
    set (sum := cond_Zopp sa (Zpos ma * 2 ^ (ea - ez))
                + cond_Zopp sb (Zpos mb * 2 ^ (eb - ez))).
    assert (Hab : SFadd prec emax (S754_finite sa ma ea) (S754_finite sb mb eb)
                  = binary_normalize prec emax sum ez false).
    { unfold SFadd. fold ez. rewrite !shl_align_fst by (unfold ez; lia). reflexivity. }
    rewrite Hab. rewrite <- binary_normalize_succ_add by (unfold ez; lia).
    unfold SFadd. rewrite !shl_align_fst by lia.
    assert (Hpa : 2 ^ (ea + 1 - ez) = 2 * 2 ^ (ea - ez)).
    { replace (ea + 1 - ez) with (Z.succ (ea - ez)) by lia.
      apply Z.pow_succ_r. unfold ez. lia. }
    assert (Hpb : 2 ^ (eb + 1 - ez) = 2 * 2 ^ (eb - ez)).
    { replace (eb + 1 - ez) with (Z.succ (eb - ez)) by lia.
      apply Z.pow_succ_r. unfold ez. lia. }
    destruct Hra as [[-> ->]|(-> & -> & Hsa)], Hrb as [[-> ->]|(-> & -> & Hsb)].
    + replace (Z.min (ea + 1) (eb + 1)) with (ez + 1) by (unfold ez; lia).
      replace (ea + 1 - (ez + 1)) with (ea - ez) by lia.
      replace (eb + 1 - (ez + 1)) with (eb - ez) by lia.
      reflexivity.
    + replace (Z.min (ea + 1) eb) with ez by (unfold ez; lia).
      rewrite <- binary_normalize_double. f_equal. unfold sum.
      rewrite Hpa, (Pos2Z.inj_xO mb).
      rewrite Z.mul_add_distr_l, <- !cond_Zopp_double. f_equal; f_equal; ring.
    + replace (Z.min ea (eb + 1)) with ez by (unfold ez; lia).
      rewrite <- binary_normalize_double. f_equal. unfold sum.
      rewrite Hpb, (Pos2Z.inj_xO ma).
      rewrite Z.mul_add_distr_l, <- !cond_Zopp_double. f_equal; f_equal; ring.
    + rewrite <- binary_normalize_double. f_equal. fold ez. unfold sum.
      rewrite (Pos2Z.inj_xO ma), (Pos2Z.inj_xO mb).
      rewrite Z.mul_add_distr_l, <- !cond_Zopp_double. f_equal; f_equal; ring.
Qed.

(** A whole non-zero double has a full mantissa. *)
Lemma whole_normal (s : bool) (m : positive) (e : Z) :
  bounded prec emax m e = true -> whole (S754_finite s m e) = true ->
  Zpos (digits2_pos m) = 53.
Proof.
  intros Hb Hw. destruct (bounded_spec m e Hb) as (He & Hd & [H53|Hsub]); [exact H53|].
  exfalso. subst e. cbn [whole] in Hw.
  change (0 <=? -1074) with false in Hw. cbn [orb] in Hw.
  apply Z.eqb_eq in Hw.
  pose proof (digits2_pos_bounds m) as [_ Hlt].
  assert (Hpow : 2 ^ Zpos (digits2_pos m) <= 2 ^ (- -1074)).
  { apply Z.pow_le_mono_r; lia. }
  rewrite Z.mod_small in Hw by lia. lia.
Qed.

Lemma is_double_finite (s : bool) (m : positive) (e : Z) :
  is_double (S754_finite s m e) = bounded prec emax m e.
Proof. reflexivity. Qed.

(** In a product of two doubles the exponent is never above the one the
    format gives the mantissa. *)
Lemma mul_exponent (mp mq : positive) (ep eq : Z) :
  bounded prec emax mp ep = true -> bounded prec emax mq eq = true ->
  ep + eq <= fexp prec emax (Zpos (digits2_pos (mp * mq)) + (ep + eq)).
Proof.
  intros Hp Hq.
  destruct (bounded_spec mp ep Hp) as (Hep & Hdp & Hcp).
  destruct (bounded_spec mq eq Hq) as (Heq & Hdq & Hcq).
  pose proof (digits2_pos_mul mp mq) as Hd.
  assert (0 < Zpos (digits2_pos mp)) by lia.
  assert (0 < Zpos (digits2_pos mq)) by lia.
  rewrite fexp_spec. lia.
Qed.

(** A product with a doubled whole quantity is the double of the
    product. *)
Lemma mul_double (p q : binary64) :
  is_double p = true -> is_double q = true -> whole q = true ->
  is_finite (add q q) = true ->
  mul p (add q q) = add (mul p q) (mul p q).
Proof.
  intros Hp Hq Hw Hf. unfold add, mul, binary64_Number in *.
  destruct q as [sq|sq| |sq mq eq]; try discriminate.
  - rewrite add_diag_zero. destruct p; cbn [SFmul]; try reflexivity;
      rewrite add_diag_zero; reflexivity.
  - rewrite is_double_finite in Hq.
    pose proof (whole_normal sq mq eq Hq Hw) as H53.
    destruct (bounded_spec mq eq Hq) as (Heq & _ & _).
    rewrite add_diag in Hf |- * by exact Hq.
    rewrite H53 in Hf |- *. change (53 =? 53) with true in Hf |- *. cbv iota in Hf |- *.
    cbn [twice] in Hf |- *. change (emax - prec) with 971 in Hf |- *.
    destruct (eq + 1 <=? 971) eqn:Hle; [|discriminate]. clear Hf.
    destruct p as [sp|sp| |sp mp ep]; cbn [SFmul].
    + rewrite add_diag_zero. reflexivity.
    + rewrite add_diag_infinity. reflexivity.
    + reflexivity.
    + rewrite is_double_finite in Hp.
      destruct (bounded_spec mp ep Hp) as (Hep & Hdp & _).
      pose proof (mul_exponent mp mq ep eq Hp Hq) as Hexp.
      pose proof (digits2_pos_mul mp mq) as Hd.
      replace (ep + (eq + 1)) with (ep + eq + 1) by lia.
      set (s := xorb sp sq). set (E := ep + eq) in *.
      destruct (Z_le_gt_dec (-1074) (Zpos (digits2_pos (mp * mq)) + E - 53)) as [Hn|Hs].
      * rewrite binary_round_aux_twice by exact Hn.
        pose proof (binary_round_aux_valid s (mp * mq) E loc_Exact Hexp) as Hv.
        destruct (binary_round_aux prec emax s (Zpos (mp * mq)) E loc_Exact)
          as [s'|s'| |s' m' e']; try contradiction.
        -- rewrite add_diag_zero. reflexivity.
        -- rewrite add_diag_infinity. reflexivity.
        -- destruct Hv as [Hb' Hd']. rewrite add_diag by exact Hb'.
           rewrite (Hd' Hn). reflexivity.
      * assert (0 < Zpos (digits2_pos mp)) by lia.
        assert (HE : E < -1074) by lia.
        assert (Heq0 : eq < 0) by (unfold E in HE; lia).
        cbn [whole] in Hw. destruct (Z.leb_spec 0 eq) as [|_]; [lia|].
        cbn [orb] in Hw. apply Z.eqb_eq in Hw.
        set (k := -1074 - E).
        assert (Hk : 0 < k <= - eq) by (unfold k, E; lia).
        assert (Hdiv : (2 ^ k | Zpos (mp * mq))).
        { rewrite Pos2Z.inj_mul. apply Z.divide_mul_r.
          apply Z.divide_trans with (2 ^ (- eq)).
          - exists (2 ^ (- eq - k)). rewrite <- Z.pow_add_r by lia. f_equal. lia.
          - apply Z.mod_divide; [|exact Hw].
            apply Z.pow_nonzero; lia. }
        destruct Hdiv as [J HJ].
        assert (Hpk : 0 < 2 ^ k) by (apply Z.pow_pos_nonneg; lia).
        assert (HJpos : 0 < J) by nia.
        destruct J as [|j|j]; try lia.
        assert (Hdj : Zpos (digits2_pos j) = Zpos (digits2_pos (mp * mq)) - k).
        { assert (Hsh : Z.shiftr (Zpos (mp * mq)) k = Zpos j).
          { rewrite Z.shiftr_div_pow2 by lia. rewrite HJ. apply Z.div_mul. lia. }
          pose proof (Zdigits2_shiftr (Zpos (mp * mq)) k ltac:(lia) ltac:(lia)) as Hz.
          rewrite Hsh in Hz. cbn [Zdigits2] in Hz.
          assert (0 < Zpos (digits2_pos j)) by lia. lia. }
        rewrite HJ.
        rewrite (binary_round_aux_exact s j k E) by (unfold k; lia).
        rewrite add_diag_subnormal by (unfold k in Hdj; lia).
        replace (Zpos j * 2 ^ k) with (Zpos j~0 * 2 ^ (k - 1)).
        2:{ replace k with (Z.succ (k - 1)) at 2 by lia.
            rewrite Z.pow_succ_r by lia. rewrite (Pos2Z.inj_xO j). ring. }
        apply binary_round_aux_exact; try lia.
        change (digits2_pos j~0) with (Pos.succ (digits2_pos j)).
        rewrite Pos2Z.inj_succ. unfold k in Hdj. lia.
Qed.

(** Sums and products of doubles are doubles. *)
Lemma mul_is_double (p q : binary64) :
  is_double p = true -> is_double q = true -> is_double (mul p q) = true.
Proof.
  intros Hp Hq. unfold mul, binary64_Number.
  destruct p as [sp|sp| |sp mp ep], q as [sq|sq| |sq mq eq]; try reflexivity.
  cbn [SFmul]. rewrite is_double_finite in Hp, Hq.
  pose proof (binary_round_aux_valid (xorb sp sq) (mp * mq) (ep + eq) loc_Exact
                (mul_exponent mp mq ep eq Hp Hq)) as Hv.
  destruct (binary_round_aux prec emax (xorb sp sq) (Zpos (mp * mq)) (ep + eq) loc_Exact);
    try reflexivity.
  rewrite is_double_finite. apply Hv.
Qed.

Lemma binary_normalize_is_double (z e : Z) :
  is_double (binary_normalize prec emax z e false) = true.
Proof.
  unfold binary_normalize. destruct z as [|m|m]; [reflexivity| |].
  - pose proof (binary_round_valid false m e) as Hv.
    destruct (binary_round prec emax false m e); try reflexivity.
    rewrite is_double_finite. apply Hv.
  - pose proof (binary_round_valid true m e) as Hv.
    destruct (binary_round prec emax true m e); try reflexivity.
    rewrite is_double_finite. apply Hv.
Qed.

Lemma add_is_double (a b : binary64) :
  is_double a = true -> is_double b = true -> is_double (add a b) = true.
Proof.
  intros Ha Hb. unfold add, binary64_Number.
  destruct a as [sa|sa| |sa ma ea], b as [sb|sb| |sb mb eb];
    try (destruct sa, sb; reflexivity); try reflexivity; try assumption.
  apply binary_normalize_is_double.
Qed.

(** A finite sum or product has finite operands. *)
Lemma add_finite (a b : binary64) :
  is_finite (add a b) = true -> is_finite a = true /\ is_finite b = true.
Proof.
  unfold add, binary64_Number.
  destruct a as [sa|sa| |sa ma ea], b as [sb|sb| |sb mb eb];
    try (destruct sa, sb; discriminate);
    cbn [SFadd is_finite]; intro; split; (reflexivity || discriminate).
Qed.

Lemma mul_finite (p q : binary64) :
  is_finite (mul p q) = true -> is_finite p = true /\ is_finite q = true.
Proof.
  unfold mul, binary64_Number.
  destruct p as [sp|sp| |sp mp ep], q as [sq|sq| |sq mq eq];
    cbn [SFmul is_finite]; intro; split; (reflexivity || discriminate).
Qed.

(** *** The terms and the cost of a doubled line *)

Lemma fold_add_finite (ts : list binary64) :
  forall acc, is_finite (fold_left add ts acc) = true -> is_finite acc = true.
Proof.
  induction ts as [|t ts IH]; intros acc Hf; [exact Hf|].
  cbn [fold_left] in Hf. apply IH in Hf. apply add_finite in Hf. apply Hf.
Qed.

(** The sum of the doubled terms from a doubled total is the double of
    the sum, as long as it is finite. *)
Lemma fold_add_double (ts : list binary64) :
  forall acc,
    Forall (fun t => is_double t = true) ts -> is_double acc = true ->
    is_finite (fold_left add (map (fun t => add t t) ts) (add acc acc)) = true ->
    fold_left add (map (fun t => add t t) ts) (add acc acc)
    = add (fold_left add ts acc) (fold_left add ts acc).
Proof.
  induction ts as [|t ts IH]; intros acc Hts Hacc Hf; [reflexivity|].
  cbn [map fold_left] in Hf |- *.
  pose proof (fold_add_finite _ _ Hf) as Hstep.
  destruct (add_finite _ _ Hstep) as [Hfa Hft].
  destruct (add_finite _ _ Hfa) as [Hfacc _].
  destruct (add_finite _ _ Hft) as [Hftt _].
  inversion Hts as [|t' ts' Ht Hts']; subst.
  assert (Heq : add (add acc acc) (add t t) = add (add acc t) (add acc t)).
  { apply add_double; try assumption; unfold finite_double;
      apply andb_true_intro; split; assumption. }
  rewrite Heq in Hf |- *.
  apply IH; [exact Hts'|apply add_is_double; assumption|exact Hf].
Qed.

Lemma all_doubles_spec (products : list (Product.t binary64))
    (materials : list (Material.t binary64)) :
  all_doubles products materials = true ->
  (forall m, In m materials -> is_double (Material.cost m) = true)
  /\ (forall p pm, In p products -> In pm (Product.materials p) ->
        is_double (MaterialQty.quantity pm) = true).
Proof.
  unfold all_doubles. intro H. apply andb_prop in H. destruct H as [Hm Hp].
  rewrite forallb_forall in Hm, Hp. split; [exact Hm|].
  intros p pm Hin Hpm. specialize (Hp p Hin). rewrite forallb_forall in Hp.
  apply Hp, Hpm.
Qed.

Section DoubledLine.
Variable products : list (Product.t binary64).
Variable materials : list (Material.t binary64).
Hypothesis Hdoubles : all_doubles products materials = true.
Variable q : binary64.
Hypothesis Hq : is_double q = true.

Lemma entryTerms_is_double (pm : MaterialQty.t binary64) :
  is_double (MaterialQty.quantity pm) = true ->
  Forall (fun t => is_double t = true) (entryTerms materials q pm).
Proof.
  intro Hpm. unfold entryTerms.
  destruct (find _ materials) as [material|] eqn:Hfind; [|constructor].
  apply find_some in Hfind. destruct Hfind as [Hin _].
  constructor; [|constructor].
  apply mul_is_double; [apply mul_is_double|]; try assumption.
  apply (proj1 (all_doubles_spec _ _ Hdoubles)), Hin.
Qed.

Lemma lineTerms_is_double (productId : string) :
  Forall (fun t => is_double t = true)
    (lineTerms products materials
       {| ProductQty.productId := productId; ProductQty.quantity := q |}).
Proof.
  unfold lineTerms. cbn [ProductQty.productId ProductQty.quantity].
  destruct (find _ products) as [product|] eqn:Hfind; [|constructor].
  apply find_some in Hfind. destruct Hfind as [Hin _].
  apply Forall_flat_map. apply Forall_forall. intros pm Hpm.
  apply entryTerms_is_double.
  apply (proj2 (all_doubles_spec _ _ Hdoubles) product pm Hin Hpm).
Qed.

Hypothesis Hwhole : whole q = true.
Hypothesis Hfinite : is_finite (add q q) = true.

Lemma entryTerms_double (pm : MaterialQty.t binary64) :
  is_double (MaterialQty.quantity pm) = true ->
  entryTerms materials (add q q) pm
  = map (fun t => add t t) (entryTerms materials q pm).
Proof.
  intro Hpm. unfold entryTerms.
  destruct (find _ materials) as [material|] eqn:Hfind; [|reflexivity].
  apply find_some in Hfind. destruct Hfind as [Hin _].
  cbn [map]. f_equal. apply mul_double; try assumption.
  apply mul_is_double; [|exact Hpm].
  apply (proj1 (all_doubles_spec _ _ Hdoubles)), Hin.
Qed.

Lemma lineTerms_double (productId : string) :
  lineTerms products materials
    {| ProductQty.productId := productId; ProductQty.quantity := add q q |}
  = map (fun t => add t t)
      (lineTerms products materials
         {| ProductQty.productId := productId; ProductQty.quantity := q |}).
Proof.
  unfold lineTerms. cbn [ProductQty.productId ProductQty.quantity].
  destruct (find _ products) as [product|] eqn:Hfind; [|reflexivity].
  apply find_some in Hfind. destruct Hfind as [Hin _].
  assert (Hpms : forall pm, In pm (Product.materials product) ->
                   is_double (MaterialQty.quantity pm) = true).
  { intros pm Hpm. apply (proj2 (all_doubles_spec _ _ Hdoubles) product pm Hin Hpm). }
  induction (Product.materials product) as [|pm pms IH]; [reflexivity|].
  cbn [flat_map]. rewrite map_app, entryTerms_double, IH.
  - reflexivity.
  - intros pm' Hpm'. apply Hpms. right. exact Hpm'.
  - apply Hpms. left. reflexivity.
Qed.

End DoubledLine.

Lemma doubleQuantity_eta (line : ProductQty.t binary64) :
  doubleQuantity line
  = {| ProductQty.productId := ProductQty.productId line;
       ProductQty.quantity := add (ProductQty.quantity line) (ProductQty.quantity line) |}.
Proof. reflexivity. Qed.

Lemma lineTerms_doubleQuantity_binary64 (products : list (Product.t binary64))
    (materials : list (Material.t binary64)) (line : ProductQty.t binary64) :
  all_doubles products materials = true ->
  is_double (ProductQty.quantity line) = true ->
  whole (ProductQty.quantity line) = true ->
  is_finite (add (ProductQty.quantity line) (ProductQty.quantity line)) = true ->
  lineTerms products materials (doubleQuantity line)
  = map (fun t => add t t) (lineTerms products materials line).
Proof.
  intros Hd Hq Hw Hf. destruct line as [productId q].
  cbn [ProductQty.quantity] in *. apply lineTerms_double; assumption.
Qed.

Lemma lineCost_terms (products : list (Product.t binary64))
    (materials : list (Material.t binary64)) (line : ProductQty.t binary64) :
  lineCost products materials line
  = fold_left add (lineTerms products materials line) zero.
Proof.
  unfold lineCost, calculateOrderCost. cbn [fold_left]. apply addOrderLine_terms.
Qed.

Lemma lineCost_doubleQuantity_binary64 (products : list (Product.t binary64))
    (materials : list (Material.t binary64)) (line : ProductQty.t binary64) :
  all_doubles products materials = true ->
  is_double (ProductQty.quantity line) = true ->
  whole (ProductQty.quantity line) = true ->
  is_finite (add (ProductQty.quantity line) (ProductQty.quantity line)) = true ->
  is_finite (lineCost products materials (doubleQuantity line)) = true ->
  lineCost products materials (doubleQuantity line)
  = add (lineCost products materials line) (lineCost products materials line).
Proof.
  intros Hd Hq Hw Hf. rewrite !lineCost_terms.
  rewrite lineTerms_doubleQuantity_binary64 by assumption.
  change (@zero binary64 _) with (add (S754_zero false) (S754_zero false)) at 1 2.
  intro Hfc. apply fold_add_double; [|reflexivity|exact Hfc].
  destruct line as [productId q]. apply lineTerms_is_double; assumption.
Qed.

Lemma calculateOrderCost_doubleQuantity_terms (products : list (Product.t binary64))
    (materials : list (Material.t binary64)) (line : ProductQty.t binary64)
    (pre post : list (ProductQty.t binary64)) :
  lineTerms products materials (doubleQuantity line)
  = map (fun t => add t t) (lineTerms products materials line) ->
  calculateOrderCost (pre ++ doubleQuantity line :: post) products materials
  = fold_left add
      (flat_map (lineTerms products materials) pre
       ++ map (fun t => add t t) (lineTerms products materials line)
       ++ flat_map (lineTerms products materials) post)
      zero.
Proof.
  intro Hterms. unfold calculateOrderCost.
  rewrite fold_addOrderLine_terms, flat_map_app. cbn [flat_map].
  rewrite Hterms. reflexivity.
Qed.

End DoublingFacts.

(** The scenario of the specification evaluates, in doubles, to 7.50 for
    the product and 15.00 for the order. *)
Example scenario_binary64 :
  calculateProductCost [Scenario.m1] (Product.materials Scenario.p1) = decimal 750 2
  /\ calculateOrderCost Scenario.order [Scenario.p1] [Scenario.m1] = decimal 1500 2.
Proof. split; vm_compute; reflexivity. Qed.

(** C1, as stated, fails in doubles: with materials at 0.01 and 0.08, one
    unit of each in the product and five products ordered, the code returns
    0.45 (0.05 + 0.4) while the product's cost 0.09 times 5 is
    0.44999999999999996. *)
Lemma calculateOrderCost_differs_from_spec :
  calculateOrderCost Sample.Cents.order Sample.Cents.products Sample.Cents.materials
  = decimal 45 2
  /\ orderCost_spec Sample.Cents.order Sample.Cents.products Sample.Cents.materials
     = S754_finite false 8106479329266892 (-54)
  /\ calculateOrderCost Sample.Cents.order Sample.Cents.products Sample.Cents.materials
     <> orderCost_spec Sample.Cents.order Sample.Cents.products Sample.Cents.materials.
Proof.
  repeat split; try (vm_compute; reflexivity).
  vm_compute. discriminate.
Qed.

(** C1 (amended): [calculateOrderCost] returns the left-to-right sum, over
    the order's lines and over the material entries of each line's product,
    of [material.cost * entry quantity * line quantity], lines and entries
    whose reference is not found adding nothing.  With exact arithmetic this
    equals the sum over the lines of the product's cost
    ([calculateProductCost]) times the line quantity.  In doubles the
    scenario of the specification gives exactly 7.50 and 15.00. *)
Theorem calculateOrderCost_sum :
  (forall (num : Type) (N : Number num) (order : list (ProductQty.t num))
          (products : list (Product.t num)) (materials : list (Material.t num)),
      calculateOrderCost order products materials
      = fold_left add (flat_map (lineTerms products materials) order) zero)
  /\ (forall (num : Type) (N : Number num) (E : ExactNumber num)
             (order : list (ProductQty.t num))
             (products : list (Product.t num)) (materials : list (Material.t num)),
         calculateOrderCost order products materials
         = orderCost_spec order products materials)
  /\ calculateProductCost [Scenario.m1] (Product.materials Scenario.p1) = decimal 750 2
  /\ calculateOrderCost Scenario.order [Scenario.p1] [Scenario.m1] = decimal 1500 2.
Proof.
  split; [|split].
  - intros. apply fold_addOrderLine_terms.
  - intros num N E order products materials.
    exact (calculateOrderCost_orderCost_spec products materials order).
  - exact scenario_binary64.
Qed.

Lemma calculateOrderCost_sum_witness :
  calculateOrderCost Sample.Exact.order Sample.Exact.products Sample.Exact.materials
  = orderCost_spec Sample.Exact.order Sample.Exact.products Sample.Exact.materials.
Proof.
  exact (proj1 (proj2 calculateOrderCost_sum) Qc Qc_Number Qc_ExactNumber
           Sample.Exact.order Sample.Exact.products Sample.Exact.materials).
Defined.

(** C2: a dangling reference is skipped.  An order line whose product is
    not in the product list leaves the total what it is without the line,
    and alone costs [0]; a bill-of-materials entry whose material is not in
    the material list makes its line add what the other entries add; in
    [calculateProductCost] such an entry adds the literal [0].  The
    functions are total: there is no error result. *)
Theorem calculateOrderCost_dangling :
  forall (num : Type) (N : Number num)
         (products : list (Product.t num)) (materials : list (Material.t num)),
    (forall (pre post : list (ProductQty.t num)) (line : ProductQty.t num),
        (forall p, In p products -> Product.id p <> ProductQty.productId line) ->
        calculateOrderCost (pre ++ line :: post) products materials
        = calculateOrderCost (pre ++ post) products materials
        /\ calculateOrderCost [line] products materials = zero)
    /\ (forall (line : ProductQty.t num) (product : Product.t num)
               (pre post : list (MaterialQty.t num)) (pm : MaterialQty.t num),
           find (fun p => Product.id p =? ProductQty.productId line) products = Some product ->
           Product.materials product = pre ++ pm :: post ->
           (forall m, In m materials -> Material.id m <> MaterialQty.materialId pm) ->
           (forall totalCost,
               addOrderLine products materials totalCost line
               = addProductMaterials materials (ProductQty.quantity line) totalCost
                   (pre ++ post))
           /\ calculateProductCost materials (pre ++ [pm])
              = add (calculateProductCost materials pre) zero).
Proof.
  intros num N products materials. split.
  - intros pre post line Habsent. split.
    + unfold calculateOrderCost. rewrite !fold_left_app. cbn [fold_left].
      rewrite addOrderLine_dangling by assumption. reflexivity.
    + unfold calculateOrderCost. cbn [fold_left].
      apply addOrderLine_dangling. assumption.
  - intros line product pre post pm Hfind Hmaterials Habsent. split.
    + intro totalCost. unfold addOrderLine. rewrite Hfind, Hmaterials.
      apply addProductMaterials_dangling. assumption.
    + unfold calculateProductCost. rewrite fold_left_app. cbn [fold_left].
      unfold addMaterialCost at 1.
      destruct (find _ materials) as [material|] eqn:Hm; [|reflexivity].
      apply find_some in Hm. destruct Hm as [Hin Heq].
      apply String.eqb_eq in Heq. elim (Habsent _ Hin Heq).
Qed.

Lemma calculateOrderCost_dangling_witness :
  calculateOrderCost ([] ++ Sample.line "p9" (of_int 4) :: Scenario.order)
    [Scenario.p1] [Scenario.m1]
  = calculateOrderCost ([] ++ Scenario.order) [Scenario.p1] [Scenario.m1]
  /\ calculateOrderCost [Sample.line "p9" (of_int 4)] [Scenario.p1] [Scenario.m1] = zero.
Proof.
  apply (proj1 (calculateOrderCost_dangling binary64 _ [Scenario.p1] [Scenario.m1])).
  intros p [<-|[]]. simpl. discriminate.
Defined.

(** Half a product is no whole quantity, and there doubling can fail in
    doubles: with a material at 5e-324 a unit and three units in the
    product, half a product costs 1e-323 (1.5e-323 halved and rounded to
    even), a whole one 1.5e-323, not 2e-323. *)
Lemma lineCost_double_underflow :
  whole (ProductQty.quantity Sample.Tiny.half) = false
  /\ lineCost Sample.Tiny.products Sample.Tiny.materials (doubleQuantity Sample.Tiny.half)
     = S754_finite false 3 (-1074)
  /\ add (lineCost Sample.Tiny.products Sample.Tiny.materials Sample.Tiny.half)
         (lineCost Sample.Tiny.products Sample.Tiny.materials Sample.Tiny.half)
     = S754_finite false 4 (-1074)
  /\ lineCost Sample.Tiny.products Sample.Tiny.materials (doubleQuantity Sample.Tiny.half)
     <> add (lineCost Sample.Tiny.products Sample.Tiny.materials Sample.Tiny.half)
            (lineCost Sample.Tiny.products Sample.Tiny.materials Sample.Tiny.half).
Proof.
  repeat split; try (vm_compute; reflexivity).
  vm_compute. discriminate.
Qed.

(** A whole quantity whose double is [Infinity]: 2^1023 products of a
    product whose material costs nothing cost [0]; doubled, the quantity
    is [Infinity] and the cost [NaN]. *)
Example lineCost_double_overflow :
  whole (ProductQty.quantity Sample.Huge.many) = true
  /\ is_finite (add (ProductQty.quantity Sample.Huge.many)
                    (ProductQty.quantity Sample.Huge.many)) = false
  /\ lineCost Sample.Huge.products Sample.Huge.materials Sample.Huge.many = zero
  /\ lineCost Sample.Huge.products Sample.Huge.materials (doubleQuantity Sample.Huge.many)
     = S754_nan.
Proof. repeat split; vm_compute; reflexivity. Qed.

(** C5, as stated, fails in doubles for a line inside a longer order,
    with whole quantities throughout: materials at 0.01 and 0.03 a unit,
    a product made of one unit of each, one of each product ordered.
    The order costs 0.04, of which the second line contributes 0.03;
    alone, the second line costs 0.03, and 0.06 once its quantity is
    doubled.  But the order with the second line doubled costs
    0.01 + 0.06 = 0.06999999999999999, which is neither 0.04 + 0.03 nor
    0.01 + 0.06 computed exactly: the returned total did not rise by the
    line's contribution. *)
Lemma calculateOrderCost_double_in_order :
  whole (ProductQty.quantity Sample.Mixed.first) = true
  /\ whole (ProductQty.quantity Sample.Mixed.second) = true
  /\ calculateOrderCost [Sample.Mixed.first; Sample.Mixed.second]
       Sample.Mixed.products Sample.Mixed.materials
     = decimal 4 2
  /\ lineCost Sample.Mixed.products Sample.Mixed.materials Sample.Mixed.second
     = decimal 3 2
  /\ lineCost Sample.Mixed.products Sample.Mixed.materials
       (doubleQuantity Sample.Mixed.second)
     = decimal 6 2
  /\ calculateOrderCost [Sample.Mixed.first; doubleQuantity Sample.Mixed.second]
       Sample.Mixed.products Sample.Mixed.materials
     = S754_finite false 5044031582654955 (-56)
  /\ add (calculateOrderCost [Sample.Mixed.first; Sample.Mixed.second]
            Sample.Mixed.products Sample.Mixed.materials)
         (lineCost Sample.Mixed.products Sample.Mixed.materials Sample.Mixed.second)
     = S754_finite false 5044031582654956 (-56)
  /\ decimal 7 2 = S754_finite false 5044031582654956 (-56)
  /\ calculateOrderCost [Sample.Mixed.first; doubleQuantity Sample.Mixed.second]
       Sample.Mixed.products Sample.Mixed.materials
     <> add (calculateOrderCost [Sample.Mixed.first; Sample.Mixed.second]
               Sample.Mixed.products Sample.Mixed.materials)
            (lineCost Sample.Mixed.products Sample.Mixed.materials Sample.Mixed.second).
Proof.
  repeat split; try (vm_compute; reflexivity).
  vm_compute. discriminate.
Qed.

(** C5 (amended): doubling the quantity of one line doubles what that
    line contributes.  With exact arithmetic always: the line's cost is
    doubled and the total of the order rises by exactly that cost, the
    other lines being untouched.  In doubles, for a quantity that is a
    whole number whose double is finite (zero included), whatever the
    costs and bill-of-materials quantities, subnormal, infinite or [NaN]:
    every term [cost * matQty * quantity] the line adds to the running
    total is exactly doubled, in the same order; the total of any order
    holding the line is the sum, in the code's order, of the unchanged
    terms of the other lines and those doubled terms; and the cost of the
    line alone is exactly doubled whenever the doubled cost is finite.
    The returned total of a longer order need not rise by the line's
    cost. *)
Theorem lineCost_double :
  (forall (num : Type) (N : Number num) (E : ExactNumber num)
          (products : list (Product.t num)) (materials : list (Material.t num))
          (line : ProductQty.t num),
      lineCost products materials (doubleQuantity line)
      = add (lineCost products materials line) (lineCost products materials line)
      /\ forall pre post : list (ProductQty.t num),
          calculateOrderCost (pre ++ doubleQuantity line :: post) products materials
          = add (calculateOrderCost (pre ++ line :: post) products materials)
                (lineCost products materials line))
  /\ (forall (products : list (Product.t binary64)) (materials : list (Material.t binary64))
             (line : ProductQty.t binary64),
         all_doubles products materials = true ->
         is_double (ProductQty.quantity line) = true ->
         whole (ProductQty.quantity line) = true ->
         is_finite (add (ProductQty.quantity line) (ProductQty.quantity line)) = true ->
         lineTerms products materials (doubleQuantity line)
         = map (fun t => add t t) (lineTerms products materials line)
         /\ (forall pre post : list (ProductQty.t binary64),
                calculateOrderCost (pre ++ doubleQuantity line :: post) products materials
                = fold_left add
                    (flat_map (lineTerms products materials) pre
                     ++ map (fun t => add t t) (lineTerms products materials line)
                     ++ flat_map (lineTerms products materials) post)
                    zero)
         /\ (is_finite (lineCost products materials (doubleQuantity line)) = true ->
             lineCost products materials (doubleQuantity line)
             = add (lineCost products materials line)
                   (lineCost products materials line))).
Proof.
  split.
  - intros num N E products materials line. split.
    + apply lineCost_doubleQuantity. exact E.
    + intros pre post.
      rewrite !calculateOrderCost_app, !calculateOrderCost_cons by exact E.
      rewrite lineCost_doubleQuantity by exact E.
      set (a := calculateOrderCost pre products materials).
      set (b := calculateOrderCost post products materials).
      set (c := lineCost products materials line).
      rewrite <- !add_assoc. f_equal. rewrite !add_assoc.
      rewrite <- (add_assoc c b c), (add_comm b c), add_assoc. reflexivity.
  - intros products materials line Hdoubles Hq Hwhole Hfinite.
    pose proof (lineTerms_doubleQuantity_binary64 products materials line
                  Hdoubles Hq Hwhole Hfinite) as Hterms.
    split; [exact Hterms|]. split.
    + intros pre post. apply calculateOrderCost_doubleQuantity_terms. exact Hterms.
    + apply lineCost_doubleQuantity_binary64; assumption.
Qed.

Lemma lineCost_double_witness :
  lineCost Sample.Cents.products Sample.Cents.materials
    (doubleQuantity (Sample.line "p" (of_int 5)))
  = add (lineCost Sample.Cents.products Sample.Cents.materials (Sample.line "p" (of_int 5)))
        (lineCost Sample.Cents.products Sample.Cents.materials (Sample.line "p" (of_int 5)))
  /\ lineCost Sample.Tiny.products Sample.Tiny.materials
       (doubleQuantity (Sample.line "p" (of_int 1)))
     = add (lineCost Sample.Tiny.products Sample.Tiny.materials (Sample.line "p" (of_int 1)))
           (lineCost Sample.Tiny.products Sample.Tiny.materials (Sample.line "p" (of_int 1)))
  /\ calculateOrderCost [Sample.Mixed.first; doubleQuantity Sample.Mixed.second]
       Sample.Mixed.products Sample.Mixed.materials
     = fold_left add
         (flat_map (lineTerms Sample.Mixed.products Sample.Mixed.materials)
            [Sample.Mixed.first]
          ++ map (fun t => add t t)
               (lineTerms Sample.Mixed.products Sample.Mixed.materials Sample.Mixed.second)
          ++ flat_map (lineTerms Sample.Mixed.products Sample.Mixed.materials) [])
         zero.
Proof.
  split; [|split].
  - apply (proj2 lineCost_double Sample.Cents.products Sample.Cents.materials
             (Sample.line "p" (of_int 5))); vm_compute; reflexivity.
  - apply (proj2 lineCost_double Sample.Tiny.products Sample.Tiny.materials
             (Sample.line "p" (of_int 1))); vm_compute; reflexivity.
  - refine (proj1 (proj2 (proj2 lineCost_double Sample.Mixed.products
                            Sample.Mixed.materials Sample.Mixed.second _ _ _ _))
              [Sample.Mixed.first] []); vm_compute; reflexivity.
Defined.

(* ================================================================= *)
(** ** Session state *)

Section SessionFacts.
Context {num : Type}.
Variables (uuid email password : string) (ls : LocalStorage.t num).

Lemma credentials_spec (u : User.t) :
  LoginPage.credentials email password u = true
  <-> User.email u = email /\ User.password u = password.
Proof.
  unfold LoginPage.credentials. rewrite andb_true_iff, !String.eqb_eq. reflexivity.
Qed.

(** [initializeStorage] writes the USERS key only. *)
Lemma initializeStorage_current_user :
  LocalStorage.getCurrentUser (LocalStorage.initializeStorage uuid ls)
  = LocalStorage.getCurrentUser ls.
Proof.
  unfold LocalStorage.initializeStorage.
  destruct (LocalStorage.getUsers ls); reflexivity.
Qed.

Lemma initializeStorage_users :
  LocalStorage.getUsers (LocalStorage.initializeStorage uuid ls)
  = match LocalStorage.getUsers ls with
    | [] => [LocalStorage.defaultAdmin uuid]
    | _ :: _ => LocalStorage.getUsers ls
    end.
Proof.
  unfold LocalStorage.initializeStorage.
  destruct (LocalStorage.getUsers ls) eqn:Husers; [reflexivity|].
  exact Husers.
Qed.

(** A successful login: the first stored user with these credentials
    becomes the session user. *)
Lemma handleLogin_found (user : User.t) :
  find (LoginPage.credentials email password)
    (LocalStorage.getUsers (LocalStorage.initializeStorage uuid ls))
  = Some user ->
  LoginPage.handleLogin uuid email password ls
  = {| LoginPage.storage :=
         LocalStorage.setCurrentUser (Some user)
           (LocalStorage.initializeStorage uuid ls);
       LoginPage.toast := {| title := "Login successful"; variant := default |};
       LoginPage.onLogin := true |}.
Proof.
  intro Hfind. unfold LoginPage.handleLogin.
  rewrite Hfind. reflexivity.
Qed.

(** A failed login: nothing but [initializeStorage] touched the storage. *)
Lemma handleLogin_not_found :
  find (LoginPage.credentials email password)
    (LocalStorage.getUsers (LocalStorage.initializeStorage uuid ls))
  = None ->
  LoginPage.handleLogin uuid email password ls
  = {| LoginPage.storage := LocalStorage.initializeStorage uuid ls;
       LoginPage.toast := {| title := "Login failed"; variant := destructive |};
       LoginPage.onLogin := false |}.
Proof.
  intro Hfind. unfold LoginPage.handleLogin.
  rewrite Hfind. reflexivity.
Qed.

Lemma find_credentials_none :
  (forall user,
      In user (LocalStorage.getUsers (LocalStorage.initializeStorage uuid ls)) ->
      ~ (User.email user = email /\ User.password user = password)) ->
  find (LoginPage.credentials email password)
    (LocalStorage.getUsers (LocalStorage.initializeStorage uuid ls))
  = None.
Proof.
  intro Hnone.
  destruct (find _ _) as [user|] eqn:Hfind; [|reflexivity].
  apply find_some in Hfind. destruct Hfind as [Hin Hcred].
  apply credentials_spec in Hcred. elim (Hnone user Hin Hcred).
Qed.

End SessionFacts.

(** The comparison is case-sensitive: the stored "ada@company.com" does
    not log in as "Ada@company.com". *)
Example handleLogin_case_sensitive :
  LoginPage.onLogin
    (LoginPage.handleLogin "uuid" "ada@company.com" "analytical" Sample.storage) = true
  /\ LoginPage.onLogin
       (LoginPage.handleLogin "uuid" "Ada@company.com" "analytical" Sample.storage) = false
  /\ LoginPage.onLogin
       (LoginPage.handleLogin "uuid" "ada@company.com" "Analytical" Sample.storage) = false.
Proof. repeat split. Qed.

(** C8, as stated, fails on "absent at startup": the session is a key
    of localStorage, which a restart of the application does not clear.
    After a successful login the key holds the user, and [Index], which
    reads it when it starts, starts logged in. *)
Lemma session_present_at_startup :
  LoginPage.onLogin
    (LoginPage.handleLogin "uuid" "ada@company.com" "analytical" Sample.storage) = true
  /\ LocalStorage.getCurrentUser
       (LoginPage.storage
          (LoginPage.handleLogin "uuid" "ada@company.com" "analytical" Sample.storage))
     = Some Sample.ada
  /\ Index.isLoggedIn_init
       (LoginPage.storage
          (LoginPage.handleLogin "uuid" "ada@company.com" "analytical" Sample.storage))
     = true.
Proof. repeat split. Qed.

(** C8 (amended): [handleLogin] writes the session if and only if some
    stored user has exactly the submitted email and the submitted password
    (plain string equality); the user written is such a stored user.  The
    stored users are those read after [initializeStorage], the default admin
    when none was stored.  The session is kept in localStorage: it is absent
    in a storage never written and after [handleLogout], and otherwise
    stays from one start of the application to the next: Index starts
    logged in exactly when the storage holds a session, hence after every
    successful login until the logout. *)
Theorem handleLogin_session :
  forall (num : Type) (uuid email password : string) (ls : LocalStorage.t num),
    let users := LocalStorage.getUsers (LocalStorage.initializeStorage uuid ls) in
    let out := LoginPage.handleLogin uuid email password ls in
    (LoginPage.onLogin out = true
     <-> exists u, In u users /\ User.email u = email /\ User.password u = password)
    /\ (LoginPage.onLogin out = true ->
        exists user,
          LocalStorage.getCurrentUser (LoginPage.storage out) = Some user
          /\ In user users /\ User.email user = email /\ User.password user = password)
    /\ (LoginPage.onLogin out = false ->
        LoginPage.storage out = LocalStorage.initializeStorage uuid ls)
    /\ users = match LocalStorage.getUsers ls with
               | [] => [LocalStorage.defaultAdmin uuid]
               | _ :: _ => LocalStorage.getUsers ls
               end
    /\ LocalStorage.getCurrentUser (LocalStorage.empty (num := num)) = None
    /\ Index.isLoggedIn_init (LocalStorage.empty (num := num)) = false
    /\ LocalStorage.getCurrentUser (Layout.handleLogout ls) = None
    /\ Index.isLoggedIn_init (Layout.handleLogout ls) = false
    /\ (Index.isLoggedIn_init ls = true
        <-> exists user, LocalStorage.getCurrentUser ls = Some user)
    /\ (LoginPage.onLogin out = true ->
        Index.isLoggedIn_init (LoginPage.storage out) = true).
Proof.
  intros num uuid email password ls users out.
  assert (Hcases :
    (exists user,
        out = {| LoginPage.storage :=
                   LocalStorage.setCurrentUser (Some user)
                     (LocalStorage.initializeStorage uuid ls);
                 LoginPage.toast := {| title := "Login successful"; variant := default |};
                 LoginPage.onLogin := true |}
        /\ In user users /\ User.email user = email /\ User.password user = password)
    \/ (out = {| LoginPage.storage := LocalStorage.initializeStorage uuid ls;
                 LoginPage.toast := {| title := "Login failed"; variant := destructive |};
                 LoginPage.onLogin := false |}
        /\ forall u, In u users -> ~ (User.email u = email /\ User.password u = password))).
  { destruct (find (LoginPage.credentials email password) users) as [user|] eqn:Hfind.
    - left. exists user. split; [apply handleLogin_found; exact Hfind|].
      apply find_some in Hfind. destruct Hfind as [Hin Hcred].
      apply credentials_spec in Hcred. tauto.
    - right. split; [apply handleLogin_not_found; exact Hfind|].
      intros u Hin Hcred. apply find_none with (x := u) in Hfind; [|exact Hin].
      apply credentials_spec in Hcred. congruence. }
  split; [split|].
  { intro Hon. destruct Hcases as [(user & -> & Hu)|(-> & _)]; [|discriminate].
    exists user. exact Hu. }
  { intros (u & Hin & He & Hp).
    destruct Hcases as [(user & -> & _)|(_ & Hnone)]; [reflexivity|].
    elim (Hnone u Hin (conj He Hp)). }
  split.
  { intro Hon. destruct Hcases as [(user & -> & Hu)|(-> & _)]; [|discriminate].
    exists user. split; [reflexivity|exact Hu]. }
  split.
  { intro Hoff. destruct Hcases as [(user & -> & _)|(-> & _)]; [discriminate|reflexivity]. }
  split; [apply initializeStorage_users|].
  split; [reflexivity|]. split; [reflexivity|]. split; [reflexivity|].
  split; [reflexivity|]. split.
  { unfold Index.isLoggedIn_init.
    destruct (LocalStorage.getCurrentUser ls) as [user|]; split.
    - intros _. exists user. reflexivity.
    - reflexivity.
    - discriminate.
    - intros [user Hsome]. discriminate Hsome. }
  intro Hon. destruct Hcases as [(user & -> & _)|(-> & _)]; [reflexivity|discriminate].
Qed.

Lemma handleLogin_session_witness :
  exists user,
    LocalStorage.getCurrentUser
      (LoginPage.storage
         (LoginPage.handleLogin "uuid" "ada@company.com" "analytical" Sample.storage))
    = Some user
    /\ In user (LocalStorage.getUsers (LocalStorage.initializeStorage "uuid" Sample.storage))
    /\ User.email user = "ada@company.com" /\ User.password user = "analytical".
Proof.
  apply (proj1 (proj2 (handleLogin_session binary64 "uuid" "ada@company.com" "analytical"
                         Sample.storage))).
  reflexivity.
Defined.

(** C10: a login attempt that matches no stored user does not write the
    session: the current user read afterwards is the one stored before,
    absent or present; the storage is what [initializeStorage] left. *)
Theorem handleLogin_failed_keeps_session :
  forall (num : Type) (uuid email password : string) (ls : LocalStorage.t num),
    (forall user,
        In user (LocalStorage.getUsers (LocalStorage.initializeStorage uuid ls)) ->
        ~ (User.email user = email /\ User.password user = password)) ->
    let out := LoginPage.handleLogin uuid email password ls in
    LocalStorage.getCurrentUser (LoginPage.storage out) = LocalStorage.getCurrentUser ls
    /\ LoginPage.storage out = LocalStorage.initializeStorage uuid ls
    /\ LoginPage.onLogin out = false
    /\ LoginPage.toast out = {| title := "Login failed"; variant := destructive |}.
Proof.
  intros num uuid email password ls Hnone out. subst out.
  rewrite (handleLogin_not_found uuid email password ls)
    by (apply find_credentials_none; exact Hnone).
  cbn. split; [apply initializeStorage_current_user|]. repeat split.
Qed.

Lemma handleLogin_failed_keeps_session_witness :
  LocalStorage.getCurrentUser
    (LoginPage.storage
       (LoginPage.handleLogin "uuid" "ada@company.com" "wrong"
          (LocalStorage.setCurrentUser (Some Sample.ada) Sample.storage)))
  = Some Sample.ada.
Proof.
  apply (handleLogin_failed_keeps_session binary64 "uuid" "ada@company.com" "wrong"
           (LocalStorage.setCurrentUser (Some Sample.ada) Sample.storage)).
  intros user [<-|[]] [_ Hpassword]. discriminate Hpassword.
Defined.

(* ================================================================= *)
(** ** The entity store *)

Section TableFacts.
Variable sql_eq : string -> string -> bool.
Context {Row : Type}.
Variable key : Row -> string.

Lemma absent_filter (id : string) (rows : list Row) :
  Server.absent sql_eq key id rows ->
  filter (Server.matches sql_eq key id) rows = []
  /\ filter (fun row => negb (Server.matches sql_eq key id row)) rows = rows.
Proof.
  unfold Server.absent.
  induction rows as [|row rows IH]; intro Habsent; [split; reflexivity|].
  cbn [filter]. rewrite (Habsent row) by (left; reflexivity). cbn [negb].
  destruct IH as [IH1 IH2].
  { intros row' Hin. apply Habsent. right. exact Hin. }
  rewrite IH1, IH2. split; reflexivity.
Qed.

(** [DELETE ... WHERE id = :id] on an absent id affects no row. *)
Lemma sql_delete_absent (id : string) (rows : list Row) :
  Server.absent sql_eq key id rows ->
  Server.sql_delete sql_eq key id rows = (rows, 0%nat).
Proof.
  intro Habsent. unfold Server.sql_delete.
  destruct (absent_filter id rows Habsent) as [-> ->]. reflexivity.
Qed.

(** After [UPDATE ... WHERE id = :id], the rows the statement matched
    are the rows it wrote, the others are as before. *)
Lemma sql_update_rows (id : string) (set : Row -> Row) (rows : list Row) (row' : Row) :
  In row' (fst (Server.sql_update sql_eq key id set rows)) ->
  (exists row, In row rows /\ sql_eq (key row) id = true /\ row' = set row)
  \/ (In row' rows /\ sql_eq (key row') id = false).
Proof.
  unfold Server.sql_update, Server.matches. cbn [fst]. rewrite in_map_iff.
  intros (row & Hrow & Hin).
  destruct (sql_eq (key row) id) eqn:Hmatch.
  - left. exists row. auto.
  - right. subst row'. auto.
Qed.

End TableFacts.

Section StoreFacts.
Context {num : Type}.
Variable sql_eq : string -> string -> bool.

(** A user whose email is already in the table is not inserted, whatever
    the collation, as long as a string equals itself. *)
Lemma insert_user_duplicate_email (user : User.t) (rows : list User.t) :
  (forall s, sql_eq s s = true) ->
  (exists row, In row rows /\ User.email row = User.email user) ->
  exists key, Server.insert_user sql_eq user rows = inl (Server.DuplicateEntry key).
Proof.
  intros Hrefl (row & Hin & Hemail). unfold Server.insert_user, Server.sql_insert.
  destruct (existsb (Server.matches sql_eq User.id (User.id user)) rows).
  - exists "PRIMARY". reflexivity.
  - assert (Hdup : existsb (fun r => sql_eq (User.email r) (User.email user)) rows = true).
    { apply existsb_exists. exists row. split; [exact Hin|].
      rewrite Hemail. apply Hrefl. }
    rewrite Hdup. exists "email". reflexivity.
Qed.

Lemma post_users_duplicate (user : User.t) (db : Server.Db num) :
  (forall s, sql_eq s s = true) ->
  (exists row, In row (Server.users db) /\ User.email row = User.email user) ->
  exists key,
    Server.post_users sql_eq user db = (Server.Status500 (Server.DuplicateEntry key), db).
Proof.
  intros Hrefl Hdup. unfold Server.post_users.
  destruct (insert_user_duplicate_email user _ Hrefl Hdup) as [key ->].
  exists key. reflexivity.
Qed.

(** The four DELETE routes on an absent id. *)
Lemma delete_users_absent (id : string) (db : Server.Db num) :
  Server.absent sql_eq User.id id (Server.users db) ->
  Server.delete_users sql_eq id db = (Server.Status404 "User not found", db).
Proof.
  intro Habsent. unfold Server.delete_users.
  rewrite sql_delete_absent by exact Habsent. reflexivity.
Qed.

Lemma delete_materials_absent (id : string) (db : Server.Db num) :
  Server.absent sql_eq Material.id id (Server.materials db) ->
  Server.delete_materials sql_eq id db = (Server.Status404 "Material not found", db).
Proof.
  intro Habsent. unfold Server.delete_materials.
  rewrite sql_delete_absent by exact Habsent. reflexivity.
Qed.

Lemma delete_products_absent (id : string) (db : Server.Db num) :
  Server.absent sql_eq Product.id id (Server.products db) ->
  Server.delete_products sql_eq id db = (Server.Status404 "Product not found", db).
Proof.
  intro Habsent. unfold Server.delete_products.
  rewrite sql_delete_absent by exact Habsent. reflexivity.
Qed.

Lemma delete_orders_absent (id : string) (db : Server.Db num) :
  Server.absent sql_eq Order.id id (Server.orders db) ->
  Server.delete_orders sql_eq id db = (Server.Status404 "Order not found", db).
Proof.
  intro Habsent. unfold Server.delete_orders.
  rewrite sql_delete_absent by exact Habsent. reflexivity.
Qed.

(** [filter] by [id !== x] keeps a list none of whose elements has id [x]. *)
Lemma filter_other_ids {Row : Type} (key : Row -> string) (id : string)
    (rows : list Row) :
  (forall row, In row rows -> key row <> id) ->
  filter (fun row => negb (key row =? id)) rows = rows.
Proof.
  induction rows as [|row rows IH]; intro Hother; [reflexivity|].
  cbn [filter].
  assert (Hrow : (key row =? id) = false).
  { apply String.eqb_neq. apply Hother. left. reflexivity. }
  rewrite Hrow. cbn [negb]. f_equal. apply IH.
  intros row' Hin. apply Hother. right. exact Hin.
Qed.

(** [PUT /api/users/:id]: either the request is rejected and nothing
    changed, or it answers 200 and the rows it matched carry the password
    of the body, the others being as before. *)
Lemma put_users_rows (id : string) (body : User.t) (db : Server.Db num) :
  (exists response,
      Server.put_users sql_eq id body db = (response, db)
      /\ Api.request response = Api.Rejected)
  \/ (exists db',
         Server.put_users sql_eq id body db
         = (Server.Status200 (Server.with_user_id id body), db')
         /\ forall row', In row' (Server.users db') ->
              (sql_eq (User.id row') id = true
               /\ User.password row' = User.password body)
              \/ (In row' (Server.users db) /\ sql_eq (User.id row') id = false)).
Proof.
  unfold Server.put_users.
  destruct (Server.update_user sql_eq id (Server.with_user_id id body) (Server.users db))
    as [err|[rows affectedRows]] eqn:Hupdate.
  { left. eexists. split; reflexivity. }
  destruct (Nat.eqb affectedRows 0).
  { left. eexists. split; reflexivity. }
  right. eexists. split; [reflexivity|]. cbn. intros row' Hin.
  unfold Server.update_user in Hupdate.
  destruct (_ && _) in Hupdate; [discriminate|].
  injection Hupdate as <- _.
  pose proof (sql_update_rows sql_eq User.id id
                (Server.set_user_columns (Server.with_user_id id body))
                (Server.users db) row' Hin) as Hin'.
  destruct Hin' as [(row & Hrow & Hmatch & ->)|Hsame].
  - left. split; [exact Hmatch|reflexivity].
  - right. exact Hsame.
Qed.

(** The orders table after [POST /api/orders] and [PUT /api/orders/:id]:
    a row is either a row of before, or carries the [total_cost] the
    column made of the posted [totalCost]. *)
Variable decimal_12_2 : num -> option num.

Lemma order_row_totalCost (order row : Order.t num) :
  Server.order_row decimal_12_2 order = inr row ->
  decimal_12_2 (Order.totalCost order) = Some (Order.totalCost row).
Proof.
  unfold Server.order_row.
  destruct (decimal_12_2 (Order.totalCost order)) as [total_cost|]; [|discriminate].
  intro Hrow. injection Hrow as <-. reflexivity.
Qed.

Lemma post_orders_rows (order : Order.t num) (db : Server.Db num) (o : Order.t num) :
  In o (Server.orders (snd (Server.post_orders sql_eq decimal_12_2 order db))) ->
  In o (Server.orders db)
  \/ decimal_12_2 (Order.totalCost order) = Some (Order.totalCost o).
Proof.
  unfold Server.post_orders.
  destruct (Server.order_row decimal_12_2 order) as [err|row] eqn:Hrow; [left; assumption|].
  unfold Server.sql_insert.
  destruct (existsb _ (Server.orders db)); [left; assumption|].
  cbn. rewrite in_app_iff. intros [Hin|[<-|[]]]; [left; exact Hin|right].
  apply order_row_totalCost. exact Hrow.
Qed.

Lemma put_orders_rows (id : string) (body : Order.t num) (db : Server.Db num)
    (o : Order.t num) :
  In o (Server.orders (snd (Server.put_orders sql_eq decimal_12_2 id body db))) ->
  In o (Server.orders db)
  \/ decimal_12_2 (Order.totalCost body) = Some (Order.totalCost o).
Proof.
  unfold Server.put_orders.
  destruct (Server.order_row decimal_12_2 (Server.with_order_id id body))
    as [err|row] eqn:Hrow; [left; assumption|].
  destruct (Server.sql_update sql_eq Order.id id (Server.set_order_columns row)
              (Server.orders db)) as [rows affectedRows] eqn:Hupdate.
  destruct (Nat.eqb affectedRows 0); [left; assumption|].
  cbn. intro Hin.
  assert (Hin' : In o (fst (Server.sql_update sql_eq Order.id id
                              (Server.set_order_columns row) (Server.orders db)))).
  { rewrite Hupdate. exact Hin. }
  apply sql_update_rows in Hin'.
  destruct Hin' as [(old & Hold & _ & ->)|[Hsame _]]; [right|left; exact Hsame].
  apply order_row_totalCost in Hrow. exact Hrow.
Qed.

(** The catalogue routes write the materials and the products tables
    only. *)
Variable decimal_10_2 : num -> option num.

Lemma serve_catalogue_orders (request : Server.CatalogueRequest num)
    (db : Server.Db num) :
  Server.orders (Server.serve_catalogue sql_eq decimal_10_2 decimal_12_2 request db)
  = Server.orders db.
Proof.
  destruct request as [material|id body|id|product|id body|id]; cbn [Server.serve_catalogue].
  - unfold Server.post_materials.
    destruct (Server.material_row _ _ _); [reflexivity|].
    destruct (Server.sql_insert _ _ _ _); reflexivity.
  - unfold Server.put_materials.
    destruct (Server.material_row _ _ _); [reflexivity|].
    destruct (Server.sql_update _ _ _ _ _) as [rows affectedRows].
    destruct (Nat.eqb affectedRows 0); reflexivity.
  - unfold Server.delete_materials.
    destruct (Server.sql_delete _ _ _ _) as [rows affectedRows].
    destruct (Nat.eqb affectedRows 0); reflexivity.
  - unfold Server.post_products.
    destruct (Server.sql_insert _ _ _ _); reflexivity.
  - unfold Server.put_products.
    destruct (Server.sql_update _ _ _ _ _) as [rows affectedRows].
    destruct (Nat.eqb affectedRows 0); reflexivity.
  - unfold Server.delete_products.
    destruct (Server.sql_delete _ _ _ _) as [rows affectedRows].
    destruct (Nat.eqb affectedRows 0); reflexivity.
Qed.

End StoreFacts.

(** C3: creating a user whose email is already stored fails: the INSERT
    violates a key of the table (the UNIQUE index on [email], or the
    primary key when the id collides too), the route answers 500 with that
    error, and the database is unchanged, so the list of users read
    afterwards is the same.  On the page, [handleSubmit] for a new user with
    such an email ends with a destructive toast and leaves the page state
    and the database as they were. *)
Theorem post_users_duplicate_email :
  forall (num : Type) (sql_eq : string -> string -> bool),
    (forall s, sql_eq s s = true) ->
    forall (db : Server.Db num),
      (forall user : User.t,
          (exists row, In row (Server.users db) /\ User.email row = User.email user) ->
          (exists key,
              Server.post_users sql_eq user db
              = (Server.Status500 (Server.DuplicateEntry key), db))
          /\ Server.get_users (snd (Server.post_users sql_eq user db)) = Server.get_users db
          /\ List.length (Server.users (snd (Server.post_users sql_eq user db)))
             = List.length (Server.users db))
      /\ (forall (uuid : string) (st : UsersPage.State),
             UsersPage.editingUser st = None ->
             (exists row,
                 In row (Server.users db)
                 /\ User.email row = UsersPage.Form.email (UsersPage.formData st)) ->
             exists toast,
               UsersPage.handleSubmit sql_eq uuid st db = (st, db, toast)
               /\ variant toast = destructive).
Proof.
  intros num sql_eq Hrefl db. split.
  - intros user Hdup.
    destruct (post_users_duplicate sql_eq user db Hrefl Hdup) as [key Hpost].
    rewrite Hpost. cbn [snd]. repeat split. exists key. reflexivity.
  - intros uuid st Hnew Hdup. unfold UsersPage.handleSubmit.
    destruct (negb (UsersPage.includes "@" _)); [eexists; split; reflexivity|].
    destruct (_ && _); [eexists; split; reflexivity|].
    rewrite Hnew. unfold UsersPage.createUser.
    destruct (post_users_duplicate sql_eq (UsersPage.userData uuid st) db Hrefl)
      as [key Hpost].
    { unfold UsersPage.userData. rewrite Hnew. exact Hdup. }
    rewrite Hpost. cbn. eexists; split; reflexivity.
Qed.

Lemma post_users_duplicate_email_witness :
  exists key,
    Server.post_users String.eqb (Sample.user "u2" "ada@company.com" "secret1" employee)
      Sample.db
    = (Server.Status500 (Server.DuplicateEntry key), Sample.db).
Proof.
  apply (proj1 (post_users_duplicate_email binary64 String.eqb String.eqb_refl Sample.db)).
  exists Sample.ada. split; [left; reflexivity|reflexivity].
Defined.

(** C6: [handleDelete] called with the id of the session user refuses:
    it shows the destructive "Cannot delete" toast, sends no request and
    leaves the user list and the database as they are, whatever the role of
    that user; the card of the session user has no delete button. *)
Theorem handleDelete_current_user :
  forall (num : Type) (sql_eq : string -> string -> bool) (currentUser : User.t)
         (st : UsersPage.State) (db : Server.Db num),
    UsersPage.handleDelete sql_eq (Some currentUser) (User.id currentUser) st db
    = (st, db, {| title := "Cannot delete"; variant := destructive |})
    /\ UsersPage.delete_button (Some currentUser) currentUser = false.
Proof.
  intros num sql_eq currentUser st db.
  unfold UsersPage.delete_button, UsersPage.handleDelete, UsersPage.is_current_user.
  rewrite String.eqb_refl. split; reflexivity.
Qed.

(** C7, as stated, fails on MaterialsPage.  The page shows two materials
    it read earlier, the storage has since been rewritten by another tab:
    deleting [m3], which is on the page but no longer in the storage, is
    reported as a success, and the stored list is replaced by what the page
    held, [m4] being lost. *)
Lemma MaterialsPage_handleDelete_stale_page :
  (forall m, In m (LocalStorage.getMaterials Sample.other_tab_storage) ->
             Material.id m <> "m3")
  /\ In "m3" (map Material.id Sample.stale_materials)
  /\ snd (MaterialsPage.handleDelete "m3" Sample.stale_materials
            Sample.other_tab_storage)
     = {| title := "Material deleted"; variant := default |}
  /\ map Material.id
       (LocalStorage.getMaterials
          (snd (fst (MaterialsPage.handleDelete "m3" Sample.stale_materials
                       Sample.other_tab_storage))))
     = ["m1"]
  /\ map Material.id (LocalStorage.getMaterials Sample.other_tab_storage)
     = ["m1"; "m4"].
Proof.
  split; [|split; [|split; [|split]]]; try reflexivity.
  - intros m [<-|[<-|[]]]; discriminate.
  - right. left. reflexivity.
Qed.

(** C7 (amended): on the server, for each of the four entity types,
    DELETE of an id no row has answers 404 and leaves the database
    unchanged; OrdersPage and UsersPage then show a destructive toast and
    keep their list.  MaterialsPage and ProductsPage have no such path:
    for every id they report success, keep of the page's list what has
    another id, and overwrite the stored list with it, whatever the storage
    held. *)
Theorem delete_absent :
  forall (num : Type) (N : Number num) (sql_eq : string -> string -> bool)
         (id : string) (db : Server.Db num),
    (Server.absent sql_eq User.id id (Server.users db) ->
     Server.delete_users sql_eq id db = (Server.Status404 "User not found", db)
     /\ forall currentUser st,
         exists toast,
           UsersPage.handleDelete sql_eq currentUser id st db = (st, db, toast)
           /\ variant toast = destructive)
    /\ (Server.absent sql_eq Material.id id (Server.materials db) ->
        Server.delete_materials sql_eq id db = (Server.Status404 "Material not found", db))
    /\ (Server.absent sql_eq Product.id id (Server.products db) ->
        Server.delete_products sql_eq id db = (Server.Status404 "Product not found", db))
    /\ (Server.absent sql_eq Order.id id (Server.orders db) ->
        Server.delete_orders sql_eq id db = (Server.Status404 "Order not found", db)
        /\ forall st : OrdersPage.State,
            OrdersPage.handleDelete sql_eq id st db
            = (st, db, {| title := "Unable to delete order"; variant := destructive |}))
    /\ (forall (materials : list (Material.t num)) (ls : LocalStorage.t num),
           let out := MaterialsPage.handleDelete id materials ls in
           snd out = {| title := "Material deleted"; variant := default |}
           /\ fst (fst out) = filter (fun m => negb (Material.id m =? id)) materials
           /\ LocalStorage.getMaterials (snd (fst out))
              = map (Material.map json) (fst (fst out)))
    /\ (forall (products : list (Product.t num)) (ls : LocalStorage.t num),
           let out := ProductsPage.handleDelete id products ls in
           snd out = {| title := "Product deleted"; variant := default |}
           /\ fst (fst out) = filter (fun p => negb (Product.id p =? id)) products
           /\ LocalStorage.getProducts (snd (fst out))
              = map (Product.map json) (fst (fst out))).
Proof.
  intros num N sql_eq id db.
  split; [|split; [|split; [|split; [|split]]]].
  - intro Habsent. split; [apply delete_users_absent; exact Habsent|].
    intros currentUser st. unfold UsersPage.handleDelete, UsersPage.deleteUser.
    rewrite delete_users_absent by exact Habsent.
    destruct (UsersPage.is_current_user currentUser id); eexists; split; reflexivity.
  - apply delete_materials_absent.
  - apply delete_products_absent.
  - intro Habsent. split; [apply delete_orders_absent; exact Habsent|].
    intro st. unfold OrdersPage.handleDelete, OrdersPage.deleteOrder.
    rewrite delete_orders_absent by exact Habsent. reflexivity.
  - intros materials ls. repeat split.
  - intros products ls. repeat split.
Qed.

Lemma delete_absent_witness :
  Server.delete_materials String.eqb "m2" Sample.db
  = (Server.Status404 "Material not found", Sample.db).
Proof.
  apply (proj1 (proj2 (delete_absent binary64 _ String.eqb "m2" Sample.db))).
  intros row [<-|[]]. reflexivity.
Defined.

(** C9: when a user is edited, the record [handleSubmit] saves has the
    old password if the password field is empty and the field's content
    otherwise; the six-character minimum is not checked (with a valid email
    the submission is never a validation error).  The edit is saved: when
    the email contains [@], the record fits the columns, some row has the
    user's id and no other row has the email of the form, [handleSubmit]
    reports "User updated", every row with that id takes the columns of the
    record, its password among them, the other rows stay, and the page's
    list shows the record.  After any submission the user's row holds the
    saved password when the update went through, and the database is
    unchanged when it did not. *)
Theorem handleSubmit_edit_password :
  forall (num : Type) (sql_eq : string -> string -> bool) (uuid : string)
         (st : UsersPage.State) (db : Server.Db num) (editing : User.t),
    UsersPage.editingUser st = Some editing ->
    let form := UsersPage.formData st in
    let saved := UsersPage.userData uuid st in
    User.id saved = User.id editing
    /\ (UsersPage.Form.password form = EmptyString -> User.password saved = User.password editing)
    /\ (UsersPage.Form.password form <> EmptyString ->
        User.password saved = UsersPage.Form.password form)
    /\ (let '(_, db', toast) := UsersPage.handleSubmit sql_eq uuid st db in
        (UsersPage.includes "@" (UsersPage.Form.email form) = true ->
         title toast <> "Validation Error")
        /\ (title toast = "User updated" ->
            forall row, In row (Server.users db') ->
              sql_eq (User.id row) (User.id editing) = true ->
              User.password row = User.password saved)
        /\ (title toast <> "User updated" -> db' = db))
    /\ (UsersPage.includes "@" (UsersPage.Form.email form) = true ->
        Server.fits_users saved = true ->
        (exists row, In row (Server.users db)
                     /\ sql_eq (User.id row) (User.id editing) = true) ->
        (forall row, In row (Server.users db) ->
                     sql_eq (User.id row) (User.id editing) = false ->
                     sql_eq (User.email row) (UsersPage.Form.email form) = false) ->
        UsersPage.handleSubmit sql_eq uuid st db
        = (UsersPage.saved_state
             (map (fun u => if User.id u =? User.id editing then saved else u)
                (UsersPage.users st)),
           Server.set_users
             (map (fun row => if sql_eq (User.id row) (User.id editing)
                              then Server.set_user_columns saved row else row)
                (Server.users db)) db,
           {| title := "User updated"; variant := default |})
        /\ exists row,
             In row (Server.users
                       (snd (fst (UsersPage.handleSubmit sql_eq uuid st db))))
             /\ sql_eq (User.id row) (User.id editing) = true
             /\ User.password row = User.password saved
             /\ User.email row = UsersPage.Form.email form).
Proof.
  intros num sql_eq uuid st db editing Hedit form saved.
  assert (Hsaved : saved
    = {| User.id := User.id editing;
         User.email := UsersPage.Form.email form; User.name := UsersPage.Form.name form;
         User.surname := UsersPage.Form.surname form;
         User.phone := UsersPage.Form.phone form; User.role := UsersPage.Form.role form;
         User.password :=
           if UsersPage.Form.password form =? EmptyString then User.password editing
           else UsersPage.Form.password form |}).
  { subst saved form. unfold UsersPage.userData. rewrite Hedit. reflexivity. }
  split; [rewrite Hsaved; reflexivity|].
  split; [intro Hempty; rewrite Hsaved; cbn; rewrite Hempty; reflexivity|].
  split.
  { intro Hfilled. rewrite Hsaved. cbn.
    apply String.eqb_neq in Hfilled. rewrite Hfilled. reflexivity. }
  split.
  { unfold UsersPage.handleSubmit, UsersPage.is_editing. rewrite Hedit.
    rewrite andb_false_r. fold form.
    destruct (UsersPage.includes "@" (UsersPage.Form.email form)); cbn [negb].
    2: { repeat split; try discriminate. }
    fold saved. unfold UsersPage.updateUser.
    destruct (put_users_rows sql_eq (User.id saved) saved db)
      as [(response & -> & Hrejected)|(db' & -> & Hrows)].
    - rewrite Hrejected. repeat split; try discriminate.
    - cbn. split; [discriminate|]. split.
      + intros _ row Hin Hmatch.
        assert (Hid : User.id saved = User.id editing) by (rewrite Hsaved; reflexivity).
        rewrite Hid in Hrows.
        destruct (Hrows row Hin) as [[_ Hpassword]|[_ Hother]]; [exact Hpassword|congruence].
      + intro Hother. elim Hother. reflexivity. }
  intros Hat _ (row & Hin & Hrow) Hemail.
  assert (Hid : User.id saved = User.id editing) by (rewrite Hsaved; reflexivity).
  assert (Hsubmit :
    UsersPage.handleSubmit sql_eq uuid st db
    = (UsersPage.saved_state
         (map (fun u => if User.id u =? User.id editing then saved else u)
            (UsersPage.users st)),
       Server.set_users
         (map (fun row => if sql_eq (User.id row) (User.id editing)
                          then Server.set_user_columns saved row else row)
            (Server.users db)) db,
       {| title := "User updated"; variant := default |})).
  { unfold UsersPage.handleSubmit, UsersPage.is_editing. rewrite Hedit.
    rewrite andb_false_r. fold form. rewrite Hat. cbn [negb].
    fold saved. unfold UsersPage.updateUser, Server.put_users, Server.update_user.
    rewrite Hid.
    assert (Hother :
      existsb (fun row => negb (Server.matches sql_eq User.id (User.id editing) row)
                          && sql_eq (User.email row)
                               (User.email (Server.with_user_id (User.id editing) saved)))
        (Server.users db) = false).
    { destruct (existsb _ (Server.users db)) eqn:Hex; [|reflexivity].
      apply existsb_exists in Hex. destruct Hex as (other & Hother & Hboth).
      apply andb_true_iff in Hboth. destruct Hboth as [Hnot Hsame].
      unfold Server.matches in Hnot. apply negb_true_iff in Hnot.
      rewrite Hsaved in Hsame. cbn in Hsame.
      rewrite (Hemail other Hother Hnot) in Hsame. discriminate Hsame. }
    rewrite Hother, andb_false_r.
    unfold Server.sql_update.
    assert (Hsome : Nat.eqb (List.length
                               (filter (Server.matches sql_eq User.id (User.id editing))
                                  (Server.users db))) 0 = false).
    { assert (Hm : In row (filter (Server.matches sql_eq User.id (User.id editing))
                             (Server.users db)))
        by (apply filter_In; split; assumption).
      destruct (filter _ (Server.users db)); [destruct Hm|reflexivity]. }
    rewrite Hsome. cbn [Api.request].
    assert (Hbody : Server.with_user_id (User.id editing) saved = saved)
      by (rewrite Hsaved; reflexivity).
    rewrite Hbody, Hid. reflexivity. }
  split; [exact Hsubmit|].
  rewrite Hsubmit. cbn [fst snd Server.users Server.set_users].
  exists (Server.set_user_columns saved row).
  split.
  { apply in_map_iff. exists row. split; [|exact Hin]. rewrite Hrow. reflexivity. }
  split; [exact Hrow|]. split; [reflexivity|].
  rewrite Hsaved. reflexivity.
Qed.

Lemma handleSubmit_edit_password_witness :
  Server.users
    (snd (fst (UsersPage.handleSubmit String.eqb "uuid" Sample.change_password_page
                 Sample.db)))
  = [Sample.user "u1" "ada@company.com" "difference" manager].
Proof.
  destruct (handleSubmit_edit_password binary64 String.eqb "uuid"
              Sample.change_password_page Sample.db Sample.ada eq_refl)
    as (_ & _ & _ & _ & Hsaved).
  destruct Hsaved as [Hsubmit _].
  - reflexivity.
  - reflexivity.
  - exists Sample.ada. split; [left; reflexivity|reflexivity].
  - intros row [<-|[]]. discriminate.
  - rewrite Hsubmit. reflexivity.
Defined.

(** C4: the [totalCost] of an order is computed by [calculateOrderCost]
    when [handleSubmit] creates or updates it, from the page's products and
    materials of that moment, and stored; after a submission every stored
    order is either a row stored before, untouched, or carries the cost just
    computed.  The requests that change the material price list or the
    product catalogue, on the server or in localStorage, leave the stored
    orders as they are, so the orders read back, their [totalCost] and the
    dashboard's revenue are unchanged. *)
Theorem totalCost_snapshot :
  forall (num : Type) (N : Number num) (sql_eq : string -> string -> bool)
         (decimal_10_2 decimal_12_2 : num -> option num),
    (forall (uuid now now' : string) (st : OrdersPage.State),
        Order.totalCost (OrdersPage.orderData uuid now now' st)
        = calculateOrderCost (OrdersPage.Form.products (OrdersPage.formData st))
            (OrdersPage.products st) (OrdersPage.materials st))
    /\ (forall (uuid now now' : string) (st : OrdersPage.State) (db : Server.Db num)
               (o : Order.t num),
           In o (Server.orders
                   (snd (fst (OrdersPage.handleSubmit sql_eq decimal_12_2
                                uuid now now' st db)))) ->
           In o (Server.orders db)
           \/ decimal_12_2
                (calculateOrderCost (OrdersPage.Form.products (OrdersPage.formData st))
                   (OrdersPage.products st) (OrdersPage.materials st))
              = Some (Order.totalCost o))
    /\ (forall (request : Server.CatalogueRequest num) (db : Server.Db num),
           let db' := Server.serve_catalogue sql_eq decimal_10_2 decimal_12_2 request db in
           Server.orders db' = Server.orders db
           /\ Server.get_orders db' = Server.get_orders db
           /\ Dashboard.totalRevenue (Server.orders db')
              = Dashboard.totalRevenue (Server.orders db))
    /\ (forall (ls : LocalStorage.t num) (materials : list (Material.t num))
               (products : list (Product.t num)),
           LocalStorage.getOrders (LocalStorage.saveMaterials materials ls)
           = LocalStorage.getOrders ls
           /\ LocalStorage.getOrders (LocalStorage.saveProducts products ls)
              = LocalStorage.getOrders ls).
Proof.
  intros num N sql_eq decimal_10_2 decimal_12_2.
  assert (Hcost : forall uuid now now' st,
    Order.totalCost (OrdersPage.orderData uuid now now' st)
    = calculateOrderCost (OrdersPage.Form.products (OrdersPage.formData st))
        (OrdersPage.products st) (OrdersPage.materials st)).
  { intros. unfold OrdersPage.orderData.
    destruct (OrdersPage.editingOrder st); reflexivity. }
  split; [exact Hcost|]. split; [|split].
  - intros uuid now now' st db o. rewrite <- (Hcost uuid now now' st).
    unfold OrdersPage.handleSubmit.
    destruct (OrdersPage.Form.products (OrdersPage.formData st)); [left; assumption|].
    destruct (OrdersPage.editingOrder st) as [editing|].
    + unfold OrdersPage.updateOrder.
      pose proof (put_orders_rows sql_eq decimal_12_2
                    (Order.id (OrdersPage.orderData uuid now now' st))
                    (OrdersPage.orderData uuid now now' st) db o) as Hrows.
      destruct (Server.put_orders _ _ _ _ db) as [response db'].
      cbn [snd] in Hrows. destruct response; cbn; exact Hrows.
    + unfold OrdersPage.createOrder.
      pose proof (post_orders_rows sql_eq decimal_12_2
                    (OrdersPage.orderData uuid now now' st) db o) as Hrows.
      destruct (Server.post_orders _ _ _ db) as [response db'].
      cbn [snd] in Hrows. destruct response; cbn; exact Hrows.
  - intros request db db'. subst db'.
    unfold Server.get_orders.
    rewrite (serve_catalogue_orders sql_eq decimal_12_2 decimal_10_2).
    repeat split.
  - intros ls materials products. split; reflexivity.
Qed.

Lemma totalCost_snapshot_witness :
  let st :=
    {| OrdersPage.orders := []; OrdersPage.products := [Scenario.p1];
       OrdersPage.materials := [Scenario.m1]; OrdersPage.isDialogOpen := true;
       OrdersPage.editingOrder := None;
       OrdersPage.formData :=
         {| OrdersPage.Form.orderNumber := "ORD-2024-001";
            OrdersPage.Form.products := Scenario.order;
            OrdersPage.Form.status := pending; OrdersPage.Form.leftovers := [] |} |} in
  let o := OrdersPage.orderData "o1" "2024-01-01T00:00:00.000Z" "2024-01-01T00:00:00.000Z" st in
  In o (Server.orders Sample.db)
  \/ Some (calculateOrderCost Scenario.order [Scenario.p1] [Scenario.m1])
     = Some (Order.totalCost o).
Proof.
  intros st o.
  apply (proj1 (proj2 (totalCost_snapshot binary64 _ String.eqb Some Some))
           "o1" "2024-01-01T00:00:00.000Z" "2024-01-01T00:00:00.000Z" st Sample.db o).
  left. reflexivity.
Defined.

(* ================================================================= *)
(** * Further properties *)

(** ** Catalogue edits seen from the resolver *)

Lemma fold_left_pointwise {A B : Type} (f g : A -> B -> A) (l : list B) :
  (forall a b, f a b = g a b) ->
  forall a, fold_left f l a = fold_left g l a.
Proof.
  intro Hfg. induction l as [|b l IH]; intro a; [reflexivity|].
  cbn [fold_left]. rewrite Hfg. apply IH.
Qed.

Section LookupFacts.
Context {A : Type}.
Variable key : A -> string.

(** Looking an id up after the elements with another id were filtered
    out. *)
Lemma find_filter_other_id (x y : string) (l : list A) :
  find (fun a => key a =? x) (filter (fun a => negb (key a =? y)) l)
  = if x =? y then None else find (fun a => key a =? x) l.
Proof.
  induction l as [|a l IH]; [destruct (x =? y); reflexivity|].
  cbn [filter find].
  destruct (key a =? y) eqn:Hy; cbn [negb].
  - rewrite IH. destruct (x =? y) eqn:Hxy; [reflexivity|].
    apply String.eqb_eq in Hy. rewrite Hy, String.eqb_sym, Hxy. reflexivity.
  - cbn [find]. rewrite IH. destruct (x =? y) eqn:Hxy; [|reflexivity].
    apply String.eqb_eq in Hxy. rewrite Hxy, Hy. reflexivity.
Qed.

(** [find] returns the first match: an element appended after one with
    the same id is never found. *)
Lemma find_shadowed (x : string) (l : list A) (a : A) :
  (exists a', In a' l /\ key a' = key a) ->
  find (fun b => key b =? x) (l ++ [a]) = find (fun b => key b =? x) l.
Proof.
  intros (a' & Hin & Hkey).
  induction l as [|b l IH]; [destruct Hin|].
  cbn [app find]. destruct (key b =? x) eqn:Hb; [reflexivity|].
  destruct Hin as [->|Hin]; [|exact (IH Hin)].
  clear IH. rewrite Hkey in Hb.
  induction l as [|c l IH]; cbn [app find].
  - rewrite Hb. reflexivity.
  - destruct (key c =? x); [reflexivity|exact IH].
Qed.

End LookupFacts.

Section CatalogueFacts.
Context {num : Type} {N : Number num}.

Lemma find_map_without_material (id productId : string) (products : list (Product.t num)) :
  find (fun p => Product.id p =? productId) (map (without_material id) products)
  = option_map (without_material id)
      (find (fun p => Product.id p =? productId) products).
Proof.
  induction products as [|p products IH]; [reflexivity|].
  cbn [map find without_material Product.id].
  destruct (Product.id p =? productId); [reflexivity|exact IH].
Qed.

Lemma addProductMaterials_without_material (id : string)
    (materials : list (Material.t num)) (quantity : num)
    (pms : list (MaterialQty.t num)) :
  forall totalCost,
    addProductMaterials (filter (fun m => negb (Material.id m =? id)) materials)
      quantity totalCost pms
    = addProductMaterials materials quantity totalCost
        (filter (fun pm => negb (MaterialQty.materialId pm =? id)) pms).
Proof.
  unfold addProductMaterials.
  induction pms as [|pm pms IH]; intro totalCost; [reflexivity|].
  cbn [fold_left filter]. rewrite (find_filter_other_id Material.id).
  destruct (MaterialQty.materialId pm =? id); cbn [negb fold_left]; apply IH.
Qed.

Lemma addOrderLine_without_product (id : string) (products : list (Product.t num))
    (materials : list (Material.t num)) (totalCost : num) (line : ProductQty.t num) :
  addOrderLine (filter (fun p => negb (Product.id p =? id)) products) materials
    totalCost line
  = if ProductQty.productId line =? id then totalCost
    else addOrderLine products materials totalCost line.
Proof.
  unfold addOrderLine. rewrite (find_filter_other_id Product.id).
  destruct (ProductQty.productId line =? id); reflexivity.
Qed.

End CatalogueFacts.

(** X1: once MaterialsPage.handleDelete has removed a material, every
    order costs what it would cost with the entries for that material
    taken out of every bill of materials: the entries left dangling are
    skipped, the others are priced as before. *)
Theorem calculateOrderCost_after_material_delete :
  forall (num : Type) (N : Number num) (id : string)
         (order : list (ProductQty.t num)) (products : list (Product.t num))
         (materials : list (Material.t num)) (ls : LocalStorage.t num),
    calculateOrderCost order products
      (fst (fst (MaterialsPage.handleDelete id materials ls)))
    = calculateOrderCost order (map (without_material id) products) materials.
Proof.
  intros num N id order products materials ls.
  unfold MaterialsPage.handleDelete. cbn [fst]. unfold calculateOrderCost.
  generalize (zero (num := num)) as totalCost.
  induction order as [|line order IH]; intro totalCost; [reflexivity|].
  cbn [fold_left]. rewrite IH. f_equal.
  unfold addOrderLine. rewrite find_map_without_material.
  destruct (find _ products) as [product|]; [|reflexivity].
  cbn [option_map without_material Product.materials].
  apply addProductMaterials_without_material.
Qed.

(** X2: once ProductsPage.handleDelete has removed a product, every
    order costs what it costs without its lines for that product. *)
Theorem calculateOrderCost_after_product_delete :
  forall (num : Type) (N : Number num) (id : string)
         (order : list (ProductQty.t num)) (products : list (Product.t num))
         (materials : list (Material.t num)) (ls : LocalStorage.t num),
    calculateOrderCost order
      (fst (fst (ProductsPage.handleDelete id products ls))) materials
    = calculateOrderCost
        (filter (fun line => negb (ProductQty.productId line =? id)) order)
        products materials.
Proof.
  intros num N id order products materials ls.
  unfold ProductsPage.handleDelete. cbn [fst]. unfold calculateOrderCost.
  generalize (zero (num := num)) as totalCost.
  induction order as [|line order IH]; intro totalCost; [reflexivity|].
  cbn [fold_left filter]. rewrite addOrderLine_without_product.
  destruct (ProductQty.productId line =? id); cbn [negb fold_left]; apply IH.
Qed.

(** X3: the resolver prices with the first product and the first material
    of a given id: a product and a material added after ones with the same
    ids change the cost of no order. *)
Theorem calculateOrderCost_shadowed :
  forall (num : Type) (N : Number num) (order : list (ProductQty.t num))
         (products : list (Product.t num)) (materials : list (Material.t num))
         (p : Product.t num) (m : Material.t num),
    (exists p', In p' products /\ Product.id p' = Product.id p) ->
    (exists m', In m' materials /\ Material.id m' = Material.id m) ->
    calculateOrderCost order (products ++ [p]) materials
    = calculateOrderCost order products materials
    /\ calculateOrderCost order products (materials ++ [m])
       = calculateOrderCost order products materials
    /\ calculateOrderCost order (products ++ [p]) (materials ++ [m])
       = calculateOrderCost order products materials.
Proof.
  intros num N order products materials p m Hp Hm.
  assert (Hmat : forall quantity pms totalCost,
             addProductMaterials (materials ++ [m]) quantity totalCost pms
             = addProductMaterials materials quantity totalCost pms).
  { intros quantity pms totalCost. unfold addProductMaterials. apply fold_left_pointwise. intros acc pm.
    rewrite (find_shadowed Material.id) by exact Hm. reflexivity. }
  assert (Hprod : forall ms totalCost line,
             addOrderLine (products ++ [p]) ms totalCost line
             = addOrderLine products ms totalCost line).
  { intros ms totalCost line. unfold addOrderLine.
    rewrite (find_shadowed Product.id) by exact Hp. reflexivity. }
  assert (Hline : forall ps totalCost line,
             addOrderLine ps (materials ++ [m]) totalCost line
             = addOrderLine ps materials totalCost line).
  { intros ps totalCost line. unfold addOrderLine.
    destruct (find _ ps) as [product|]; [|reflexivity].
    apply Hmat. }
  unfold calculateOrderCost. split; [|split].
  - apply fold_left_pointwise. intros; apply Hprod.
  - apply fold_left_pointwise. intros; apply Hline.
  - apply fold_left_pointwise. intros. rewrite Hprod. apply Hline.
Qed.

Lemma calculateOrderCost_shadowed_witness :
  calculateOrderCost Sample.Cents.order
    (Sample.Cents.products ++ [Sample.product "p" [("mb", of_int 7)]])
    (Sample.Cents.materials ++ [Sample.material "ma" (of_int 9)])
  = calculateOrderCost Sample.Cents.order Sample.Cents.products
      Sample.Cents.materials.
Proof.
  refine (proj2 (proj2 (calculateOrderCost_shadowed binary64 _ Sample.Cents.order
           Sample.Cents.products Sample.Cents.materials
           (Sample.product "p" [("mb", of_int 7)])
           (Sample.material "ma" (of_int 9)) _ _))).
  - eexists. split; [left; reflexivity|reflexivity].
  - eexists. split; [left; reflexivity|reflexivity].
Defined.

(** ** Dashboard *)

(** X4: the "Recent Orders" card shows the last five orders of the list,
    newest first: it is the first five of the reversed list, it has
    [min 5 (length orders)] rows, and an order just appended is its first
    row. *)
Theorem recentOrders_newest_first :
  forall (num : Type) (orders : list (Order.t num)),
    Dashboard.recentOrders orders = firstn 5 (rev orders)
    /\ List.length (Dashboard.recentOrders orders) = Nat.min 5 (List.length orders)
    /\ forall o, hd_error (Dashboard.recentOrders (orders ++ [o])) = Some o.
Proof.
  intros num orders.
  assert (Hrev : forall l : list (Order.t num),
             Dashboard.recentOrders l = firstn 5 (rev l)).
  { intro l. unfold Dashboard.recentOrders. symmetry. apply firstn_rev. }
  split; [apply Hrev|split].
  - rewrite Hrev, length_firstn, length_rev. reflexivity.
  - intro o. rewrite Hrev, rev_app_distr. reflexivity.
Qed.

(** X5: the "Low Stock Materials" card lists only materials of the list
    whose stock compares below 100, at most five of them, and never one
    whose stock is NaN; and it shows the "All materials well stocked" line
    exactly when it lists no material. *)
Theorem lowStockMaterials_card :
  forall materials : list (Material.t binary64),
    (forall m, In m (Dashboard.lowStockMaterials materials) ->
               In m materials
               /\ SFltb (Material.stock m) (of_int 100) = true
               /\ Material.stock m <> S754_nan)
    /\ (List.length (Dashboard.lowStockMaterials materials) <= 5)%nat
    /\ (Dashboard.allWellStocked materials = true
        <-> Dashboard.lowStockMaterials materials = [])
    /\ (Dashboard.allWellStocked materials = true
        <-> forall m, In m materials ->
                      SFltb (Material.stock m) (of_int 100) = false).
Proof.
  intro materials. unfold Dashboard.lowStockMaterials, Dashboard.allWellStocked.
  split; [|split; [|split]].
  - intros m Hin.
    assert (Hin' : In m (filter Dashboard.isLowStock materials)).
    { rewrite <- (firstn_skipn 5). apply in_or_app. left. exact Hin. }
    clear Hin. apply filter_In in Hin'. rename Hin' into Hin.
    destruct Hin as [Hin Hlow]. unfold Dashboard.isLowStock in Hlow.
    split; [exact Hin|split; [exact Hlow|]].
    intro Hnan. rewrite Hnan in Hlow. discriminate Hlow.
  - apply firstn_le_length.
  - rewrite Nat.eqb_eq.
    destruct (filter Dashboard.isLowStock materials); cbn; split;
      intro H; try reflexivity; discriminate H.
  - rewrite Nat.eqb_eq. split.
    + intros Hnone m Hin.
      destruct (SFltb (Material.stock m) (of_int 100)) eqn:Hlow; [|reflexivity].
      assert (Hm : In m (filter Dashboard.isLowStock materials))
        by (apply filter_In; split; assumption).
      destruct (filter Dashboard.isLowStock materials); [destruct Hm|discriminate Hnone].
    + intro Hall.
      destruct (filter Dashboard.isLowStock materials) as [|m l] eqn:Hf; [reflexivity|].
      assert (Hm : In m (filter Dashboard.isLowStock materials))
        by (rewrite Hf; left; reflexivity).
      apply filter_In in Hm. destruct Hm as [Hin Hlow].
      unfold Dashboard.isLowStock in Hlow. rewrite (Hall m Hin) in Hlow.
      discriminate Hlow.
Qed.

(** X6: the revenue tile is a running sum over the completed orders in
    list order: a new order at the end adds its stored [totalCost] when it
    is completed and changes nothing otherwise, whatever the arithmetic. *)
Theorem totalRevenue_app :
  forall (num : Type) (N : Number num) (orders : list (Order.t num)) (o : Order.t num),
    Dashboard.totalRevenue (orders ++ [o])
    = if Status_eqb (Order.status o) completed
      then add (Dashboard.totalRevenue orders) (Order.totalCost o)
      else Dashboard.totalRevenue orders.
Proof.
  intros num N orders o. unfold Dashboard.totalRevenue.
  rewrite filter_app, fold_left_app. cbn [filter].
  destruct (Status_eqb (Order.status o) completed); reflexivity.
Qed.

(** X7: the status tiles partition the orders: every order is counted as
    pending, as in progress, or among the completed ones the revenue is
    summed over. *)
Theorem status_tiles_partition :
  forall (num : Type) (orders : list (Order.t num)),
    (Dashboard.pendingOrders orders + Dashboard.inProgressOrders orders
     + List.length (filter (fun o => Status_eqb (Order.status o) completed) orders)
     = List.length orders)%nat.
Proof.
  intros num orders. unfold Dashboard.pendingOrders, Dashboard.inProgressOrders.
  induction orders as [|o orders IH]; [reflexivity|].
  cbn [filter]. destruct (Order.status o); cbn [Status_eqb List.length];
    rewrite <- IH; lia.
Qed.

(** ** Session and navigation *)

(** X8: on a storage that holds no user, logging in as
    [admin@company.com] with [admin123] succeeds: the seeded admin becomes
    the only stored user and the session user, and the Users page admits
    them. *)
Theorem handleLogin_default_admin :
  forall (num : Type) (uuid : string) (ls : LocalStorage.t num),
    LocalStorage.getUsers ls = [] ->
    let out := LoginPage.handleLogin uuid "admin@company.com" "admin123" ls in
    LoginPage.onLogin out = true
    /\ LocalStorage.getUsers (LoginPage.storage out) = [LocalStorage.defaultAdmin uuid]
    /\ LocalStorage.getCurrentUser (LoginPage.storage out)
       = Some (LocalStorage.defaultAdmin uuid)
    /\ UsersPage.accessDenied (LocalStorage.getCurrentUser (LoginPage.storage out))
       = false.
Proof.
  intros num uuid ls Hnone out. subst out.
  unfold LoginPage.handleLogin, LocalStorage.initializeStorage.
  rewrite Hnone. cbn. repeat split.
Qed.

Lemma handleLogin_default_admin_witness :
  LoginPage.onLogin
    (LoginPage.handleLogin "uuid" "admin@company.com" "admin123"
       (LocalStorage.empty (num := binary64))) = true.
Proof.
  exact (proj1 (handleLogin_default_admin binary64 "uuid" LocalStorage.empty eq_refl)).
Defined.

(** X9: whatever the credentials, a login attempt leaves at least one
    stored user, after which [initializeStorage] changes nothing (no second
    admin is ever seeded); it writes to the users and the session only; the
    page starts logged in afterwards exactly when the attempt succeeded or a
    session was there before; and a logout afterwards leaves the storage as
    a logout right after [initializeStorage] would, the page starting logged
    out. *)
Theorem handleLogin_then_handleLogout :
  forall (num : Type) (uuid uuid' email password : string) (ls : LocalStorage.t num),
    let out := LoginPage.handleLogin uuid email password ls in
    LocalStorage.getUsers (LoginPage.storage out) <> []
    /\ LocalStorage.initializeStorage uuid' (LoginPage.storage out)
       = LoginPage.storage out
    /\ LocalStorage.MATERIALS (LoginPage.storage out) = LocalStorage.MATERIALS ls
    /\ LocalStorage.PRODUCTS (LoginPage.storage out) = LocalStorage.PRODUCTS ls
    /\ LocalStorage.ORDERS (LoginPage.storage out) = LocalStorage.ORDERS ls
    /\ Index.isLoggedIn_init (LoginPage.storage out)
       = (LoginPage.onLogin out || Index.isLoggedIn_init ls)%bool
    /\ Layout.handleLogout (LoginPage.storage out)
       = Layout.handleLogout (LocalStorage.initializeStorage uuid ls)
    /\ Index.isLoggedIn_init (Layout.handleLogout (LoginPage.storage out)) = false.
Proof.
  intros num uuid uuid' email password ls out. subst out.
  assert (Hinit : LocalStorage.getUsers (LocalStorage.initializeStorage uuid ls) <> []).
  { rewrite initializeStorage_users.
    destruct (LocalStorage.getUsers ls); discriminate. }
  assert (Hfields :
    LocalStorage.MATERIALS (LocalStorage.initializeStorage uuid ls)
    = LocalStorage.MATERIALS ls
    /\ LocalStorage.PRODUCTS (LocalStorage.initializeStorage uuid ls)
       = LocalStorage.PRODUCTS ls
    /\ LocalStorage.ORDERS (LocalStorage.initializeStorage uuid ls)
       = LocalStorage.ORDERS ls
    /\ LocalStorage.CURRENT_USER (LocalStorage.initializeStorage uuid ls)
       = LocalStorage.CURRENT_USER ls).
  { unfold LocalStorage.initializeStorage.
    destruct (LocalStorage.getUsers ls); repeat split. }
  destruct Hfields as (Hm & Hp & Ho & Hc).
  unfold LoginPage.handleLogin.
  destruct (find _ _) as [user|];
    cbn [LoginPage.storage LoginPage.onLogin orb].
  - split; [exact Hinit|]. split.
    + unfold LocalStorage.initializeStorage at 1.
      change (LocalStorage.getUsers (LocalStorage.setCurrentUser (Some user) ?s))
        with (LocalStorage.getUsers s).
      destruct (LocalStorage.getUsers (LocalStorage.initializeStorage uuid ls));
        [contradiction Hinit|]; reflexivity.
    + repeat split; assumption.
  - split; [exact Hinit|]. split.
    + unfold LocalStorage.initializeStorage at 1.
      destruct (LocalStorage.getUsers (LocalStorage.initializeStorage uuid ls));
        [contradiction Hinit|]; reflexivity.
    + split; [exact Hm|]. split; [exact Hp|]. split; [exact Ho|].
      split; [|split; reflexivity].
      unfold Index.isLoggedIn_init, LocalStorage.getCurrentUser. rewrite Hc.
      reflexivity.
Qed.

(** X10: the sidebar offers the "Users" entry exactly to the users the
    Users page admits, the administrators; the entries it offers lead to
    pairwise different pages; and a page name that is none of the five
    shows the dashboard. *)
Theorem navigation_matches_access :
  forall user : option User.t,
    (In "users" (map Layout.id (Layout.navigation user))
     <-> UsersPage.accessDenied user = false)
    /\ (UsersPage.accessDenied user = false
        <-> exists u, user = Some u /\ User.role u = admin)
    /\ NoDup (map Index.renderPage (map Layout.id (Layout.navigation user)))
    /\ (UsersPage.accessDenied user = true ->
        ~ In Index.UsersComponent
            (map Index.renderPage (map Layout.id (Layout.navigation user))))
    /\ (forall currentPage,
           ~ In currentPage ["dashboard"; "orders"; "products"; "materials"; "users"] ->
           Index.renderPage currentPage = Index.DashboardComponent).
Proof.
  intro user.
  assert (Hcases :
    (exists u, user = Some u /\ User.role u = admin
               /\ UsersPage.accessDenied user = false
               /\ map Layout.id (Layout.navigation user)
                  = ["dashboard"; "orders"; "products"; "materials"; "users"])
    \/ ((forall u, user = Some u -> User.role u <> admin)
        /\ UsersPage.accessDenied user = true
        /\ map Layout.id (Layout.navigation user)
           = ["dashboard"; "orders"; "products"; "materials"])).
  { destruct user as [u|]; [|right; repeat split; intros ? [=]].
    unfold UsersPage.accessDenied, Layout.navigation.
    destruct (User.role u) eqn:Hrole.
    - left. exists u. repeat split. exact Hrole.
    - right. repeat split. intros ? [= <-]. rewrite Hrole. discriminate.
    - right. repeat split. intros ? [= <-]. rewrite Hrole. discriminate. }
  split; [|split; [|split; [|split]]].
  - destruct Hcases as [(u & _ & _ & Hacc & Hnav)|(_ & Hacc & Hnav)];
      rewrite Hacc, Hnav; split; intro H.
    + reflexivity.
    + cbn. tauto.
    + cbn in H. repeat (destruct H as [H|H]; [discriminate H|]). destruct H.
    + discriminate H.
  - destruct Hcases as [(u & Hu & Hrole & Hacc & _)|(Hno & Hacc & _)];
      rewrite Hacc; split; intro H.
    + exists u. split; assumption.
    + reflexivity.
    + discriminate H.
    + destruct H as (u & Hu & Hrole). exfalso. exact (Hno u Hu Hrole).
  - destruct Hcases as [(u & _ & _ & _ & Hnav)|(_ & _ & Hnav)]; rewrite Hnav; cbn;
      repeat (constructor; [cbn; intro H;
                            repeat (destruct H as [H|H]; [discriminate H|]);
                            destruct H|]);
      constructor.
  - intros Hacc.
    destruct Hcases as [(u & _ & _ & Hacc' & _)|(_ & _ & Hnav)].
    + rewrite Hacc' in Hacc. discriminate Hacc.
    + rewrite Hnav. cbn. intro H.
      repeat (destruct H as [H|H]; [discriminate H|]). destruct H.
  - intros currentPage Hnot. unfold Index.renderPage.
    destruct (currentPage =? "dashboard") eqn:H1; [reflexivity|].
    destruct (currentPage =? "orders") eqn:H2;
      [apply String.eqb_eq in H2; exfalso; apply Hnot; rewrite H2; cbn; tauto|].
    destruct (currentPage =? "products") eqn:H3;
      [apply String.eqb_eq in H3; exfalso; apply Hnot; rewrite H3; cbn; tauto|].
    destruct (currentPage =? "materials") eqn:H4;
      [apply String.eqb_eq in H4; exfalso; apply Hnot; rewrite H4; cbn; tauto|].
    destruct (currentPage =? "users") eqn:H5;
      [apply String.eqb_eq in H5; exfalso; apply Hnot; rewrite H5; cbn; tauto|].
    reflexivity.
Qed.

(** ** The REST routes *)

Section StatementFacts.
Variable sql_eq : string -> string -> bool.
Context {Row : Type}.
Variable key : Row -> string.

(** After [DELETE ... WHERE id = :id] no row has the id. *)
Lemma sql_delete_gone (id : string) (rows : list Row) :
  Server.absent sql_eq key id (fst (Server.sql_delete sql_eq key id rows)).
Proof.
  intros row Hin. cbn [Server.sql_delete fst] in Hin.
  apply filter_In in Hin. destruct Hin as [_ Hneg].
  destruct (Server.matches sql_eq key id row); [discriminate Hneg|reflexivity].
Qed.

(** [affectedRows] is 0 only when no row has the id. *)
Lemma sql_delete_none (id : string) (rows : list Row) :
  snd (Server.sql_delete sql_eq key id rows) = 0%nat ->
  Server.absent sql_eq key id rows.
Proof.
  cbn [Server.sql_delete snd]. intros Hnone row Hin.
  destruct (Server.matches sql_eq key id row) eqn:Hrow; [|reflexivity].
  assert (Hm : In row (filter (Server.matches sql_eq key id) rows))
    by (apply filter_In; split; assumption).
  destruct (filter (Server.matches sql_eq key id) rows);
    [destruct Hm|discriminate Hnone].
Qed.

Lemma sql_update_none (id : string) (set : Row -> Row) (rows : list Row) :
  Server.absent sql_eq key id rows ->
  Server.sql_update sql_eq key id set rows = (rows, 0%nat).
Proof.
  intro Habsent. unfold Server.sql_update.
  destruct (absent_filter sql_eq key id rows Habsent) as [-> _]. f_equal.
  induction rows as [|row rows IH]; [reflexivity|].
  cbn [map]. rewrite (Habsent row (or_introl eq_refl)). f_equal.
  apply IH. intros r Hr. apply Habsent. right. exact Hr.
Qed.

(** [UPDATE] matched a row when [affectedRows] is not 0. *)
Lemma sql_update_some (id : string) (set : Row -> Row) (rows : list Row) :
  snd (Server.sql_update sql_eq key id set rows) <> 0%nat ->
  exists row, In row rows /\ sql_eq (key row) id = true.
Proof.
  cbn [Server.sql_update snd]. intro Hsome.
  destruct (filter (Server.matches sql_eq key id) rows) as [|row l] eqn:Hf;
    [contradiction Hsome; reflexivity|].
  assert (Hm : In row (filter (Server.matches sql_eq key id) rows))
    by (rewrite Hf; left; reflexivity).
  apply filter_In in Hm. exists row. exact Hm.
Qed.

(** An [UPDATE] that does not write the key column keeps the keys of the
    table, row by row. *)
Lemma sql_update_keys (id : string) (set : Row -> Row) (rows : list Row) :
  (forall row, key (set row) = key row) ->
  map key (fst (Server.sql_update sql_eq key id set rows)) = map key rows.
Proof.
  intro Hset. cbn [Server.sql_update fst]. rewrite map_map.
  apply map_ext. intro row.
  destruct (Server.matches sql_eq key id row); [apply Hset|reflexivity].
Qed.

(** A row that was inserted is the one row its id deletes. *)
Lemma sql_insert_delete (row : Row) (rows rows' : list Row) :
  (forall s, sql_eq s s = true) ->
  Server.sql_insert sql_eq key row rows = inr rows' ->
  Server.sql_delete sql_eq key (key row) rows' = (rows, 1%nat).
Proof.
  intros Hrefl. unfold Server.sql_insert.
  destruct (existsb _ rows) eqn:Hex; [discriminate|]. intros [= <-].
  assert (Habsent : Server.absent sql_eq key (key row) rows).
  { intros r Hr.
    destruct (Server.matches sql_eq key (key row) r) eqn:Hm; [|reflexivity].
    assert (Htrue : existsb (Server.matches sql_eq key (key row)) rows = true)
      by (apply existsb_exists; exists r; split; assumption).
    rewrite Htrue in Hex. discriminate Hex. }
  destruct (absent_filter sql_eq key (key row) rows Habsent) as [Hnone Hall].
  unfold Server.sql_delete. rewrite !filter_app, Hnone, Hall. cbn [filter].
  unfold Server.matches at 1 2. rewrite Hrefl. cbn. rewrite app_nil_r. reflexivity.
Qed.

Lemma sql_insert_absent (row : Row) (rows : list Row) :
  Server.absent sql_eq key (key row) rows ->
  Server.sql_insert sql_eq key row rows = inr (rows ++ [row]).
Proof.
  intro Habsent. unfold Server.sql_insert.
  destruct (existsb _ rows) eqn:Hex; [|reflexivity].
  apply existsb_exists in Hex. destruct Hex as (r & Hr & Hm).
  rewrite (Habsent r Hr) in Hm. discriminate Hm.
Qed.

End StatementFacts.

Section RouteFacts.
Context {num : Type}.
Variable sql_eq : string -> string -> bool.
Variable decimal_10_2 decimal_12_2 : num -> option num.

Lemma set_users_same (db : Server.Db num) : Server.set_users (Server.users db) db = db.
Proof. destruct db; reflexivity. Qed.

Lemma set_materials_same (db : Server.Db num) :
  Server.set_materials (Server.materials db) db = db.
Proof. destruct db; reflexivity. Qed.

Lemma set_products_same (db : Server.Db num) :
  Server.set_products (Server.products db) db = db.
Proof. destruct db; reflexivity. Qed.

Lemma set_orders_same (db : Server.Db num) :
  Server.set_orders (Server.orders db) db = db.
Proof. destruct db; reflexivity. Qed.

Lemma material_row_id (material row : Material.t num) :
  Server.material_row decimal_10_2 decimal_12_2 material = inr row ->
  Material.id row = Material.id material.
Proof.
  unfold Server.material_row.
  destruct (decimal_10_2 (Material.cost material)),
    (decimal_12_2 (Material.stock material)); intros [= <-]; reflexivity.
Qed.

Lemma order_row_id (order row : Order.t num) :
  Server.order_row decimal_12_2 order = inr row ->
  Order.id row = Order.id order.
Proof.
  unfold Server.order_row.
  destruct (decimal_12_2 (Order.totalCost order)); intros [= <-]; reflexivity.
Qed.

End RouteFacts.

(** X11: for a body that fits the columns of [users],
    [POST /api/users] answers 201 with the body exactly when no row has its
    id or its email under the engine's comparison; the rows of the table
    are then those of before and the user, the other tables being as they
    were; in every other case the database is unchanged. *)
Theorem post_users_created :
  forall (num : Type) (sql_eq : string -> string -> bool) (user : User.t)
         (db : Server.Db num),
    Server.fits_users user = true ->
    (fst (Server.post_users sql_eq user db) = Server.Status201 user
     <-> forall row, In row (Server.users db) ->
                     sql_eq (User.id row) (User.id user) = false
                     /\ sql_eq (User.email row) (User.email user) = false)
    /\ (fst (Server.post_users sql_eq user db) = Server.Status201 user ->
        let db' := snd (Server.post_users sql_eq user db) in
        (forall row, In row (Server.users db')
                     <-> In row (Server.users db) \/ row = user)
        /\ Server.materials db' = Server.materials db
        /\ Server.products db' = Server.products db
        /\ Server.orders db' = Server.orders db)
    /\ (fst (Server.post_users sql_eq user db) <> Server.Status201 user ->
        snd (Server.post_users sql_eq user db) = db).
Proof.
  intros num sql_eq user db _.
  unfold Server.post_users, Server.insert_user, Server.sql_insert, Server.matches.
  destruct (existsb (fun row => sql_eq (User.id row) (User.id user)) (Server.users db))
    eqn:Hid; cbn [fst snd].
  - split; [split|split]; try discriminate; try reflexivity.
    intro Hall. apply existsb_exists in Hid. destruct Hid as (row & Hin & Hrow).
    destruct (Hall row Hin) as [Hfalse _]. rewrite Hfalse in Hrow. discriminate Hrow.
  - destruct (existsb (fun row => sql_eq (User.email row) (User.email user))
                (Server.users db)) eqn:Hemail; cbn [fst snd].
    + split; [split|split]; try discriminate; try reflexivity.
      intro Hall. apply existsb_exists in Hemail.
      destruct Hemail as (row & Hin & Hrow).
      destruct (Hall row Hin) as [_ Hfalse]. rewrite Hfalse in Hrow.
      discriminate Hrow.
    + split; [split|split].
      * intros _ row Hin. split.
        -- destruct (sql_eq (User.id row) (User.id user)) eqn:Hrow; [|reflexivity].
           assert (Htrue : existsb (fun row => sql_eq (User.id row) (User.id user))
                             (Server.users db) = true)
             by (apply existsb_exists; exists row; split; assumption).
           rewrite Htrue in Hid. discriminate Hid.
        -- destruct (sql_eq (User.email row) (User.email user)) eqn:Hrow; [|reflexivity].
           assert (Htrue : existsb (fun row => sql_eq (User.email row) (User.email user))
                             (Server.users db) = true)
             by (apply existsb_exists; exists row; split; assumption).
           rewrite Htrue in Hemail. discriminate Hemail.
      * reflexivity.
      * intros _. cbn. split; [|repeat split].
        intro row. rewrite in_app_iff. cbn [In]. split.
        -- intros [Hin|[Heq|[]]]; [left; exact Hin|right; symmetry; exact Heq].
        -- intros [Hin|Heq]; [left; exact Hin|right; left; symmetry; exact Heq].
      * intro Hne. contradiction Hne. reflexivity.
Qed.

Lemma post_users_created_witness :
  fst (Server.post_users String.eqb Sample.grace Sample.db)
  = Server.Status201 Sample.grace.
Proof.
  apply (proj1 (post_users_created binary64 String.eqb Sample.grace Sample.db eq_refl)).
  intros row [<-|[]]. split; reflexivity.
Defined.

(** X12: after a DELETE route has answered, whatever it answered, no row
    of the table has the id: the same request again answers 404 and
    changes nothing. *)
Theorem delete_twice :
  forall (num : Type) (sql_eq : string -> string -> bool) (id : string)
         (db : Server.Db num),
    (let db' := snd (Server.delete_users sql_eq id db) in
     Server.absent sql_eq User.id id (Server.users db')
     /\ Server.delete_users sql_eq id db' = (Server.Status404 "User not found", db'))
    /\ (let db' := snd (Server.delete_materials sql_eq id db) in
        Server.absent sql_eq Material.id id (Server.materials db')
        /\ Server.delete_materials sql_eq id db'
           = (Server.Status404 "Material not found", db'))
    /\ (let db' := snd (Server.delete_products sql_eq id db) in
        Server.absent sql_eq Product.id id (Server.products db')
        /\ Server.delete_products sql_eq id db'
           = (Server.Status404 "Product not found", db'))
    /\ (let db' := snd (Server.delete_orders sql_eq id db) in
        Server.absent sql_eq Order.id id (Server.orders db')
        /\ Server.delete_orders sql_eq id db'
           = (Server.Status404 "Order not found", db')).
Proof.
  intros num sql_eq id db.
  split; [|split; [|split]]; intro db'.
  - assert (Habsent : Server.absent sql_eq User.id id (Server.users db')).
    { subst db'. unfold Server.delete_users.
      pose proof (sql_delete_gone sql_eq User.id id (Server.users db)) as Hgone.
      pose proof (sql_delete_none sql_eq User.id id (Server.users db)) as Hnone.
      destruct (Server.sql_delete sql_eq User.id id (Server.users db)) as [rows n].
      cbn [fst snd] in Hgone, Hnone.
      destruct (Nat.eqb n 0) eqn:Hn; cbn [snd Server.users Server.set_users].
      - apply Hnone. apply Nat.eqb_eq. exact Hn.
      - exact Hgone. }
    split; [exact Habsent|]. apply delete_users_absent. exact Habsent.
  - assert (Habsent : Server.absent sql_eq Material.id id (Server.materials db')).
    { subst db'. unfold Server.delete_materials.
      pose proof (sql_delete_gone sql_eq Material.id id (Server.materials db)) as Hgone.
      pose proof (sql_delete_none sql_eq Material.id id (Server.materials db)) as Hnone.
      destruct (Server.sql_delete sql_eq Material.id id (Server.materials db))
        as [rows n].
      cbn [fst snd] in Hgone, Hnone.
      destruct (Nat.eqb n 0) eqn:Hn; cbn [snd Server.materials Server.set_materials].
      - apply Hnone. apply Nat.eqb_eq. exact Hn.
      - exact Hgone. }
    split; [exact Habsent|]. apply delete_materials_absent. exact Habsent.
  - assert (Habsent : Server.absent sql_eq Product.id id (Server.products db')).
    { subst db'. unfold Server.delete_products.
      pose proof (sql_delete_gone sql_eq Product.id id (Server.products db)) as Hgone.
      pose proof (sql_delete_none sql_eq Product.id id (Server.products db)) as Hnone.
      destruct (Server.sql_delete sql_eq Product.id id (Server.products db))
        as [rows n].
      cbn [fst snd] in Hgone, Hnone.
      destruct (Nat.eqb n 0) eqn:Hn; cbn [snd Server.products Server.set_products].
      - apply Hnone. apply Nat.eqb_eq. exact Hn.
      - exact Hgone. }
    split; [exact Habsent|]. apply delete_products_absent. exact Habsent.
  - assert (Habsent : Server.absent sql_eq Order.id id (Server.orders db')).
    { subst db'. unfold Server.delete_orders.
      pose proof (sql_delete_gone sql_eq Order.id id (Server.orders db)) as Hgone.
      pose proof (sql_delete_none sql_eq Order.id id (Server.orders db)) as Hnone.
      destruct (Server.sql_delete sql_eq Order.id id (Server.orders db)) as [rows n].
      cbn [fst snd] in Hgone, Hnone.
      destruct (Nat.eqb n 0) eqn:Hn; cbn [snd Server.orders Server.set_orders].
      - apply Hnone. apply Nat.eqb_eq. exact Hn.
      - exact Hgone. }
    split; [exact Habsent|]. apply delete_orders_absent. exact Habsent.
Qed.

(** X13: when the engine's comparison finds a string equal to itself, a
    row that a POST route created is the one row that the DELETE route
    removes for its id: the database is back to what it was before the
    POST. *)
Theorem post_then_delete :
  forall (num : Type) (sql_eq : string -> string -> bool)
         (decimal_10_2 decimal_12_2 : num -> option num),
    (forall s, sql_eq s s = true) ->
    forall db db' : Server.Db num,
      (forall user response,
          Server.post_users sql_eq user db = (Server.Status201 response, db') ->
          Server.delete_users sql_eq (User.id user) db' = (Server.Status204, db))
      /\ (forall material response,
             Server.post_materials sql_eq decimal_10_2 decimal_12_2 material db
             = (Server.Status201 response, db') ->
             Server.delete_materials sql_eq (Material.id material) db'
             = (Server.Status204, db))
      /\ (forall product response,
             Server.post_products sql_eq product db = (Server.Status201 response, db') ->
             Server.delete_products sql_eq (Product.id product) db'
             = (Server.Status204, db))
      /\ (forall order response,
             Server.post_orders sql_eq decimal_12_2 order db
             = (Server.Status201 response, db') ->
             Server.delete_orders sql_eq (Order.id order) db' = (Server.Status204, db)).
Proof.
  intros num sql_eq decimal_10_2 decimal_12_2 Hrefl db db'.
  split; [|split; [|split]].
  - intros user response. unfold Server.post_users, Server.insert_user.
    destruct (Server.sql_insert sql_eq User.id user (Server.users db))
      as [err|rows] eqn:Hins; [discriminate|].
    destruct (existsb _ (Server.users db)); [discriminate|]. intros [= _ <-].
    unfold Server.delete_users. cbn [Server.users Server.set_users].
    rewrite (sql_insert_delete sql_eq User.id user _ _ Hrefl Hins).
    cbn. destruct db; reflexivity.
  - intros material response. unfold Server.post_materials.
    destruct (Server.material_row decimal_10_2 decimal_12_2 material)
      as [err|row] eqn:Hrow; [discriminate|].
    destruct (Server.sql_insert sql_eq Material.id row (Server.materials db))
      as [err|rows] eqn:Hins; [discriminate|]. intros [= _ <-].
    unfold Server.delete_materials. cbn [Server.materials Server.set_materials].
    rewrite <- (material_row_id _ _ _ _ Hrow).
    rewrite (sql_insert_delete sql_eq Material.id row _ _ Hrefl Hins).
    cbn. destruct db; reflexivity.
  - intros product response. unfold Server.post_products.
    destruct (Server.sql_insert sql_eq Product.id product (Server.products db))
      as [err|rows] eqn:Hins; [discriminate|]. intros [= _ <-].
    unfold Server.delete_products. cbn [Server.products Server.set_products].
    rewrite (sql_insert_delete sql_eq Product.id product _ _ Hrefl Hins).
    cbn. destruct db; reflexivity.
  - intros order response. unfold Server.post_orders.
    destruct (Server.order_row decimal_12_2 order) as [err|row] eqn:Hrow;
      [discriminate|].
    destruct (Server.sql_insert sql_eq Order.id row (Server.orders db))
      as [err|rows] eqn:Hins; [discriminate|]. intros [= _ <-].
    unfold Server.delete_orders. cbn [Server.orders Server.set_orders].
    rewrite <- (order_row_id _ _ _ Hrow).
    rewrite (sql_insert_delete sql_eq Order.id row _ _ Hrefl Hins).
    cbn. destruct db; reflexivity.
Qed.

Lemma post_then_delete_witness :
  Server.delete_products String.eqb "p2"
    (snd (Server.post_products String.eqb (Sample.product "p2" [("m1", of_int 1)])
            Sample.db))
  = (Server.Status204, Sample.db).
Proof.
  exact (proj1 (proj2 (proj2
           (post_then_delete binary64 String.eqb Some Some String.eqb_refl
              Sample.db _)))
           (Sample.product "p2" [("m1", of_int 1)]) _ eq_refl).
Defined.

(** X14: a PUT route never changes the id of a row nor the number of
    rows, whatever the body says; and when it answers 200 a row had the id
    of the URL and the answer carries that id, not the id of the body. *)
Theorem put_keeps_ids :
  forall (num : Type) (sql_eq : string -> string -> bool)
         (decimal_10_2 decimal_12_2 : num -> option num) (id : string)
         (db : Server.Db num),
    (forall body,
        map User.id (Server.users (snd (Server.put_users sql_eq id body db)))
        = map User.id (Server.users db)
        /\ forall saved,
             fst (Server.put_users sql_eq id body db) = Server.Status200 saved ->
             User.id saved = id
             /\ exists row, In row (Server.users db) /\ sql_eq (User.id row) id = true)
    /\ (forall body,
           map Material.id
             (Server.materials
                (snd (Server.put_materials sql_eq decimal_10_2 decimal_12_2 id body db)))
           = map Material.id (Server.materials db)
           /\ forall saved,
                fst (Server.put_materials sql_eq decimal_10_2 decimal_12_2 id body db)
                = Server.Status200 saved ->
                Material.id saved = id
                /\ exists row, In row (Server.materials db)
                               /\ sql_eq (Material.id row) id = true)
    /\ (forall body,
           map Product.id (Server.products (snd (Server.put_products sql_eq id body db)))
           = map Product.id (Server.products db)
           /\ forall saved,
                fst (Server.put_products sql_eq id body db) = Server.Status200 saved ->
                Product.id saved = id
                /\ exists row, In row (Server.products db)
                               /\ sql_eq (Product.id row) id = true)
    /\ (forall body,
           map Order.id
             (Server.orders (snd (Server.put_orders sql_eq decimal_12_2 id body db)))
           = map Order.id (Server.orders db)
           /\ forall saved,
                fst (Server.put_orders sql_eq decimal_12_2 id body db)
                = Server.Status200 saved ->
                Order.id saved = id
                /\ exists row, In row (Server.orders db)
                               /\ sql_eq (Order.id row) id = true).
Proof.
  intros num sql_eq decimal_10_2 decimal_12_2 id db.
  split; [|split; [|split]]; intro body.
  - unfold Server.put_users, Server.update_user.
    destruct (existsb _ (Server.users db) && existsb _ (Server.users db))%bool;
      [split; [reflexivity|discriminate]|].
    pose proof (sql_update_keys sql_eq User.id id
                  (Server.set_user_columns (Server.with_user_id id body))
                  (Server.users db) (fun _ => eq_refl)) as Hkeys.
    pose proof (sql_update_some sql_eq User.id id
                  (Server.set_user_columns (Server.with_user_id id body))
                  (Server.users db)) as Hsome.
    destruct (Server.sql_update sql_eq User.id id _ (Server.users db)) as [rows n].
    cbn [fst snd] in Hkeys, Hsome.
    destruct (Nat.eqb n 0) eqn:Hn; cbn [fst snd Server.users Server.set_users];
      [split; [reflexivity|discriminate]|].
    split; [exact Hkeys|]. intros saved [= <-]. split; [reflexivity|].
    apply Hsome. intro H0. rewrite H0 in Hn. discriminate Hn.
  - unfold Server.put_materials.
    destruct (Server.material_row decimal_10_2 decimal_12_2
                (Server.with_material_id id body)) as [err|row];
      [split; [reflexivity|discriminate]|].
    pose proof (sql_update_keys sql_eq Material.id id
                  (Server.set_material_columns row)
                  (Server.materials db) (fun _ => eq_refl)) as Hkeys.
    pose proof (sql_update_some sql_eq Material.id id
                  (Server.set_material_columns row) (Server.materials db)) as Hsome.
    destruct (Server.sql_update sql_eq Material.id id _ (Server.materials db))
      as [rows n].
    cbn [fst snd] in Hkeys, Hsome.
    destruct (Nat.eqb n 0) eqn:Hn;
      cbn [fst snd Server.materials Server.set_materials];
      [split; [reflexivity|discriminate]|].
    split; [exact Hkeys|]. intros saved [= <-]. split; [reflexivity|].
    apply Hsome. intro H0. rewrite H0 in Hn. discriminate Hn.
  - unfold Server.put_products.
    pose proof (sql_update_keys sql_eq Product.id id
                  (Server.set_product_columns (Server.with_product_id id body))
                  (Server.products db) (fun _ => eq_refl)) as Hkeys.
    pose proof (sql_update_some sql_eq Product.id id
                  (Server.set_product_columns (Server.with_product_id id body))
                  (Server.products db)) as Hsome.
    destruct (Server.sql_update sql_eq Product.id id _ (Server.products db))
      as [rows n].
    cbn [fst snd] in Hkeys, Hsome.
    destruct (Nat.eqb n 0) eqn:Hn;
      cbn [fst snd Server.products Server.set_products];
      [split; [reflexivity|discriminate]|].
    split; [exact Hkeys|]. intros saved [= <-]. split; [reflexivity|].
    apply Hsome. intro H0. rewrite H0 in Hn. discriminate Hn.
  - unfold Server.put_orders.
    destruct (Server.order_row decimal_12_2 (Server.with_order_id id body))
      as [err|row]; [split; [reflexivity|discriminate]|].
    pose proof (sql_update_keys sql_eq Order.id id (Server.set_order_columns row)
                  (Server.orders db) (fun _ => eq_refl)) as Hkeys.
    pose proof (sql_update_some sql_eq Order.id id (Server.set_order_columns row)
                  (Server.orders db)) as Hsome.
    destruct (Server.sql_update sql_eq Order.id id _ (Server.orders db)) as [rows n].
    cbn [fst snd] in Hkeys, Hsome.
    destruct (Nat.eqb n 0) eqn:Hn; cbn [fst snd Server.orders Server.set_orders];
      [split; [reflexivity|discriminate]|].
    split; [exact Hkeys|]. intros saved [= <-]. split; [reflexivity|].
    apply Hsome. intro H0. rewrite H0 in Hn. discriminate Hn.
Qed.

(** X15: when the server starts, [ensureSchema] cannot fail on the seed:
    it leaves a database with at least one user, on which running it again
    changes nothing; it inserts the admin only into an empty users table and
    never touches the other tables. *)
Theorem ensureSchema_seed :
  forall (num : Type) (sql_eq : string -> string -> bool) (db : Server.Db num),
    exists db',
      Server.ensureSchema sql_eq db = inr db'
      /\ Server.users db' <> []
      /\ Server.ensureSchema sql_eq db' = inr db'
      /\ Server.users db'
         = match Server.users db with
           | [] => [Server.seedAdmin]
           | _ :: _ => Server.users db
           end
      /\ Server.materials db' = Server.materials db
      /\ Server.products db' = Server.products db
      /\ Server.orders db' = Server.orders db.
Proof.
  intros num sql_eq db. unfold Server.ensureSchema at 1.
  destruct (Server.users db) as [|row rows] eqn:Husers; cbn.
  - eexists. split; [reflexivity|]. cbn. repeat split. discriminate.
  - exists db. split; [reflexivity|]. unfold Server.ensureSchema.
    rewrite Husers. cbn. repeat split. discriminate.
Qed.

(** ** UsersPage against the server *)

Section UsersPageFacts.
Context {num : Type}.

Lemma insert_user_rows (sql_eq : string -> string -> bool) (user : User.t)
    (rows rows' : list User.t) :
  Server.insert_user sql_eq user rows = inr rows' -> rows' = rows ++ [user].
Proof.
  unfold Server.insert_user, Server.sql_insert.
  destruct (existsb _ rows); [discriminate|].
  destruct (existsb _ rows); [discriminate|]. intros [= <-]. reflexivity.
Qed.

Lemma insert_user_emails (sql_eq : string -> string -> bool) (user : User.t)
    (rows rows' : list User.t) :
  Server.insert_user sql_eq user rows = inr rows' ->
  forall row, In row rows -> sql_eq (User.email row) (User.email user) = false.
Proof.
  unfold Server.insert_user.
  destruct (Server.sql_insert sql_eq User.id user rows); [discriminate|].
  destruct (existsb _ rows) eqn:Hex; [discriminate|]. intros _ row Hin.
  destruct (sql_eq (User.email row) (User.email user)) eqn:Hrow; [|reflexivity].
  assert (Htrue : existsb (fun row => sql_eq (User.email row) (User.email user)) rows
                  = true)
    by (apply existsb_exists; exists row; split; assumption).
  rewrite Htrue in Hex. discriminate Hex.
Qed.

(** [PUT /api/users/:id] under a binary collation. *)
Lemma put_users_binary (id : string) (body : User.t) (db : Server.Db num) :
  (Api.request (fst (Server.put_users String.eqb id body db)) = Api.Rejected
   /\ snd (Server.put_users String.eqb id body db) = db)
  \/ (fst (Server.put_users String.eqb id body db)
      = Server.Status200 (Server.with_user_id id body)
      /\ snd (Server.put_users String.eqb id body db)
         = Server.set_users
             (map (fun u => if User.id u =? id then Server.with_user_id id body else u)
                (Server.users db)) db).
Proof.
  unfold Server.put_users, Server.update_user.
  destruct (existsb _ (Server.users db) && existsb _ (Server.users db))%bool;
    [left; split; reflexivity|].
  unfold Server.sql_update.
  destruct (Nat.eqb _ 0); [left; split; reflexivity|].
  right. split; [reflexivity|]. cbn [snd]. f_equal.
  apply map_ext. intro u. unfold Server.matches.
  destruct (User.id u =? id) eqn:Hu; [|reflexivity].
  apply String.eqb_eq in Hu. unfold Server.set_user_columns, Server.with_user_id.
  cbn. rewrite Hu. reflexivity.
Qed.

End UsersPageFacts.

(** X16: under a binary collation, a Users page whose list is the users
    table keeps it so: after [handleSubmit] and after [handleDelete],
    whether the request went through or not, the list shown is again the
    table. *)
Theorem UsersPage_mirrors_table :
  forall (num : Type) (uuid id : string) (currentUser : option User.t)
         (st : UsersPage.State) (db : Server.Db num),
    UsersPage.users st = Server.users db ->
    UsersPage.users (fst (fst (UsersPage.handleSubmit String.eqb uuid st db)))
    = Server.users (snd (fst (UsersPage.handleSubmit String.eqb uuid st db)))
    /\ UsersPage.users
         (fst (fst (UsersPage.handleDelete String.eqb currentUser id st db)))
       = Server.users
           (snd (fst (UsersPage.handleDelete String.eqb currentUser id st db))).
Proof.
  intros num uuid id currentUser st db Hsync. split.
  - unfold UsersPage.handleSubmit.
    destruct (negb _); [exact Hsync|].
    destruct (_ && _)%bool; [exact Hsync|].
    destruct (UsersPage.editingUser st) as [editing|] eqn:Hedit.
    + unfold UsersPage.updateUser.
      destruct (put_users_binary (User.id (UsersPage.userData uuid st))
                  (UsersPage.userData uuid st) db) as [[Hrej Hdb]|[Hok Hdb]];
        destruct (Server.put_users String.eqb _ _ db) as [response db'];
        cbn [fst snd] in *.
      * rewrite Hrej. subst db'. exact Hsync.
      * subst response db'. cbn. rewrite Hsync. reflexivity.
    + unfold UsersPage.createUser, Server.post_users.
      destruct (Server.insert_user String.eqb _ (Server.users db))
        as [err|rows] eqn:Hins; cbn; [exact Hsync|].
      rewrite (insert_user_rows _ _ _ _ Hins), Hsync. reflexivity.
  - unfold UsersPage.handleDelete.
    destruct (UsersPage.is_current_user currentUser id); [exact Hsync|].
    unfold UsersPage.deleteUser, Server.delete_users, Server.sql_delete.
    destruct (Nat.eqb _ 0); cbn; [exact Hsync|].
    rewrite Hsync. reflexivity.
Qed.

Lemma UsersPage_mirrors_table_witness :
  UsersPage.users
    (fst (fst (UsersPage.handleDelete String.eqb None "u1" Sample.users_page Sample.db)))
  = Server.users
      (snd (fst (UsersPage.handleDelete String.eqb None "u1" Sample.users_page
                   Sample.db))).
Proof.
  exact (proj2 (UsersPage_mirrors_table binary64 "uuid" "u1" None
                  Sample.users_page Sample.db eq_refl)).
Defined.

(** X17: whenever the Users page reports "User created", the form passed
    both checks (an email containing [@], a password whose [length] is six
    or more), no row had that email, the new user, with the generated id,
    is the last entry of the page's list, and, when it fits the columns,
    the rows of the table are those of before and the new user; and a new
    user whose form fails a check is never sent to the server. *)
Theorem handleSubmit_user_created :
  forall (num : Type) (sql_eq : string -> string -> bool) (uuid : string)
         (st : UsersPage.State) (db : Server.Db num),
    let form := UsersPage.formData st in
    let out := UsersPage.handleSubmit sql_eq uuid st db in
    (title (snd out) = "User created" ->
     UsersPage.editingUser st = None
     /\ UsersPage.includes "@" (UsersPage.Form.email form) = true
     /\ (6 <= JsString.length (UsersPage.Form.password form))%nat
     /\ (forall row, In row (Server.users db) ->
                     sql_eq (User.email row) (UsersPage.Form.email form) = false)
     /\ (Server.fits_users (UsersPage.userData uuid st) = true ->
         forall row, In row (Server.users (snd (fst out)))
                     <-> In row (Server.users db) \/ row = UsersPage.userData uuid st)
     /\ UsersPage.users (fst (fst out))
        = UsersPage.users st ++ [UsersPage.userData uuid st]
     /\ User.id (UsersPage.userData uuid st) = uuid)
    /\ (UsersPage.editingUser st = None ->
        UsersPage.includes "@" (UsersPage.Form.email form) = false
        \/ (JsString.length (UsersPage.Form.password form) < 6)%nat ->
        out = (st, db, {| title := "Validation Error"; variant := destructive |})).
Proof.
  intros num sql_eq uuid st db form out. subst form out.
  unfold UsersPage.handleSubmit, UsersPage.is_editing. split.
  - destruct (UsersPage.includes "@" _) eqn:Hat; cbn [negb]; [|discriminate].
    destruct (Nat.ltb_spec
                (JsString.length (UsersPage.Form.password (UsersPage.formData st))) 6)
      as [Hshort|Hlong]; cbn [andb].
    + destruct (UsersPage.editingUser st) as [editing|] eqn:Hedit; cbn [negb];
        [|discriminate].
      unfold UsersPage.updateUser.
      destruct (Server.put_users sql_eq _ _ db) as [[saved|saved| | |] db'];
        cbn; discriminate.
    + destruct (UsersPage.editingUser st) as [editing|] eqn:Hedit.
      * unfold UsersPage.updateUser.
        destruct (Server.put_users sql_eq _ _ db) as [[saved|saved| | |] db'];
          cbn; discriminate.
      * unfold UsersPage.createUser, Server.post_users.
        destruct (Server.insert_user sql_eq (UsersPage.userData uuid st)
                    (Server.users db)) as [err|rows] eqn:Hins; cbn; [discriminate|].
        intros _. split; [reflexivity|]. split; [reflexivity|]. split; [exact Hlong|].
        split.
        -- intros row Hin.
           pose proof (insert_user_emails _ _ _ _ Hins row Hin) as Hemail.
           unfold UsersPage.userData in Hemail. rewrite Hedit in Hemail.
           exact Hemail.
        -- rewrite (insert_user_rows _ _ _ _ Hins). split; [|split; [reflexivity|]].
           ++ intros _ row. rewrite in_app_iff. cbn [In]. split.
              ** intros [Hin|[Heq|[]]]; [left; exact Hin|right; symmetry; exact Heq].
              ** intros [Hin|Heq]; [left; exact Hin|right; left; symmetry; exact Heq].
           ++ unfold UsersPage.userData. rewrite Hedit. reflexivity.
  - intros Hnew [Hat|Hshort].
    + rewrite Hat. reflexivity.
    + destruct (negb _); [reflexivity|]. rewrite Hnew.
      apply Nat.ltb_lt in Hshort. rewrite Hshort. reflexivity.
Qed.

Lemma handleSubmit_user_created_witness :
  In Sample.grace
    (Server.users
       (snd (fst (UsersPage.handleSubmit String.eqb "u2" Sample.new_user_page
                    Sample.db))))
  /\ UsersPage.handleSubmit String.eqb "u2" Sample.short_password_page Sample.db
     = (Sample.short_password_page, Sample.db,
        {| title := "Validation Error"; variant := destructive |}).
Proof.
  split.
  - apply (proj1 (proj2 (proj2 (proj2 (proj2
             (proj1 (handleSubmit_user_created binary64 String.eqb "u2"
                       Sample.new_user_page Sample.db)
                eq_refl))))) eq_refl).
    right. reflexivity.
  - apply (proj2 (handleSubmit_user_created binary64 String.eqb "u2"
                    Sample.short_password_page Sample.db) eq_refl).
    right. vm_compute. lia.
Defined.

(** X18: opening the editor on a user and saving without typing does not
    change the users table, in whatever way the submission ends, as long as
    the rows that have the user's id are that user (the password field,
    shown empty, keeps the stored password). *)
Theorem handleEdit_then_handleSubmit :
  forall (num : Type) (sql_eq : string -> string -> bool) (uuid : string)
         (user : User.t) (st : UsersPage.State) (db : Server.Db num),
    (forall row, In row (Server.users db) ->
                 sql_eq (User.id row) (User.id user) = true -> row = user) ->
    UsersPage.userData uuid (UsersPage.handleEdit user st) = user
    /\ snd (fst (UsersPage.handleSubmit sql_eq uuid (UsersPage.handleEdit user st) db))
       = db.
Proof.
  intros num sql_eq uuid user st db Hrows.
  assert (Hdata : UsersPage.userData uuid (UsersPage.handleEdit user st) = user)
    by (destruct user; reflexivity).
  split; [exact Hdata|].
  unfold UsersPage.handleSubmit. rewrite Hdata.
  destruct (negb _); [reflexivity|].
  destruct (_ && _)%bool; [reflexivity|].
  cbn [UsersPage.handleEdit UsersPage.editingUser].
  unfold UsersPage.updateUser, Server.put_users, Server.update_user.
  destruct (existsb _ (Server.users db) && existsb _ (Server.users db))%bool;
    [reflexivity|].
  unfold Server.sql_update.
  destruct (Nat.eqb _ 0); [reflexivity|]. cbn [Api.request fst snd].
  assert (Hmap :
    map (fun row => if Server.matches sql_eq User.id (User.id user) row
                    then Server.set_user_columns
                           (Server.with_user_id (User.id user) user) row
                    else row) (Server.users db)
    = Server.users db).
  { rewrite <- (map_id (Server.users db)) at 2.
    apply map_ext_in. intros row Hin. unfold Server.matches.
    destruct (sql_eq (User.id row) (User.id user)) eqn:Hrow; [|reflexivity].
    rewrite (Hrows row Hin Hrow). destruct user; reflexivity. }
  rewrite Hmap. apply set_users_same.
Qed.

Lemma handleEdit_then_handleSubmit_witness :
  snd (fst (UsersPage.handleSubmit String.eqb "uuid"
              (UsersPage.handleEdit Sample.ada Sample.users_page) Sample.db))
  = Sample.db.
Proof.
  refine (proj2 (handleEdit_then_handleSubmit binary64 String.eqb "uuid" Sample.ada
                   Sample.users_page Sample.db _)).
  intros row [<-|[]] _. reflexivity.
Defined.

(** ** Form lists *)

Section RemoveIndexFacts.
Context {A : Type}.

Lemma remove_index_from (xs : list A) :
  forall (start index : nat),
    map snd (filter (fun p => negb (Nat.eqb (fst p) (start + index)))
               (combine (seq start (List.length xs)) xs))
    = firstn index xs ++ skipn (S index) xs.
Proof.
  induction xs as [|x xs IH]; intros start index.
  - destruct index; reflexivity.
  - cbn [List.length seq combine filter fst].
    destruct index as [|index].
    + rewrite Nat.add_0_r, Nat.eqb_refl. cbn [negb firstn skipn app].
      specialize (IH (S start) (List.length xs)).
      rewrite firstn_all, skipn_all2, app_nil_r in IH by lia.
      etransitivity; [|exact IH]. f_equal.
      apply filter_ext_in. intros [n a] Hin. cbn [fst].
      apply in_combine_l in Hin. apply in_seq in Hin.
      destruct (Nat.eqb_spec n start), (Nat.eqb_spec n (S start + List.length xs));
        try reflexivity; lia.
    + destruct (Nat.eqb_spec start (start + S index)) as [Heq|_]; [lia|].
      cbn [negb map snd firstn skipn app]. f_equal.
      rewrite <- Nat.add_succ_comm. apply IH.
Qed.

(** [xs.filter((_, i) => i !== index)] drops the element at [index] and
    keeps the others in order. *)
Lemma remove_index_spec (index : nat) (xs : list A) :
  remove_index index xs = firstn index xs ++ skipn (S index) xs.
Proof. exact (remove_index_from xs 0 index). Qed.

Lemma remove_index_last (xs : list A) (x : A) :
  remove_index (List.length xs) (xs ++ [x]) = xs.
Proof.
  rewrite remove_index_spec.
  rewrite firstn_app, Nat.sub_diag, firstn_all. cbn [firstn].
  rewrite skipn_all2 by (rewrite length_app; cbn; lia).
  rewrite !app_nil_r. reflexivity.
Qed.

Lemma remove_index_out_of_range (index : nat) (xs : list A) :
  (List.length xs <= index)%nat -> remove_index index xs = xs.
Proof.
  intro Hle. rewrite remove_index_spec.
  rewrite firstn_all2 by exact Hle. rewrite skipn_all2 by lia.
  apply app_nil_r.
Qed.

End RemoveIndexFacts.

(** X19: in the order form and the product form, removing at an index
    drops the entry at that index and keeps the others in order, a remove
    at an index past the end changes no entry, and a remove at the last
    index undoes an add. *)
Theorem remove_entry_at_index :
  forall (num : Type) (N : Number num) (index : nat),
    (forall st : OrdersPage.State,
        let lines := OrdersPage.Form.products (OrdersPage.formData st) in
        OrdersPage.Form.products (OrdersPage.formData (OrdersPage.removeProduct index st))
        = firstn index lines ++ skipn (S index) lines
        /\ ((List.length lines <= index)%nat ->
            OrdersPage.Form.products
              (OrdersPage.formData (OrdersPage.removeProduct index st)) = lines)
        /\ OrdersPage.Form.products
             (OrdersPage.formData
                (OrdersPage.removeProduct (List.length lines) (OrdersPage.addProduct st)))
           = lines)
    /\ (forall st : OrdersPage.State,
           let leftovers := OrdersPage.Form.leftovers (OrdersPage.formData st) in
           OrdersPage.Form.leftovers
             (OrdersPage.formData (OrdersPage.removeLeftover index st))
           = firstn index leftovers ++ skipn (S index) leftovers
           /\ ((List.length leftovers <= index)%nat ->
               OrdersPage.Form.leftovers
                 (OrdersPage.formData (OrdersPage.removeLeftover index st)) = leftovers)
           /\ OrdersPage.Form.leftovers
                (OrdersPage.formData
                   (OrdersPage.removeLeftover (List.length leftovers)
                      (OrdersPage.addLeftover st)))
              = leftovers)
    /\ (forall st : ProductsPage.State,
           let entries := ProductsPage.Form.materials (ProductsPage.formData st) in
           ProductsPage.Form.materials
             (ProductsPage.formData (ProductsPage.removeMaterial index st))
           = firstn index entries ++ skipn (S index) entries
           /\ ((List.length entries <= index)%nat ->
               ProductsPage.Form.materials
                 (ProductsPage.formData (ProductsPage.removeMaterial index st)) = entries)
           /\ ProductsPage.Form.materials
                (ProductsPage.formData
                   (ProductsPage.removeMaterial (List.length entries)
                      (ProductsPage.addMaterial st)))
              = entries).
Proof.
  intros num N index. split; [|split]; intros st xs; cbn; subst xs.
  - split; [apply remove_index_spec|].
    split; [apply remove_index_out_of_range|apply remove_index_last].
  - split; [apply remove_index_spec|].
    split; [apply remove_index_out_of_range|apply remove_index_last].
  - split; [apply remove_index_spec|].
    split; [apply remove_index_out_of_range|apply remove_index_last].
Qed.

(** ** The catalogue pages *)

Section ReplaceFacts.
Context {A : Type}.
Variable key : A -> string.

(** [xs.map(x => x.id === id ? y : x)] with [y.id = id] keeps the ids. *)
Lemma replace_by_id_keys (id : string) (y : A) (xs : list A) :
  key y = id ->
  map key (map (fun x => if key x =? id then y else x) xs) = map key xs.
Proof.
  intro Hy. rewrite map_map. apply map_ext. intro x.
  destruct (key x =? id) eqn:Hx; [|reflexivity].
  apply String.eqb_eq in Hx. congruence.
Qed.

Lemma replace_by_id_others (id : string) (y x : A) (xs : list A) :
  In x xs -> key x <> id ->
  In x (map (fun x => if key x =? id then y else x) xs).
Proof.
  intros Hin Hne. apply in_map_iff. exists x. split; [|exact Hin].
  destruct (key x =? id) eqn:Hx; [|reflexivity].
  apply String.eqb_eq in Hx. contradiction.
Qed.

Lemma replace_by_id_same (y : A) (xs : list A) :
  (forall x, In x xs -> key x = key y -> x = y) ->
  map (fun x => if key x =? key y then y else x) xs = xs.
Proof.
  intro Hsame. rewrite <- (map_id xs) at 2. apply map_ext_in. intros x Hin.
  destruct (key x =? key y) eqn:Hx; [|reflexivity].
  apply String.eqb_eq in Hx. symmetry. exact (Hsame x Hin Hx).
Qed.

End ReplaceFacts.

(** What [JSON] keeps is stored as it is. *)
Lemma json_kept_products {num : Type} {N : Number num} (products : list (Product.t num)) :
  (forall p pm, In p products -> In pm (Product.materials p) ->
                json (MaterialQty.quantity pm) = Some (MaterialQty.quantity pm)) ->
  map (Product.map json) products = map (Product.map Some) products.
Proof.
  intro Hkept. apply map_ext_in. intros p Hp. unfold Product.map. f_equal.
  apply map_ext_in. intros pm Hpm. unfold MaterialQty.map. f_equal.
  exact (Hkept p pm Hp Hpm).
Qed.

Lemma json_kept_materials {num : Type} {N : Number num}
    (materials : list (Material.t num)) :
  (forall m, In m materials ->
             json (Material.cost m) = Some (Material.cost m)
             /\ json (Material.stock m) = Some (Material.stock m)) ->
  map (Material.map json) materials = map (Material.map Some) materials.
Proof.
  intro Hkept. apply map_ext_in. intros m Hm. unfold Material.map.
  destruct (Hkept m Hm) as [-> ->]. reflexivity.
Qed.

(** X20: [ProductsPage.handleSubmit] keeps the catalogue well formed.  The
    ids of the products are those of before, in order, followed by the
    generated id when a product was created; products with another id than
    the edited one are untouched; if every product had at least one
    material before, every product has one after; and a storage that held
    the JSON of the page's list holds the JSON of the new list, in which a
    quantity that is not finite has become [null]: what is read back is the
    list itself when [JSON] keeps every quantity. *)
Theorem ProductsPage_handleSubmit_catalogue :
  forall (num : Type) (N : Number num) (uuid now : string)
         (st : ProductsPage.State) (ls : LocalStorage.t num),
    let st' := fst (fst (ProductsPage.handleSubmit uuid now st ls)) in
    let ls' := snd (fst (ProductsPage.handleSubmit uuid now st ls)) in
    map Product.id (ProductsPage.products st')
    = map Product.id (ProductsPage.products st)
      ++ match ProductsPage.editingProduct st,
               ProductsPage.Form.materials (ProductsPage.formData st) with
         | None, _ :: _ => [uuid]
         | _, _ => []
         end
    /\ (forall editing p,
           ProductsPage.editingProduct st = Some editing ->
           In p (ProductsPage.products st) -> Product.id p <> Product.id editing ->
           In p (ProductsPage.products st'))
    /\ (Forall (fun p => Product.materials p <> []) (ProductsPage.products st) ->
        Forall (fun p => Product.materials p <> []) (ProductsPage.products st'))
    /\ (LocalStorage.getProducts ls
        = map (Product.map json) (ProductsPage.products st) ->
        LocalStorage.getProducts ls'
        = map (Product.map json) (ProductsPage.products st')
        /\ ((forall p pm, In p (ProductsPage.products st') ->
                          In pm (Product.materials p) ->
                          json (MaterialQty.quantity pm) = Some (MaterialQty.quantity pm)) ->
            LocalStorage.getProducts ls'
            = map (Product.map Some) (ProductsPage.products st'))).
Proof.
  intros num N uuid now st ls st' ls'. subst st' ls'.
  unfold ProductsPage.handleSubmit.
  destruct (ProductsPage.Form.materials (ProductsPage.formData st))
    as [|pm pms] eqn:Hform; cbn [fst snd].
  - split; [|split; [|split]].
    + destruct (ProductsPage.editingProduct st); rewrite app_nil_r; reflexivity.
    + intros editing p _ Hin _. exact Hin.
    + intro H. exact H.
    + intro Hsync. split; [exact Hsync|]. intro Hkept. rewrite Hsync.
      apply json_kept_products. exact Hkept.
  - assert (Hdata : Product.materials (ProductsPage.productData uuid now st) <> []).
    { unfold ProductsPage.productData. rewrite Hform.
      destruct (ProductsPage.editingProduct st); discriminate. }
    destruct (ProductsPage.editingProduct st) as [editing|] eqn:Hedit;
      cbn [ProductsPage.products].
    + split; [|split; [|split]].
      * rewrite app_nil_r. apply (replace_by_id_keys Product.id).
        unfold ProductsPage.productData. rewrite Hedit. reflexivity.
      * intros editing' p [= <-] Hin Hne.
        apply (replace_by_id_others Product.id); assumption.
      * intro Hall. apply Forall_forall. intros p Hin.
        apply in_map_iff in Hin. destruct Hin as (q & Hq & Hin).
        destruct (Product.id q =? Product.id editing); subst p; [exact Hdata|].
        exact (proj1 (Forall_forall _ _) Hall q Hin).
      * intros _. split; [reflexivity|]. intro Hkept.
        cbn [LocalStorage.getProducts LocalStorage.saveProducts LocalStorage.PRODUCTS].
        apply json_kept_products. exact Hkept.
    + split; [|split; [|split]].
      * rewrite map_app. cbn [map]. unfold ProductsPage.productData.
        rewrite Hedit. reflexivity.
      * intros editing p [=].
      * intro Hall. apply Forall_app. split; [exact Hall|].
        constructor; [exact Hdata|constructor].
      * intros _. split; [reflexivity|]. intro Hkept.
        cbn [LocalStorage.getProducts LocalStorage.saveProducts LocalStorage.PRODUCTS].
        apply json_kept_products. exact Hkept.
Qed.

(** X21: opening the editor on a product and saving without a change
    leaves the list of products as it was, provided the product has a
    material and the products that have its id are that product; a product
    without materials cannot be saved again. *)
Theorem ProductsPage_handleEdit_then_handleSubmit :
  forall (num : Type) (N : Number num) (uuid now : string) (product : Product.t num)
         (st : ProductsPage.State) (ls : LocalStorage.t num),
    (forall p, In p (ProductsPage.products st) ->
               Product.id p = Product.id product -> p = product) ->
    ProductsPage.products
      (fst (fst (ProductsPage.handleSubmit uuid now
                   (ProductsPage.handleEdit product st) ls)))
    = ProductsPage.products st
    /\ (Product.materials product = [] ->
        ProductsPage.handleSubmit uuid now (ProductsPage.handleEdit product st) ls
        = (ProductsPage.handleEdit product st, ls,
           {| title := "Error"; variant := destructive |})).
Proof.
  intros num N uuid now product st ls Hsame.
  unfold ProductsPage.handleSubmit.
  cbn [ProductsPage.handleEdit ProductsPage.formData ProductsPage.Form.materials
       ProductsPage.editingProduct ProductsPage.products].
  destruct (Product.materials product) as [|pm pms] eqn:Hmat.
  - split; reflexivity.
  - split; [|discriminate]. cbn [fst ProductsPage.products].
    assert (Hdata :
      ProductsPage.productData uuid now (ProductsPage.handleEdit product st) = product).
    { unfold ProductsPage.productData. cbn. destruct product; reflexivity. }
    rewrite Hdata. apply (replace_by_id_same Product.id). exact Hsame.
Qed.

Lemma ProductsPage_handleEdit_then_handleSubmit_witness :
  ProductsPage.products
    (fst (fst (ProductsPage.handleSubmit "uuid" "2024-02-02T00:00:00.000Z"
                 (ProductsPage.handleEdit Scenario.p1 Sample.products_page)
                 Sample.storage)))
  = [Scenario.p1].
Proof.
  refine (proj1 (ProductsPage_handleEdit_then_handleSubmit binary64 _ "uuid"
                   "2024-02-02T00:00:00.000Z" Scenario.p1 Sample.products_page
                   Sample.storage _)).
  intros p [<-|[]] _. reflexivity.
Defined.

(** X22: [MaterialsPage.handleSubmit] always writes: the ids of the
    materials are those of before, in order, followed by the generated id
    when a material was created; materials with another id than the edited
    one are untouched; the edited material keeps its id and its creation
    date; and the storage holds the JSON of the list shown, in which a cost
    or a stock that is not finite ([parseFloat] of an empty field is [NaN])
    has become [null]: what is read back is the list itself when [JSON]
    keeps every cost and stock. *)
Theorem MaterialsPage_handleSubmit_catalogue :
  forall (num : Type) (N : Number num) (parseFloat : string -> num) (uuid now : string)
         (st : MaterialsPage.State) (ls : LocalStorage.t num),
    let st' := fst (fst (MaterialsPage.handleSubmit parseFloat uuid now st ls)) in
    let ls' := snd (fst (MaterialsPage.handleSubmit parseFloat uuid now st ls)) in
    map Material.id (MaterialsPage.materials st')
    = map Material.id (MaterialsPage.materials st)
      ++ match MaterialsPage.editingMaterial st with
         | None => [uuid]
         | Some _ => []
         end
    /\ (forall editing,
           MaterialsPage.editingMaterial st = Some editing ->
           Material.id (MaterialsPage.materialData parseFloat uuid now st)
           = Material.id editing
           /\ Material.createdAt (MaterialsPage.materialData parseFloat uuid now st)
              = Material.createdAt editing
           /\ forall m, In m (MaterialsPage.materials st) ->
                        Material.id m <> Material.id editing ->
                        In m (MaterialsPage.materials st'))
    /\ LocalStorage.getMaterials ls'
       = map (Material.map json) (MaterialsPage.materials st')
    /\ ((forall m, In m (MaterialsPage.materials st') ->
                   json (Material.cost m) = Some (Material.cost m)
                   /\ json (Material.stock m) = Some (Material.stock m)) ->
        LocalStorage.getMaterials ls'
        = map (Material.map Some) (MaterialsPage.materials st'))
    /\ LocalStorage.getProducts ls' = LocalStorage.getProducts ls
    /\ LocalStorage.getOrders ls' = LocalStorage.getOrders ls.
Proof.
  intros num N parseFloat uuid now st ls st' ls'. subst st' ls'.
  unfold MaterialsPage.handleSubmit, MaterialsPage.materialData.
  cbn [fst snd MaterialsPage.materials].
  destruct (MaterialsPage.editingMaterial st) as [editing|].
  - split; [|split; [|split; [reflexivity|split; [|split; reflexivity]]]].
    + rewrite app_nil_r. apply (replace_by_id_keys Material.id). reflexivity.
    + intros editing' [= <-]. split; [reflexivity|]. split; [reflexivity|].
      intros m Hin Hne. apply (replace_by_id_others Material.id); assumption.
    + intro Hkept.
      cbn [LocalStorage.getMaterials LocalStorage.saveMaterials LocalStorage.MATERIALS].
      apply json_kept_materials. exact Hkept.
  - split; [|split; [|split; [reflexivity|split; [|split; reflexivity]]]].
    + rewrite map_app. reflexivity.
    + intros editing [=].
    + intro Hkept.
      cbn [LocalStorage.getMaterials LocalStorage.saveMaterials LocalStorage.MATERIALS].
      apply json_kept_materials. exact Hkept.
Qed.

(** ** OrdersPage against the server *)




(** ** CSV export *)

Section CsvFacts.

Lemma includes_comma (s : string) :
  UsersPage.includes Csv.comma s = Csv.occurs (ascii_of_nat 44) s.
Proof.
  unfold UsersPage.includes.
  induction s as [|c s IH]; [reflexivity|].
  cbn [Csv.occurs]. cbn [String.index Csv.comma prefix].
  destruct (Ascii.eqb_spec c (ascii_of_nat 44)) as [->|Hne].
  - cbn. destruct s; reflexivity.
  - cbn [orb]. rewrite <- IH.
    destruct (ascii_dec (ascii_of_nat 44) c) as [Heq|_]; [congruence|].
    destruct (String.index 0 Csv.comma s); reflexivity.
Qed.

Lemma occurs_app (c : ascii) (s t : string) :
  Csv.occurs c (s ++ t)%string = (Csv.occurs c s || Csv.occurs c t)%bool.
Proof.
  induction s as [|a s IH]; [reflexivity|].
  cbn [String.append Csv.occurs]. rewrite IH. apply orb_assoc.
Qed.

Lemma split_plain (sep : ascii) (s : string) :
  Csv.occurs sep s = false -> Csv.split sep s = [s].
Proof.
  induction s as [|a s IH]; [reflexivity|].
  cbn [Csv.occurs Csv.split]. intro H. apply orb_false_iff in H.
  destruct H as [Ha Hs]. rewrite Ha, (IH Hs). reflexivity.
Qed.

Lemma split_app (sep : ascii) (s t : string) :
  Csv.occurs sep s = false ->
  Csv.split sep (s ++ String sep t)%string = s :: Csv.split sep t.
Proof.
  induction s as [|a s IH]; intro H.
  - cbn [String.append Csv.split]. rewrite Ascii.eqb_refl. reflexivity.
  - cbn [Csv.occurs] in H. apply orb_false_iff in H. destruct H as [Ha Hs].
    cbn [String.append Csv.split]. rewrite Ha, (IH Hs). reflexivity.
Qed.

(** Splitting at the separator undoes [join] when no field contains the
    separator. *)
Lemma split_concat (sep : ascii) (fields : list string) :
  fields <> [] ->
  Forall (fun field => Csv.occurs sep field = false) fields ->
  Csv.split sep (String.concat (String sep EmptyString) fields) = fields.
Proof.
  intros Hne Hall. induction Hall as [|x l Hx Hl IH]; [contradiction Hne; reflexivity|].
  destruct l as [|y l].
  - cbn [String.concat]. apply split_plain. exact Hx.
  - change (String.concat (String sep EmptyString) (x :: y :: l))
      with (x ++ String sep (String.concat (String sep EmptyString) (y :: l)))%string.
    rewrite (split_app sep x _ Hx). f_equal. apply IH. discriminate.
Qed.

Lemma occurs_concat (c sep : ascii) (fields : list string) :
  Ascii.eqb sep c = false ->
  Forall (fun field => Csv.occurs c field = false) fields ->
  Csv.occurs c (String.concat (String sep EmptyString) fields) = false.
Proof.
  intros Hsep Hall. induction Hall as [|x l Hx Hl IH]; [reflexivity|].
  destruct l as [|y l]; [exact Hx|].
  change (String.concat (String sep EmptyString) (x :: y :: l))
    with (x ++ String sep (String.concat (String sep EmptyString) (y :: l)))%string.
  rewrite occurs_app, Hx. cbn [orb Csv.occurs]. rewrite Hsep. exact IH.
Qed.

Lemma cell_plain (value : Csv.Value) :
  Csv.plain (Csv.text value) -> Csv.cell value = Csv.text value.
Proof.
  intros [Hcomma _]. destruct value as [s|t|]; try reflexivity.
  cbn [Csv.cell Csv.text] in *. rewrite includes_comma, Hcomma. reflexivity.
Qed.

End CsvFacts.

(** X24: when no header and no value contains a comma or a line feed,
    the exported text can be read back: its lines are the header line and
    one line per row, in order, and the fields of each line are the headers,
    respectively the texts of the row's values under the headers, an absent
    value reading as the empty text. *)
Theorem csvContent_read_back :
  forall (first : Csv.Row) (rest : list Csv.Row) (content : string),
    let data := first :: rest in
    let headers := map fst first in
    headers <> [] ->
    Forall Csv.plain headers ->
    Forall (fun row =>
              Forall (fun header => Csv.plain (Csv.text (Csv.lookup header row))) headers)
      data ->
    Csv.csvContent data = Some content ->
    map (Csv.split (ascii_of_nat 44)) (Csv.split (ascii_of_nat 10) content)
    = headers
      :: map (fun row => map (fun header => Csv.text (Csv.lookup header row)) headers)
           data.
Proof.
  intros first rest content data headers Hne Hheaders Hdata.
  set (line := fun row =>
                 String.concat Csv.comma
                   (map (fun header => Csv.cell (Csv.lookup header row)) headers)).
  intro Hcontent.
  assert (Hc : content
               = String.concat Csv.newline
                   (String.concat Csv.comma headers :: map line data)).
  { unfold Csv.csvContent in Hcontent. subst data.
    injection Hcontent as Hcontent. rewrite <- Hcontent. reflexivity. }
  rewrite Hc. clear Hc Hcontent.
  assert (Hfields : forall row, In row data ->
            map (fun header => Csv.cell (Csv.lookup header row)) headers
            = map (fun header => Csv.text (Csv.lookup header row)) headers).
  { intros row Hin. apply map_ext_in. intros header Hh. apply cell_plain.
    pose proof (proj1 (Forall_forall _ _) Hdata row Hin) as Hrow.
    exact (proj1 (Forall_forall _ _) Hrow header Hh). }
  assert (Hplain : forall row, In row data ->
            Forall Csv.plain
              (map (fun header => Csv.text (Csv.lookup header row)) headers)).
  { intros row Hin. apply Forall_map.
    exact (proj1 (Forall_forall _ _) Hdata row Hin). }
  assert (Hcommas : forall fields, Forall Csv.plain fields ->
            Forall (fun field => Csv.occurs (ascii_of_nat 44) field = false) fields).
  { intros fields H. eapply Forall_impl; [|exact H]. intros s [Hs _]. exact Hs. }
  assert (Hfeeds : forall fields, Forall Csv.plain fields ->
            Forall (fun field => Csv.occurs (ascii_of_nat 10) field = false) fields).
  { intros fields H. eapply Forall_impl; [|exact H]. intros s [_ Hs]. exact Hs. }
  assert (Hlines :
    Forall (fun l => Csv.occurs (ascii_of_nat 10) l = false)
      (String.concat Csv.comma headers :: map line data)).
  { constructor.
    - apply occurs_concat; [reflexivity|]. apply Hfeeds. exact Hheaders.
    - apply Forall_map, Forall_forall. intros row Hin. unfold line.
      rewrite (Hfields row Hin).
      apply occurs_concat; [reflexivity|]. apply Hfeeds, Hplain. exact Hin. }
  change Csv.newline with (String (ascii_of_nat 10) EmptyString).
  rewrite (split_concat (ascii_of_nat 10)); [|discriminate|exact Hlines].
  cbn [map]. f_equal.
  - apply (split_concat (ascii_of_nat 44)); [exact Hne|]. apply Hcommas, Hheaders.
  - rewrite map_map. apply map_ext_in. intros row Hin. unfold line.
    rewrite (Hfields row Hin).
    apply (split_concat (ascii_of_nat 44)).
    + intro Hnil. apply map_eq_nil in Hnil. exact (Hne Hnil).
    + apply Hcommas, Hplain. exact Hin.
Qed.

Lemma csvContent_read_back_witness :
  exists content,
    Csv.csvContent [Sample.csv_steel; Sample.csv_wood] = Some content
    /\ map (Csv.split (ascii_of_nat 44)) (Csv.split (ascii_of_nat 10) content)
       = [["Name"; "Cost"]; ["Steel"; "2.5"]; ["Wood"; EmptyString]].
Proof.
  eexists. split; [reflexivity|].
  apply (csvContent_read_back Sample.csv_steel [Sample.csv_wood]).
  - discriminate.
  - repeat constructor.
  - repeat constructor.
  - reflexivity.
Defined.

(** ** PUT on an id that is not there *)

(** X25: a PUT route on an id that no row has creates nothing: the
    request is rejected on the client side (404, or 500 when a DECIMAL
    column refuses a value of the body) and the database is unchanged. *)
Theorem put_absent :
  forall (num : Type) (sql_eq : string -> string -> bool)
         (decimal_10_2 decimal_12_2 : num -> option num) (id : string)
         (db : Server.Db num),
    (forall body,
        Server.absent sql_eq User.id id (Server.users db) ->
        Server.put_users sql_eq id body db = (Server.Status404 "User not found", db))
    /\ (forall body,
           Server.absent sql_eq Material.id id (Server.materials db) ->
           snd (Server.put_materials sql_eq decimal_10_2 decimal_12_2 id body db) = db
           /\ Api.request
                (fst (Server.put_materials sql_eq decimal_10_2 decimal_12_2 id body db))
              = Api.Rejected)
    /\ (forall body,
           Server.absent sql_eq Product.id id (Server.products db) ->
           Server.put_products sql_eq id body db
           = (Server.Status404 "Product not found", db))
    /\ (forall body,
           Server.absent sql_eq Order.id id (Server.orders db) ->
           snd (Server.put_orders sql_eq decimal_12_2 id body db) = db
           /\ Api.request (fst (Server.put_orders sql_eq decimal_12_2 id body db))
              = Api.Rejected).
Proof.
  intros num sql_eq decimal_10_2 decimal_12_2 id db.
  split; [|split; [|split]]; intros body Habsent.
  - unfold Server.put_users, Server.update_user.
    assert (Hnone : existsb (Server.matches sql_eq User.id id) (Server.users db) = false).
    { destruct (existsb _ (Server.users db)) eqn:Hex; [|reflexivity].
      apply existsb_exists in Hex. destruct Hex as (row & Hin & Hrow).
      rewrite (Habsent row Hin) in Hrow. discriminate Hrow. }
    rewrite Hnone. cbn [andb].
    rewrite (sql_update_none sql_eq User.id id _ _ Habsent). reflexivity.
  - unfold Server.put_materials.
    destruct (Server.material_row decimal_10_2 decimal_12_2
                (Server.with_material_id id body)) as [err|row];
      [split; reflexivity|].
    rewrite (sql_update_none sql_eq Material.id id _ _ Habsent). split; reflexivity.
  - unfold Server.put_products.
    rewrite (sql_update_none sql_eq Product.id id _ _ Habsent). reflexivity.
  - unfold Server.put_orders.
    destruct (Server.order_row decimal_12_2 (Server.with_order_id id body))
      as [err|row]; [split; reflexivity|].
    rewrite (sql_update_none sql_eq Order.id id _ _ Habsent). split; reflexivity.
Qed.

Lemma put_absent_witness :
  Server.put_products String.eqb "p2" Scenario.p1 Sample.db
  = (Server.Status404 "Product not found", Sample.db).
Proof.
  apply (proj1 (proj2 (proj2 (put_absent binary64 String.eqb Some Some "p2" Sample.db)))).
  intros row [<-|[]]. reflexivity.
Defined.
